(** * Backgammon session engine: rule engine, dice duel and room handlers

    A shallow embedding of the server-side game logic:
    - [services/gameService.ts] in its shared-home version (both players
      move toward index 0, enter on indices 18..23 and bear off from
      indices 0..5), module [Shared]; [makeMove] and [checkWinCondition]
      have the same text in both versions and stand outside the modules;
    - [services/gameService.ts] in its per-player-home version, module
      [Directional];
    - [services/diceGameService.ts], module [DiceDuel], over a store of
      state objects;
    - the [roll-dice] and [make-move] handlers of [socket/gameHandler.ts]
      that go with the shared-home rules, module [Handler], each split at
      its awaited insert, with the schedules of two handlers on one room.

    JavaScript numbers that hold checker counts, indices and dice are
    integers of [Z]; an access [xs[i]] outside the array yields
    [undefined], and reading a property of it throws, which the embedding
    writes as [Throw].

    The definitions come first; the facts about them follow from
    "Basic facts" on. *)

From Stdlib Require Import ZArith Lia String.
From stdpp Require Import base option list gmap strings.

Local Open Scope Z_scope.

(** ** Exceptions *)

(** The result of a computation that may throw (a [TypeError] on
    [undefined[...]] or [null[...]]). *)
Inductive Outcome (A : Type) : Type :=
  | Ret (a : A)
  | Throw.
Arguments Ret {A} a.
Arguments Throw {A}.

Definition bindO {A B : Type} (m : Outcome A) (k : A -> Outcome B) : Outcome B :=
  match m with
  | Ret a => k a
  | Throw => Throw
  end.

Notation "'let!' x ':=' m 'in' k" := (bindO m (fun x => k))
  (at level 10, x name, m at level 100, k at level 200).

(** [for (i of idxs) { if (body i) return true; } return false;] with the
    body allowed to throw.  Every early-exit scan of the rule engine has
    this shape. *)
Fixpoint any_at (body : Z -> Outcome bool) (idxs : list Z) : Outcome bool :=
  match idxs with
  | [] => Ret false
  | i :: rest =>
      let! hit := body i in
      if hit then Ret true else any_at body rest
  end.

(** [a && k] where the right operand may throw and is evaluated only when
    the left one is true. *)
Definition and_then (a : bool) (k : Outcome bool) : Outcome bool :=
  if a then k else Ret false.

(** ** Data model ([shared/src/types.ts]) *)

Inductive Player : Type := P1 | P2.

#[global] Instance Player_eq_dec : EqDecision Player.
Proof. solve_decision. Defined.

Definition Player_eqb (p q : Player) : bool :=
  match p, q with
  | P1, P1 | P2, P2 => true
  | _, _ => false
  end.

(** [player === 1 ? 2 : 1] *)
Definition opponent (p : Player) : Player :=
  match p with P1 => P2 | P2 => P1 end.

(** A point is the two-element array [[player1_checkers, player2_checkers]]. *)
Definition PointT : Type := (Z * Z)%type.

(** [pt[player - 1]] *)
Definition count (pt : PointT) (p : Player) : Z :=
  match p with P1 => fst pt | P2 => snd pt end.

(** [pt[player - 1] = v] *)
Definition set_count (pt : PointT) (p : Player) (v : Z) : PointT :=
  match p with P1 => (v, snd pt) | P2 => (fst pt, v) end.

(** The objects [{ player1: number; player2: number }]. *)
Record PerPlayer : Type := mkPerPlayer { player1 : Z; player2 : Z }.

(** [o[player === 1 ? 'player1' : 'player2']] *)
Definition per (o : PerPlayer) (p : Player) : Z :=
  match p with P1 => player1 o | P2 => player2 o end.

Definition set_per (o : PerPlayer) (p : Player) (v : Z) : PerPlayer :=
  match p with
  | P1 => mkPerPlayer v (player2 o)
  | P2 => mkPerPlayer (player1 o) v
  end.

Record BackgammonBoard : Type := mkBoard {
  points : list PointT;
  bar : PerPlayer;
  borne_off : PerPlayer;
  dice : option (Z * Z);
  current_player : Player;
  game_id : string;
}.

(** [board.points[i]], to be indexed further: [Throw] when [i] is not an
    index of the array. *)
Definition point_at (pts : list PointT) (i : Z) : Outcome PointT :=
  if 0 <=? i then
    match pts !! Z.to_nat i with
    | Some pt => Ret pt
    | None => Throw
    end
  else Throw.

Definition with_points (b : BackgammonBoard) (pts : list PointT) : BackgammonBoard :=
  mkBoard pts (bar b) (borne_off b) (dice b) (current_player b) (game_id b).

Definition with_bar (b : BackgammonBoard) (o : PerPlayer) : BackgammonBoard :=
  mkBoard (points b) o (borne_off b) (dice b) (current_player b) (game_id b).

Definition with_borne_off (b : BackgammonBoard) (o : PerPlayer) : BackgammonBoard :=
  mkBoard (points b) (bar b) o (dice b) (current_player b) (game_id b).

(** [board.points[i][player - 1] = f(board.points[i][player - 1])] *)
Definition update_count (b : BackgammonBoard) (i : Z) (p : Player) (f : Z -> Z)
  : Outcome BackgammonBoard :=
  let! pt := point_at (points b) i in
  Ret (with_points b (<[Z.to_nat i := set_count pt p (f (count pt p))]> (points b))).

(** Where a move starts and where it goes: [number | 'bar'] and
    [number | 'off']. *)
Inductive Origin : Type := FromBar | FromPoint (i : Z).
Inductive Dest : Type := ToOff | ToPoint (i : Z).

(** ** Moves and the win test (the same text in both versions of the file) *)

(** The blot rule of [makeMove]:
    [if (points[to][opponent - 1] === 1) { points[to][opponent - 1] = 0; bar[opponent]++; }] *)
Definition hit_blot (b : BackgammonBoard) (to : Z) (p : Player) : Outcome BackgammonBoard :=
  let! pt := point_at (points b) to in
  if count pt (opponent p) =? 1 then
    let! b1 := update_count b to (opponent p) (fun _ => 0) in
    Ret (with_bar b1 (set_per (bar b1) (opponent p) (per (bar b1) (opponent p) + 1)))
  else Ret b.

Definition makeMove (board : BackgammonBoard) (from : Origin) (to : Dest)
    (player : Player) (diceValue : Z) : Outcome BackgammonBoard :=
  let newBoard := board in
  match from, to with
  | FromBar, ToOff => Ret board
  | FromBar, ToPoint to =>
      let b1 := with_bar newBoard (set_per (bar newBoard) player (per (bar newBoard) player - 1)) in
      let! b2 := hit_blot b1 to player in
      update_count b2 to player (fun c => c + 1)
  | FromPoint from, ToOff =>
      let! b1 := update_count newBoard from player (fun c => c - 1) in
      Ret (with_borne_off b1 (set_per (borne_off b1) player (per (borne_off b1) player + 1)))
  | FromPoint from, ToPoint to =>
      let! b1 := update_count newBoard from player (fun c => c - 1) in
      let! b2 := hit_blot b1 to player in
      update_count b2 to player (fun c => c + 1)
  end.

Definition checkWinCondition (board : BackgammonBoard) : option Player :=
  if player1 (borne_off board) =? 15 then Some P1
  else if player2 (borne_off board) =? 15 then Some P2
  else None.

(** [!usedDice[k]]: a missing entry is [undefined], which is falsy. *)
Definition unused (usedDice : list bool) (k : nat) : bool :=
  negb (default false (usedDice !! k)).

(** [d[k]] on a pair of dice, for [k] in 0..1. *)
Definition pick (d : Z * Z) (k : nat) : Z :=
  match k with O => fst d | _ => snd d end.

(** [dice[k]]; [dice] may be [null] at run time, and indexing it throws. *)
Definition die (dice : option (Z * Z)) (k : nat) : Outcome Z :=
  match dice with
  | Some d => Ret (pick d k)
  | None => Throw
  end.

(** An empty point row, [Array(24).fill(null).map(() => [0, 0])]. *)
Definition empty_points : list PointT := replicate 24 (0, 0).

(** [points[i] = pt] on a fresh array of 24 rows. *)
Definition put (i : nat) (pt : PointT) (pts : list PointT) : list PointT :=
  <[i := pt]> pts.

(** ** The rule engine, shared-home version

    Both players move toward index 0, enter from the bar on indices
    18..23 and bear off from indices 0..5. *)
Module Shared.

Definition initializeBoard : BackgammonBoard :=
  let points := empty_points in
  let points := put 6 (0, 5) points in
  let points := put 8 (3, 0) points in
  let points := put 12 (5, 0) points in
  let points := put 17 (0, 2) points in
  let points := put 5 (5, 0) points in
  let points := put 3 (0, 3) points in
  let points := put 18 (0, 5) points in
  let points := put 23 (2, 0) points in
  {| points := points;
     bar := {| player1 := 0; player2 := 0 |};
     borne_off := {| player1 := 0; player2 := 0 |};
     dice := None;
     current_player := P1;
     game_id := EmptyString |}.

Definition isInHomeBoard (pointIndex : Z) (player : Player) : bool :=
  (0 <=? pointIndex) && (pointIndex <=? 5).

Definition allInHomeBoard (board : BackgammonBoard) (player : Player) : Outcome bool :=
  let homeStart := 0 in
  let homeEnd := 5 in
  let! outside :=
    any_at (fun i =>
      if (i <? homeStart) || (i >? homeEnd) then
        let! pt := point_at (points board) i in
        Ret (count pt player >? 0)
      else Ret false) (seqZ 0 24) in
  if outside then Ret false
  else Ret (per (bar board) player =? 0).

Definition isValidMove (board : BackgammonBoard) (from : Origin) (to : Dest)
    (player : Player) (diceValue : option Z) : Outcome bool :=
  match from with
  | FromBar =>
      match to with
      | ToOff => Ret false
      | ToPoint to =>
          let entryStart := 18 in
          let entryEnd := 23 in
          if (to <? entryStart) || (to >? entryEnd) then Ret false else
          let! pt := point_at (points board) to in
          if count pt (opponent player) >? 1 then Ret false else
          if per (bar board) player =? 0 then Ret false else
          match diceValue with
          | Some diceValue =>
              let expectedEntry := 24 - diceValue in
              let expectedIndex := expectedEntry - 1 in
              if negb (to =? expectedIndex) then Ret false else Ret true
          | None => Ret true
          end
      end
  | FromPoint from =>
      match to with
      | ToOff =>
          let! home := allInHomeBoard board player in
          if negb home then Ret false else
          if negb (isInHomeBoard from player) then Ret false else
          let! pt := point_at (points board) from in
          if count pt player =? 0 then Ret false else
          match diceValue with
          | Some diceValue =>
              let pointNumber := from + 1 in
              if pointNumber =? diceValue then Ret true else
              if pointNumber <? diceValue then
                let homeEnd := 5 in
                let! higher :=
                  any_at (fun i =>
                    let! pti := point_at (points board) i in
                    Ret (count pti player >? 0)) (seqZ (from + 1) (homeEnd - from)) in
                if higher then Ret false else Ret true
              else Ret false
          | None => Ret true
          end
      | ToPoint to =>
          if (from <? 0) || (from >? 23) || (to <? 0) || (to >? 23) then Ret false else
          let! ptf := point_at (points board) from in
          if count ptf player =? 0 then Ret false else
          if to >=? from then Ret false else
          let! ptt := point_at (points board) to in
          if count ptt (opponent player) >? 1 then Ret false else
          match diceValue with
          | Some diceValue =>
              let distance := from - to in
              if negb (distance =? diceValue) then Ret false else Ret true
          | None => Ret true
          end
      end
  end.

(** The block [if (!usedDice[k]) { ... }] of [canPlayerMove], written
    twice in the source, once per die. *)
Definition try_die (board : BackgammonBoard) (player : Player)
    (dice : option (Z * Z)) (usedDice : list bool) (i : Z) (k : nat) : Outcome bool :=
  if unused usedDice k then
    let! d := die dice k in
    let to := i - d in
    let! moves := and_then ((0 <=? to) && (to <? 24))
                    (isValidMove board (FromPoint i) (ToPoint to) player (Some d)) in
    if moves then Ret true else
    let! home := and_then (isInHomeBoard i player) (allInHomeBoard board player) in
    if home then isValidMove board (FromPoint i) ToOff player (Some d)
    else Ret false
  else Ret false.

(** [!usedDice[k] && isValidMove(board, 'bar', i, player, dice[k])] *)
Definition try_entry (board : BackgammonBoard) (player : Player)
    (dice : option (Z * Z)) (usedDice : list bool) (i : Z) (k : nat) : Outcome bool :=
  if unused usedDice k then
    let! d := die dice k in
    isValidMove board FromBar (ToPoint i) player (Some d)
  else Ret false.

Definition canPlayerMove (board : BackgammonBoard) (player : Player)
    (dice : option (Z * Z)) (usedDice : list bool) : Outcome bool :=
  if per (bar board) player >? 0 then
    let entryStart := 18 in
    let entryEnd := 23 in
    any_at (fun i =>
      let! first := try_entry board player dice usedDice i 0 in
      if first then Ret true else try_entry board player dice usedDice i 1)
      (seqZ entryStart (entryEnd - entryStart + 1))
  else
    any_at (fun i =>
      let! pt := point_at (points board) i in
      if count pt player >? 0 then
        let! first := try_die board player dice usedDice i 0 in
        if first then Ret true else try_die board player dice usedDice i 1
      else Ret false) (seqZ 0 24).

End Shared.

(** ** The rule engine, per-player-home version

    Player 1 moves toward index 0 and player 2 toward index 23; player 1
    enters on indices 0..5 and bears off from 18..23, player 2 enters on
    18..23 and bears off from 0..5. *)
Module Directional.

Definition initializeBoard : BackgammonBoard :=
  let points := empty_points in
  let points := put 23 (2, 0) points in
  let points := put 12 (5, 0) points in
  let points := put 7 (3, 0) points in
  let points := put 5 (5, 0) points in
  let points := put 0 (0, 2) points in
  let points := put 11 (0, 5) points in
  let points := put 16 (0, 3) points in
  let points := put 18 (0, 5) points in
  {| points := points;
     bar := {| player1 := 0; player2 := 0 |};
     borne_off := {| player1 := 0; player2 := 0 |};
     dice := None;
     current_player := P1;
     game_id := EmptyString |}.

Definition isInHomeBoard (pointIndex : Z) (player : Player) : bool :=
  match player with
  | P1 => (18 <=? pointIndex) && (pointIndex <=? 23)
  | P2 => (0 <=? pointIndex) && (pointIndex <=? 5)
  end.

Definition allInHomeBoard (board : BackgammonBoard) (player : Player) : Outcome bool :=
  let homeStart := match player with P1 => 18 | P2 => 0 end in
  let homeEnd := match player with P1 => 23 | P2 => 5 end in
  let! outside :=
    any_at (fun i =>
      if (i <? homeStart) || (i >? homeEnd) then
        let! pt := point_at (points board) i in
        Ret (count pt player >? 0)
      else Ret false) (seqZ 0 24) in
  if outside then Ret false
  else Ret (per (bar board) player =? 0).

Definition isValidMove (board : BackgammonBoard) (from : Origin) (to : Dest)
    (player : Player) (diceValue : option Z) : Outcome bool :=
  match from with
  | FromBar =>
      match to with
      | ToOff => Ret false
      | ToPoint to =>
          let entryStart := match player with P1 => 0 | P2 => 18 end in
          let entryEnd := match player with P1 => 5 | P2 => 23 end in
          if (to <? entryStart) || (to >? entryEnd) then Ret false else
          let! pt := point_at (points board) to in
          if count pt (opponent player) >? 1 then Ret false else
          if per (bar board) player =? 0 then Ret false else
          match diceValue with
          | Some diceValue =>
              let entryPoint := match player with P1 => to + 1 | P2 => 24 - to end in
              if negb (entryPoint =? diceValue) then Ret false else Ret true
          | None => Ret true
          end
      end
  | FromPoint from =>
      match to with
      | ToOff =>
          let! home := allInHomeBoard board player in
          if negb home then Ret false else
          if negb (isInHomeBoard from player) then Ret false else
          let! pt := point_at (points board) from in
          if count pt player =? 0 then Ret false else
          match diceValue with
          | Some diceValue =>
              let pointNumber := match player with P1 => 24 - from | P2 => from + 1 end in
              if pointNumber =? diceValue then Ret true else
              if pointNumber <? diceValue then
                let homeStart := match player with P1 => 18 | P2 => 0 end in
                let homeEnd := match player with P1 => 23 | P2 => 5 end in
                let! higher :=
                  any_at (fun i =>
                    let! pti := point_at (points board) i in
                    Ret (count pti player >? 0))
                    (match player with
                     | P1 => seqZ (from + 1) (homeEnd - from)
                     | P2 => reverse (seqZ homeStart (from - homeStart))
                     end) in
                if higher then Ret false else Ret true
              else Ret false
          | None => Ret true
          end
      | ToPoint to =>
          if (from <? 0) || (from >? 23) || (to <? 0) || (to >? 23) then Ret false else
          let! ptf := point_at (points board) from in
          if count ptf player =? 0 then Ret false else
          let direction := match player with P1 => -1 | P2 => 1 end in
          if (to - from) * direction <=? 0 then Ret false else
          let! ptt := point_at (points board) to in
          if count ptt (opponent player) >? 1 then Ret false else
          match diceValue with
          | Some diceValue =>
              let distance := Z.abs (to - from) in
              if negb (distance =? diceValue) then Ret false else Ret true
          | None => Ret true
          end
      end
  end.

(** The block [if (!usedDice[k]) { ... }] of [canPlayerMove]. *)
Definition try_die (board : BackgammonBoard) (player : Player)
    (dice : option (Z * Z)) (usedDice : list bool) (i : Z) (k : nat) : Outcome bool :=
  if unused usedDice k then
    let direction := match player with P1 => -1 | P2 => 1 end in
    let! d := die dice k in
    let to := i + d * direction in
    let! moves := and_then ((0 <=? to) && (to <? 24))
                    (isValidMove board (FromPoint i) (ToPoint to) player (Some d)) in
    if moves then Ret true else
    let! home := and_then (isInHomeBoard i player) (allInHomeBoard board player) in
    if home then isValidMove board (FromPoint i) ToOff player (Some d)
    else Ret false
  else Ret false.

(** [!usedDice[k] && isValidMove(board, 'bar', i, player, dice[k])] *)
Definition try_entry (board : BackgammonBoard) (player : Player)
    (dice : option (Z * Z)) (usedDice : list bool) (i : Z) (k : nat) : Outcome bool :=
  if unused usedDice k then
    let! d := die dice k in
    isValidMove board FromBar (ToPoint i) player (Some d)
  else Ret false.

Definition canPlayerMove (board : BackgammonBoard) (player : Player)
    (dice : option (Z * Z)) (usedDice : list bool) : Outcome bool :=
  if per (bar board) player >? 0 then
    let entryStart := match player with P1 => 0 | P2 => 18 end in
    let entryEnd := match player with P1 => 5 | P2 => 23 end in
    any_at (fun i =>
      let! first := try_entry board player dice usedDice i 0 in
      if first then Ret true else try_entry board player dice usedDice i 1)
      (seqZ entryStart (entryEnd - entryStart + 1))
  else
    any_at (fun i =>
      let! pt := point_at (points board) i in
      if count pt player >? 0 then
        let! first := try_die board player dice usedDice i 0 in
        if first then Ret true else try_die board player dice usedDice i 1
      else Ret false) (seqZ 0 24).

End Directional.

(** ** Specification vocabulary *)

(** The reflection that exchanges the two rows of the displayed board:
    indices 0..5 with 11..6, and 12..17 with 18..23. *)
Definition row_mirror (i : Z) : Z :=
  if i <=? 11 then 11 - i
  else if i <=? 17 then i + 6
  else i - 6.


(** The number of [p]'s checkers on point [i]; 0 outside the array. *)
Definition checkers (b : BackgammonBoard) (i : Z) (p : Player) : Z :=
  if 0 <=? i then
    match points b !! Z.to_nat i with
    | Some pt => count pt p
    | None => 0
    end
  else 0.

Fixpoint on_points (pts : list PointT) (p : Player) : Z :=
  match pts with
  | [] => 0
  | pt :: rest => count pt p + on_points rest p
  end.

(** All of [p]'s checkers: on the points, on the bar and borne off. *)
Definition total (b : BackgammonBoard) (p : Player) : Z :=
  on_points (points b) p + per (bar b) p + per (borne_off b) p.

Definition fifteen (b : BackgammonBoard) : Prop :=
  forall p, total b p = 15.

(** A board as the type describes it: 24 points and no negative count. *)
Record WellFormed (b : BackgammonBoard) : Prop := mkWellFormed {
  wf_length : length (points b) = 24%nat;
  wf_points : forall i p, 0 <= checkers b i p;
  wf_bar : forall p, 0 <= per (bar b) p;
  wf_borne_off : forall p, 0 <= per (borne_off b) p;
}.

(** Boards that legal moves produce from a starting board. *)
Inductive reachable_from (isValid : BackgammonBoard -> Origin -> Dest -> Player -> option Z -> Outcome bool)
    (start : BackgammonBoard) : BackgammonBoard -> Prop :=
  | reach_start : reachable_from isValid start start
  | reach_move b from to p d b' :
      reachable_from isValid start b ->
      isValid b from to p (Some d) = Ret true ->
      makeMove b from to p d = Ret b' ->
      reachable_from isValid start b'.

(** The non-zero checker counts of [p], in index order. *)
Definition occupied (b : BackgammonBoard) (p : Player) : list Z :=
  filter (fun c => c <> 0) (map (fun pt => count pt p) (points b)).

(** The two players' placements mirror each other across the 24 points. *)
Definition mirror_symmetric (b : BackgammonBoard) : Prop :=
  forall i, 0 <= i <= 23 -> checkers b i P2 = checkers b (23 - i) P1.

(** A point index of the board. *)
Definition in_points (b : BackgammonBoard) (i : Z) : Prop :=
  0 <= i < Z.of_nat (length (points b)).

(** The indices a move touches are points of the board. *)
Definition move_in_range (b : BackgammonBoard) (from : Origin) (to : Dest) : Prop :=
  match from, to with
  | FromBar, ToOff => True
  | FromBar, ToPoint to => in_points b to
  | FromPoint from, ToOff => in_points b from
  | FromPoint from, ToPoint to => in_points b from /\ in_points b to
  end.

(** The place a move starts from holds a checker of the mover. *)
Definition source_occupied (b : BackgammonBoard) (from : Origin) (to : Dest) (p : Player) : Prop :=
  match from, to with
  | FromBar, ToOff => True
  | FromBar, ToPoint _ => per (bar b) p <> 0
  | FromPoint from, _ => checkers b from p <> 0
  end.

(** The executable form of [WellFormed]. *)
Definition well_formed_b (b : BackgammonBoard) : bool :=
  (Z.of_nat (length (points b)) =? 24)
  && forallb (fun pt => (0 <=? fst pt) && (0 <=? snd pt)) (points b)
  && (0 <=? player1 (bar b)) && (0 <=? player2 (bar b))
  && (0 <=? player1 (borne_off b)) && (0 <=? player2 (borne_off b)).

(** The value a computation returns; [false] when it throws. *)
Definition returned (o : Outcome bool) : bool :=
  match o with
  | Ret v => v
  | Throw => false
  end.

(** What the shared-home [isValidMove] answers for die [k]. *)
Definition accepts (b : BackgammonBoard) (p : Player) (dice : Z * Z)
    (from : Origin) (to : Dest) (k : nat) : bool :=
  returned (Shared.isValidMove b from to p (Some (pick dice k))).

(** Some unused die makes [isValid] accept the move [from] to [to]. *)
Definition legal_with
    (isValid : BackgammonBoard -> Origin -> Dest -> Player -> option Z -> Outcome bool)
    (b : BackgammonBoard) (p : Player) (dice : Z * Z) (usedDice : list bool)
    (from : Origin) (to : Dest) : Prop :=
  exists k, (k < 2)%nat /\ unused usedDice k = true /\
            isValid b from to p (Some (pick dice k)) = Ret true.

(** ** Sample positions *)

(** Player 1 has a checker on the bar; player 2 holds the entry points of
    a 1 and of a 2 (indices 22 and 21) with two checkers each. *)
Definition blocked_bar_board : BackgammonBoard :=
  {| points :=
       [(0, 0); (0, 0); (0, 0); (0, 1); (0, 0); (5, 0);
        (0, 5); (0, 0); (3, 0); (0, 0); (0, 0); (0, 0);
        (5, 0); (0, 0); (0, 0); (0, 0); (0, 0); (0, 0);
        (0, 5); (0, 0); (0, 0); (0, 2); (0, 2); (1, 0)];
     bar := {| player1 := 1; player2 := 0 |};
     borne_off := {| player1 := 0; player2 := 0 |};
     dice := None;
     current_player := P1;
     game_id := EmptyString |}.

(** Player 1 has borne off 13 checkers and has one checker on each of
    the indices 0 and 1. *)
Definition last_two_board : BackgammonBoard :=
  {| points :=
       [(1, 0); (1, 0); (0, 0); (0, 3); (0, 0); (0, 0);
        (0, 5); (0, 0); (0, 0); (0, 0); (0, 0); (0, 0);
        (0, 0); (0, 0); (0, 0); (0, 0); (0, 0); (0, 2);
        (0, 5); (0, 0); (0, 0); (0, 0); (0, 0); (0, 0)];
     bar := {| player1 := 0; player2 := 0 |};
     borne_off := {| player1 := 13; player2 := 0 |};
     dice := None;
     current_player := P1;
     game_id := EmptyString |}.

(** The starting board after player 1 has moved a checker from index 8
    to index 5. *)
Definition after_8_5 : BackgammonBoard :=
  {| points :=
       [(0, 0); (0, 0); (0, 0); (0, 3); (0, 0); (6, 0);
        (0, 5); (0, 0); (2, 0); (0, 0); (0, 0); (0, 0);
        (5, 0); (0, 0); (0, 0); (0, 0); (0, 0); (0, 2);
        (0, 5); (0, 0); (0, 0); (0, 0); (0, 0); (2, 0)];
     bar := {| player1 := 0; player2 := 0 |};
     borne_off := {| player1 := 0; player2 := 0 |};
     dice := None;
     current_player := P1;
     game_id := EmptyString |}.

(** Player 1 has borne off 14 checkers and has the last one on the bar;
    player 2 holds the entry points of a 1 and of a 2. *)
Definition stuck_board : BackgammonBoard :=
  {| points :=
       [(0, 0); (0, 0); (0, 0); (0, 1); (0, 0); (0, 0);
        (0, 5); (0, 0); (0, 0); (0, 0); (0, 0); (0, 0);
        (0, 0); (0, 0); (0, 0); (0, 0); (0, 0); (0, 0);
        (0, 5); (0, 0); (0, 0); (0, 2); (0, 2); (0, 0)];
     bar := {| player1 := 1; player2 := 0 |};
     borne_off := {| player1 := 14; player2 := 0 |};
     dice := None;
     current_player := P1;
     game_id := EmptyString |}.

(** Player 1 has all 15 checkers on the home points 0..3. *)
Definition home_board : BackgammonBoard :=
  {| points :=
       [(3, 0); (3, 0); (3, 0); (6, 0); (0, 0); (0, 0);
        (0, 5); (0, 0); (0, 0); (0, 0); (0, 3); (0, 0);
        (0, 0); (0, 0); (0, 0); (0, 0); (0, 0); (0, 2);
        (0, 5); (0, 0); (0, 0); (0, 0); (0, 0); (0, 0)];
     bar := {| player1 := 0; player2 := 0 |};
     borne_off := {| player1 := 0; player2 := 0 |};
     dice := None;
     current_player := P1;
     game_id := EmptyString |}.

(** ** The dice duel ([services/diceGameService.ts]) *)
Module DiceDuel.

(** [round_winner]: 0 is a tie, 1 and 2 name the player. *)
Inductive RoundWinner : Type := Tie | Won (p : Player).

Record DiceGameState : Type := mkDiceGameState {
  game_id : string;
  player1_score : Z;
  player2_score : Z;
  current_round : Z;
  player1_roll : option Z;
  player2_roll : option Z;
  current_player : Player;
  round_winner : option RoundWinner;
  game_winner : option Player;
}.

Definition initializeDiceGame (gameId : string) : DiceGameState :=
  {| game_id := gameId;
     player1_score := 0;
     player2_score := 0;
     current_round := 1;
     player1_roll := None;
     player2_roll := None;
     current_player := P1;
     round_winner := None;
     game_winner := None |}.

(** Field assignments [o.field = v]. *)
Definition set_player1_score (v : Z) (s : DiceGameState) : DiceGameState :=
  mkDiceGameState (game_id s) v (player2_score s) (current_round s) (player1_roll s)
    (player2_roll s) (current_player s) (round_winner s) (game_winner s).
Definition set_player2_score (v : Z) (s : DiceGameState) : DiceGameState :=
  mkDiceGameState (game_id s) (player1_score s) v (current_round s) (player1_roll s)
    (player2_roll s) (current_player s) (round_winner s) (game_winner s).
Definition set_current_round (v : Z) (s : DiceGameState) : DiceGameState :=
  mkDiceGameState (game_id s) (player1_score s) (player2_score s) v (player1_roll s)
    (player2_roll s) (current_player s) (round_winner s) (game_winner s).
Definition set_player1_roll (v : option Z) (s : DiceGameState) : DiceGameState :=
  mkDiceGameState (game_id s) (player1_score s) (player2_score s) (current_round s) v
    (player2_roll s) (current_player s) (round_winner s) (game_winner s).
Definition set_player2_roll (v : option Z) (s : DiceGameState) : DiceGameState :=
  mkDiceGameState (game_id s) (player1_score s) (player2_score s) (current_round s)
    (player1_roll s) v (current_player s) (round_winner s) (game_winner s).
Definition set_current_player (v : Player) (s : DiceGameState) : DiceGameState :=
  mkDiceGameState (game_id s) (player1_score s) (player2_score s) (current_round s)
    (player1_roll s) (player2_roll s) v (round_winner s) (game_winner s).
Definition set_round_winner (v : option RoundWinner) (s : DiceGameState) : DiceGameState :=
  mkDiceGameState (game_id s) (player1_score s) (player2_score s) (current_round s)
    (player1_roll s) (player2_roll s) (current_player s) v (game_winner s).
Definition set_game_winner (v : option Player) (s : DiceGameState) : DiceGameState :=
  mkDiceGameState (game_id s) (player1_score s) (player2_score s) (current_round s)
    (player1_roll s) (player2_roll s) (current_player s) (round_winner s) v.

(** *** The object store

    State objects live in a store and are named by references, so that a
    write through one reference is seen through every alias of it. *)
Abbreviation Ref := nat (only parsing).
Abbreviation Store := (list DiceGameState) (only parsing).

(** A computation on the store; [None] is a dangling reference. *)
Definition M (A : Type) : Type := Store -> option (A * Store).

Definition retM {A : Type} (a : A) : M A := fun h => Some (a, h).

Definition bindM {A B : Type} (m : M A) (k : A -> M B) : M B :=
  fun h =>
    match m h with
    | Some (a, h') => k a h'
    | None => None
    end.

Notation "'do!' x ':=' m 'in' k" := (bindM m (fun x => k))
  (at level 10, x name, m at level 100, k at level 200).

(** [{ ...o }]: a new object with the fields of [o]. *)
Definition spread (o : Ref) : M Ref :=
  fun h =>
    match h !! o with
    | Some s => Some (length h, h ++ [s])
    | None => None
    end.

(** Reading the fields of [o]. *)
Definition read (o : Ref) : M DiceGameState :=
  fun h =>
    match h !! o with
    | Some s => Some (s, h)
    | None => None
    end.

(** [o.field = v] *)
Definition write (o : Ref) (f : DiceGameState -> DiceGameState) : M unit :=
  fun h =>
    match h !! o with
    | Some s => Some (tt, <[o := f s]> h)
    | None => None
    end.

Definition processDiceRoll (gameState : Ref) (player : Player) (roll : Z) : M Ref :=
  do! newState := spread gameState in
  do! _ := match player with
           | P1 => write newState (set_player1_roll (Some roll))
           | P2 => write newState (set_player2_roll (Some roll))
           end in
  do! s := read newState in
  do! _ :=
    match player1_roll s, player2_roll s with
    | Some roll1, Some roll2 =>
        do! _ :=
          if roll1 >? roll2 then
            do! _ := write newState (set_round_winner (Some (Won P1))) in
            write newState (fun s => set_player1_score (player1_score s + 1) s)
          else if roll2 >? roll1 then
            do! _ := write newState (set_round_winner (Some (Won P2))) in
            write newState (fun s => set_player2_score (player2_score s + 1) s)
          else
            write newState (set_round_winner (Some Tie)) in
        do! s := read newState in
        if player1_score s >=? 3 then
          write newState (set_game_winner (Some P1))
        else if player2_score s >=? 3 then
          write newState (set_game_winner (Some P2))
        else
          do! _ := write newState (fun s => set_current_round (current_round s + 1) s) in
          do! _ := write newState (set_player1_roll None) in
          do! _ := write newState (set_player2_roll None) in
          do! _ := write newState (set_round_winner None) in
          write newState
            (fun s => set_current_player
                        (if Z.rem (current_round s) 2 =? 0 then P2 else P1) s)
    | _, _ =>
        write newState (set_current_player (opponent player))
    end in
  retM newState.

(** The state in which the two rolls of the first round are made. *)
Definition duel_start : Store := [initializeDiceGame EmptyString].

(** The round in which player 1 rolls 5 and then player 2 rolls 3. *)
Definition round_5_3 : option (Ref * Store) :=
  (do! afterFirst := processDiceRoll 0%nat P1 5 in
   processDiceRoll afterFirst P2 3) duel_start.

(** The state a reference names at the end of a run. *)
Definition final_state (run : option (Ref * Store)) : option DiceGameState :=
  match run with
  | Some (o, h) => h !! o
  | None => None
  end.

(** The roll recorded for [p]. *)
Definition roll_of (s : DiceGameState) (p : Player) : option Z :=
  match p with P1 => player1_roll s | P2 => player2_roll s end.

End DiceDuel.

(** ** The room handlers ([socket/gameHandler.ts], board game)

    A handler runs atomically between two [await]s.  Each handler is
    written as its segments: the part up to the awaited insert into the
    move ledger, and the part after it.  The result of the first [await]
    of a handler, the row of the [games] table, is an argument. *)
Module Handler.

Inductive GameType : Type := Backgammon | Dice.

(** The row of the [games] table, as far as the handlers read it. *)
Record Game : Type := mkGame { game_type : option GameType }.

Record BackgammonGameRoom : Type := mkRoom {
  gameId : string;
  board : BackgammonBoard;
  player1Id : string;
  player2Id : string;
  currentPlayer : Player;
  dice : option (Z * Z);
  diceUsed : list bool;
}.

(** [backgammonRooms], keyed by game id. *)
Abbreviation Rooms := (gmap string BackgammonGameRoom).

(** What a handler sends. *)
Inductive Emit : Type :=
  (** [socket.emit('error', { message })]: to the acting connection only *)
  | SocketError (message : string)
  (** ['dice-rolled'] to every socket of the room *)
  | DiceRolled (rolled : Z * Z) (player : Player)
  (** ['game-state'] to every socket of the room, each with its own
      [canMove] flag *)
  | GameState (b : BackgammonBoard) (current : Player)
      (d : option (Z * Z)) (usedDice : list bool)
  (** the branch [if (winner) { ... }] is entered.  Its first statement
      reads [winner] before the [const [winner]] of the same block is
      initialised, which throws: the [catch] of the handler sends the error
      'Failed to make move' to the acting connection, and the branch
      writes nothing and removes no room.  The event keeps the winner that
      [checkWinCondition] found. *)
  | WinBranch (winner : Player).

(** What a suspended handler keeps in its local variables. *)
Record Pending : Type := mkPending {
  pending_room : string;
  playerNumber : Player;
}.

(** [room.player1Id === userId ? 1 : 2] *)
Definition player_number (room : BackgammonGameRoom) (userId : string) : Player :=
  if bool_decide (player1Id room = userId) then P1 else P2.

Definition with_board (room : BackgammonGameRoom) (b : BackgammonBoard) : BackgammonGameRoom :=
  mkRoom (gameId room) b (player1Id room) (player2Id room) (currentPlayer room)
    (dice room) (diceUsed room).

Definition with_dice (room : BackgammonGameRoom) (d : option (Z * Z)) (used : list bool)
  : BackgammonGameRoom :=
  mkRoom (gameId room) (board room) (player1Id room) (player2Id room) (currentPlayer room)
    d used.

(** [room.diceUsed[k] = true]; the array has two entries whenever dice are
    present ([dice_flags] below), so the write is inside it. *)
Definition mark_used (room : BackgammonGameRoom) (k : nat) : BackgammonGameRoom :=
  with_dice room (dice room) (<[k := true]> (diceUsed room)).

(** [room.currentPlayer = room.currentPlayer === 1 ? 2 : 1; room.dice = null;
    room.diceUsed = [];] *)
Definition switch_player (room : BackgammonGameRoom) : BackgammonGameRoom :=
  mkRoom (gameId room) (board room) (player1Id room) (player2Id room)
    (opponent (currentPlayer room)) None [].

(** The dice and the flags go together: two flags with dice, none without. *)
Definition dice_flags (room : BackgammonGameRoom) : Prop :=
  match dice room with
  | Some _ => length (diceUsed room) = 2%nat
  | None => diceUsed room = []
  end.

(** What holds of every room between two segments. *)
Definition room_ok (room : BackgammonGameRoom) : Prop :=
  dice_flags room /\ WellFormed (board room) /\ fifteen (board room).

(** *** [roll-dice], board-game branch *)

(** Up to [await db.insert(game_moves)]; [rolled] is what
    [rollBackgammonDice()] returns.  The row that the insert writes, with
    the id of the acting user, is [Ledger.inserted] below. *)
Definition roll_begin (rooms : Rooms) (userId gameId : string) (game : option Game)
    (rolled : Z * Z) : Rooms * list Emit * option Pending :=
  match game with
  | None => (rooms, [SocketError "Game not found"], None)
  | Some game =>
      match default Backgammon (game_type game) with
      | Dice =>
          (* the dice-duel branch works on [diceRooms] and leaves these
             rooms alone *)
          (rooms, [], None)
      | Backgammon =>
          match rooms !! gameId with
          | None => (rooms, [SocketError "Game room not found"], None)
          | Some room =>
              let playerNumber := player_number room userId in
              if negb (Player_eqb (currentPlayer room) playerNumber) then
                (rooms, [SocketError "Not your turn"], None)
              else if bool_decide (is_Some (dice room)) then
                (rooms, [SocketError "Dice already rolled"], None)
              else
                (<[gameId := with_dice room (Some rolled) [false; false]]> rooms,
                 [], Some (mkPending gameId playerNumber))
          end
      end
  end.

(** After the insert: the roll and the state go to every socket.  The
    handler still holds the room it looked up; only the disconnect handler,
    which is not part of this model, takes a room out of the map. *)
Definition roll_finish (rooms : Rooms) (rolled : Z * Z) (pend : Pending)
  : Rooms * list Emit :=
  match rooms !! pending_room pend with
  | None => (rooms, [])
  | Some room =>
      (rooms,
       [DiceRolled rolled (playerNumber pend);
        GameState (board room) (currentPlayer room) (dice room) (diceUsed room)])
  end.

(** *** [make-move] *)

(** "Determine which die to use": the index of the die and its value, or
    nothing when [dieUsed] stays -1. *)
Definition die_for (room : BackgammonGameRoom) (d : Z * Z) (playerNumber : Player)
    (from : Origin) (to : Dest) : Outcome (option (nat * Z)) :=
  let used := diceUsed room in
  match from, to with
  | FromBar, ToPoint to =>
      let expectedIndex0 := 24 - fst d - 1 in
      let expectedIndex1 := 24 - snd d - 1 in
      if (to =? expectedIndex0) && unused used 0 then Ret (Some (0%nat, fst d))
      else if (to =? expectedIndex1) && unused used 1 then Ret (Some (1%nat, snd d))
      else Ret None
  | FromPoint from, ToOff =>
      let pointNumber := from + 1 in
      if (pointNumber =? fst d) && unused used 0 then Ret (Some (0%nat, fst d))
      else if (pointNumber =? snd d) && unused used 1 then Ret (Some (1%nat, snd d))
      else
        let higherDie := if fst d >? snd d then 0%nat else 1%nat in
        if unused used higherDie && (pointNumber <? pick d higherDie) then
          let homeEnd := 5 in
          let! higher :=
            any_at (fun i =>
              let! pt := point_at (points (board room)) i in
              Ret (count pt playerNumber >? 0)) (seqZ (from + 1) (homeEnd - from)) in
          if higher then Ret None else Ret (Some (higherDie, pick d higherDie))
        else Ret None
  | FromPoint from, ToPoint to =>
      let distance := from - to in
      if (distance =? fst d) && unused used 0 then Ret (Some (0%nat, fst d))
      else if (distance =? snd d) && unused used 1 then Ret (Some (1%nat, snd d))
      else Ret None
  | FromBar, ToOff => Ret None
  end.

(** The checks, the die, the validation and the move of one room; a
    thrown exception reaches the [catch] of the handler. *)
Definition move_in_room (room : BackgammonGameRoom) (playerNumber : Player)
    (d : Z * Z) (from : Origin) (to : Dest) : Outcome (string + BackgammonGameRoom) :=
  let! matched := die_for room d playerNumber from to in
  match matched with
  | None => Ret (inl "Invalid move - dice value does not match"%string)
  | Some (dieUsed, diceValue) =>
      let! valid := Shared.isValidMove (board room) from to playerNumber (Some diceValue) in
      if negb valid then Ret (inl "Invalid move"%string)
      else
        let! newBoard := makeMove (board room) from to playerNumber diceValue in
        Ret (inr (mark_used (with_board room newBoard) dieUsed))
  end.

(** Up to [await db.insert(game_moves)]; the row that the insert writes is
    [Ledger.inserted] below. *)
Definition move_begin (rooms : Rooms) (userId gameId : string) (from : Origin) (to : Dest)
    (game : option Game) : Rooms * list Emit * option Pending :=
  match game with
  | None => (rooms, [SocketError "Invalid game type for this action"], None)
  | Some game =>
      match default Backgammon (game_type game) with
      | Dice => (rooms, [SocketError "Invalid game type for this action"], None)
      | Backgammon =>
          match rooms !! gameId with
          | None => (rooms, [SocketError "Game room not found"], None)
          | Some room =>
              let playerNumber := player_number room userId in
              if negb (Player_eqb (currentPlayer room) playerNumber) then
                (rooms, [SocketError "Not your turn"], None)
              else
                match dice room with
                | None => (rooms, [SocketError "Must roll dice first"], None)
                | Some d =>
                    match move_in_room room playerNumber d from to with
                    | Throw => (rooms, [SocketError "Failed to make move"], None)
                    | Ret (inl message) => (rooms, [SocketError message], None)
                    | Ret (inr room') =>
                        (<[gameId := room']> rooms, [], Some (mkPending gameId playerNumber))
                    end
                end
          end
      end
  end.

(** After the insert: the turn decision and the win test.  [room.dice] may
    have been set to [null] by another handler in the meantime, and then
    [canPlayerMove] throws as soon as it reads a die.  The state goes to
    the sockets after one more [await]; the model sends what the room holds
    at the end of this segment. *)
Definition move_finish (rooms : Rooms) (pend : Pending) : Rooms * list Emit :=
  match rooms !! pending_room pend with
  | None => (rooms, [])
  | Some room =>
      let allDiceUsed := forallb (fun used => used) (diceUsed room) in
      match Shared.canPlayerMove (board room) (playerNumber pend) (dice room) (diceUsed room) with
      | Throw => (rooms, [SocketError "Failed to make move"])
      | Ret canMoveMore =>
          let room' := if allDiceUsed || negb canMoveMore then switch_player room else room in
          (<[pending_room pend := room']> rooms,
           match checkWinCondition (board room') with
           | Some winner => [WinBranch winner]
           | None => [GameState (board room') (currentPlayer room') (dice room') (diceUsed room')]
           end)
      end
  end.

(** A handler that runs alone, start to end. *)
Definition roll_dice (rooms : Rooms) (userId gameId : string) (game : option Game)
    (rolled : Z * Z) : Rooms * list Emit :=
  match roll_begin rooms userId gameId game rolled with
  | (rooms1, out, None) => (rooms1, out)
  | (rooms1, out, Some pend) =>
      let '(rooms2, out2) := roll_finish rooms1 rolled pend in (rooms2, out ++ out2)
  end.

Definition make_move (rooms : Rooms) (userId gameId : string) (from : Origin) (to : Dest)
    (game : option Game) : Rooms * list Emit :=
  match move_begin rooms userId gameId from to game with
  | (rooms1, out, None) => (rooms1, out)
  | (rooms1, out, Some pend) =>
      let '(rooms2, out2) := move_finish rooms1 pend in (rooms2, out ++ out2)
  end.

(** The room that [join-game] creates. *)
Definition new_room (id player1 player2 : string) : BackgammonGameRoom :=
  {| gameId := id;
     board := mkBoard (points Shared.initializeBoard) (bar Shared.initializeBoard)
                (borne_off Shared.initializeBoard) None P1 id;
     player1Id := player1;
     player2Id := player2;
     currentPlayer := P1;
     dice := None;
     diceUsed := [] |}.

(** *** Two handlers on one room

    The event loop runs one segment at a time; a second handler may run
    its first segment while the first handler waits for its insert. *)

Inductive Action : Type :=
  | Roll (userId : string) (rolled : Z * Z)
  | Move (userId : string) (from : Origin) (to : Dest).

(** The user of an action. *)
Definition actor (a : Action) : string :=
  match a with Roll u _ => u | Move u _ _ => u end.

(** The segment up to the awaited insert. *)
Definition first_segment (gameId : string) (game : option Game) (a : Action) (rooms : Rooms)
  : Rooms * list Emit * option Pending :=
  match a with
  | Roll userId rolled => roll_begin rooms userId gameId game rolled
  | Move userId from to => move_begin rooms userId gameId from to game
  end.

(** The segment after it; a handler that has returned has none. *)
Definition second_segment (a : Action) (pend : option Pending) (rooms : Rooms)
  : Rooms * list Emit :=
  match pend with
  | None => (rooms, [])
  | Some pend =>
      match a with
      | Roll _ rolled => roll_finish rooms rolled pend
      | Move _ _ _ => move_finish rooms pend
      end
  end.

(** One handler, start to end, with nothing in between. *)
Definition handle (gameId : string) (game : option Game) (a : Action) (rooms : Rooms)
  : Rooms * list Emit :=
  let '(rooms1, out1, pend) := first_segment gameId game a rooms in
  let '(rooms2, out2) := second_segment a pend rooms1 in
  (rooms2, out1 ++ out2).

(** [a1] and then [a2], one after the other. *)
Definition serial (gameId : string) (game : option Game) (a1 a2 : Action) (rooms : Rooms)
  : Rooms * list Emit :=
  let '(rooms1, out1) := handle gameId game a1 rooms in
  let '(rooms2, out2) := handle gameId game a2 rooms1 in
  (rooms2, out1 ++ out2).

(** [a2] starts while [a1] waits for its insert; the second segments run
    in the order of [a1], [a2] when [in_order], else [a2], [a1]. *)
Definition overlapped (gameId : string) (game : option Game) (a1 a2 : Action)
    (in_order : bool) (rooms : Rooms) : Rooms * list Emit :=
  let '(rooms1, out1, pend1) := first_segment gameId game a1 rooms in
  let '(rooms2, out2, pend2) := first_segment gameId game a2 rooms1 in
  if in_order then
    let '(rooms3, out3) := second_segment a1 pend1 rooms2 in
    let '(rooms4, out4) := second_segment a2 pend2 rooms3 in
    (rooms4, out1 ++ out2 ++ out3 ++ out4)
  else
    let '(rooms3, out3) := second_segment a2 pend2 rooms2 in
    let '(rooms4, out4) := second_segment a1 pend1 rooms3 in
    (rooms4, out1 ++ out2 ++ out3 ++ out4).

(** Both actions are moves, and both are applied in their first segments. *)
Definition two_moves_applied (gameId : string) (game : option Game) (a1 a2 : Action)
    (rooms : Rooms) : Prop :=
  (exists u1 f1 t1 u2 f2 t2, a1 = Move u1 f1 t1 /\ a2 = Move u2 f2 t2) /\
  is_Some (snd (first_segment gameId game a1 rooms)) /\
  is_Some (snd (first_segment gameId game a2
                  (fst (fst (first_segment gameId game a1 rooms))))).

(** *** Sample rooms *)

Definition backgammon_game : option Game := Some (mkGame (Some Backgammon)).

(** A room with player 1 to roll. *)
Definition room_to_roll (b : BackgammonBoard) : BackgammonGameRoom :=
  mkRoom "g" b "alice" "bob" P1 None [].

(** A room in which player 1 has rolled [d] and used no die. *)
Definition room_rolled (b : BackgammonBoard) (d : Z * Z) : BackgammonGameRoom :=
  mkRoom "g" b "alice" "bob" P1 (Some d) [false; false].

Definition only_room (room : BackgammonGameRoom) : gmap string BackgammonGameRoom :=
  {[ "g"%string := room ]}.

(** Player 1, with one checker on each of the indices 0 and 1 and the
    dice 1 and 2, bears both off in two actions sent at once. *)
Definition last_two_rooms : gmap string BackgammonGameRoom :=
  only_room (room_rolled last_two_board (1, 2)).
Definition bear_off_0 : Action := Move "alice" (FromPoint 0) ToOff.
Definition bear_off_1 : Action := Move "alice" (FromPoint 1) ToOff.

(** Player 1, with a checker on the bar that cannot enter, moves two
    other checkers in two actions sent at once. *)
Definition blocked_rooms : gmap string BackgammonGameRoom :=
  only_room (room_rolled blocked_bar_board (1, 2)).
Definition step_8_7 : Action := Move "alice" (FromPoint 8) (ToPoint 7).
Definition step_12_10 : Action := Move "alice" (FromPoint 12) (ToPoint 10).

(** The room of [stuck_board] after player 1 has rolled 1 and 2. *)
Definition stuck_rooms : gmap string BackgammonGameRoom :=
  only_room (room_rolled stuck_board (1, 2)).

(** The current player of the sample room. *)
Definition turn_of (rooms : gmap string BackgammonGameRoom) : option Player :=
  currentPlayer <$> rooms !! "g"%string.

(** The points of the sample room. *)
Definition points_of (rooms : gmap string BackgammonGameRoom) : option (list PointT) :=
  (fun room => points (board room)) <$> rooms !! "g"%string.

End Handler.

(** ** Proof tactics *)

(** Case analysis on every integer comparison in sight. *)
Ltac zbool :=
  repeat match goal with
  | H : context [?a <? ?b] |- _ => destruct (Z.ltb_spec a b)
  | H : context [?a <=? ?b] |- _ => destruct (Z.leb_spec a b)
  | H : context [?a >? ?b] |- _ => rewrite (Z.gtb_ltb a b) in H
  | H : context [?a >=? ?b] |- _ => rewrite (Z.geb_leb a b) in H
  | H : context [?a =? ?b] |- _ => destruct (Z.eqb_spec a b)
  | |- context [?a <? ?b] => destruct (Z.ltb_spec a b)
  | |- context [?a <=? ?b] => destruct (Z.leb_spec a b)
  | |- context [?a >? ?b] => rewrite (Z.gtb_ltb a b)
  | |- context [?a >=? ?b] => rewrite (Z.geb_leb a b)
  | |- context [?a =? ?b] => destruct (Z.eqb_spec a b)
  end.

(** One case for each of the 24 point indices. *)
Ltac each_index i H :=
  let Hcases := fresh "Hcases" in
  assert (Hcases : i = 0 \/ i = 1 \/ i = 2 \/ i = 3 \/ i = 4 \/ i = 5 \/ i = 6 \/ i = 7 \/
                   i = 8 \/ i = 9 \/ i = 10 \/ i = 11 \/ i = 12 \/ i = 13 \/ i = 14 \/
                   i = 15 \/ i = 16 \/ i = 17 \/ i = 18 \/ i = 19 \/ i = 20 \/ i = 21 \/
                   i = 22 \/ i = 23) by lia;
  clear H;
  repeat (destruct Hcases as [->|Hcases]); [..|subst i].


(** ** More sample positions *)

(** Player 1 has borne off all 15 checkers. *)
Definition won_board : BackgammonBoard :=
  {| points :=
       [(0, 0); (0, 0); (0, 0); (0, 3); (0, 0); (0, 0);
        (0, 5); (0, 0); (0, 0); (0, 0); (0, 0); (0, 0);
        (0, 0); (0, 0); (0, 0); (0, 0); (0, 0); (0, 2);
        (0, 5); (0, 0); (0, 0); (0, 0); (0, 0); (0, 0)];
     bar := {| player1 := 0; player2 := 0 |};
     borne_off := {| player1 := 15; player2 := 0 |};
     dice := None;
     current_player := P1;
     game_id := EmptyString |}.

(** ** Measures for the per-player-home rules *)

(** [p] has a checker on the bar or on a point outside the home board that
    [Directional.isInHomeBoard] gives [p]. *)
Definition away_from_home (b : BackgammonBoard) (p : Player) : Prop :=
  0 < per (bar b) p \/
  exists i, 0 <= i <= 23 /\ Directional.isInHomeBoard i p = false /\ 0 < checkers b i p.

(** The starting board of the per-player-home rules after player 1 has
    moved a checker from index 12 to index 9. *)
Definition directional_after_12_9 : BackgammonBoard :=
  {| points :=
       [(0, 2); (0, 0); (0, 0); (0, 0); (0, 0); (5, 0);
        (0, 0); (3, 0); (0, 0); (1, 0); (0, 0); (0, 5);
        (4, 0); (0, 0); (0, 0); (0, 0); (0, 3); (0, 0);
        (0, 5); (0, 0); (0, 0); (0, 0); (0, 0); (2, 0)];
     bar := {| player1 := 0; player2 := 0 |};
     borne_off := {| player1 := 0; player2 := 0 |};
     dice := None;
     current_player := P1;
     game_id := EmptyString |}.

(** ** More on the handlers *)

(** [room.dice[0] > room.dice[1] ? 0 : 1], the die that [make-move] tries
    for a bear-off that matches neither die exactly. *)
Definition higherDie (d : Z * Z) : nat :=
  if fst d >? snd d then 0%nat else 1%nat.

(** The same action sent by another user. *)
Definition with_actor (a : Handler.Action) (userId : string) : Handler.Action :=
  match a with
  | Handler.Roll _ rolled => Handler.Roll userId rolled
  | Handler.Move _ from to => Handler.Move userId from to
  end.

(** The sample room after player 1, with the dice 3 and 1, has moved a
    checker from index 8 to index 5. *)
Definition room_after_8_5 : Handler.BackgammonGameRoom :=
  Handler.mkRoom "g" after_8_5 "alice" "bob" P1 (Some (3, 1)) [true; false].

(** The rooms after a list of actions, each handled alone. *)
Definition play (gameId : string) (game : option Handler.Game) (rooms : Handler.Rooms)
    (actions : list Handler.Action) : Handler.Rooms :=
  foldl (fun rooms a => fst (Handler.handle gameId game a rooms)) rooms actions.

(** An opening in which player 1 leaves two single checkers and player 2
    hits one of them: alice rolls 2 and 1 and moves 12 to 10 and 12 to 11;
    bob rolls 6 and 1 and moves 17 to 11, hitting, and 17 to 16; alice
    rolls 6 and 5. *)
Definition hit_opening : list Handler.Action :=
  [Handler.Roll "alice" (2, 1);
   Handler.Move "alice" (FromPoint 12) (ToPoint 10);
   Handler.Move "alice" (FromPoint 12) (ToPoint 11);
   Handler.Roll "bob" (6, 1);
   Handler.Move "bob" (FromPoint 17) (ToPoint 11);
   Handler.Move "bob" (FromPoint 17) (ToPoint 16);
   Handler.Roll "alice" (6, 5)].

(** The board after [hit_opening]: player 1 has a checker on the bar; the
    entry point of a 5, index 18, holds five checkers of player 2, and the
    index for a 6, 17, is outside the entry points 18..23. *)
Definition hit_board : BackgammonBoard :=
  {| points :=
       [(0, 0); (0, 0); (0, 0); (0, 3); (0, 0); (5, 0);
        (0, 5); (0, 0); (3, 0); (0, 0); (1, 0); (0, 1);
        (3, 0); (0, 0); (0, 0); (0, 0); (0, 1); (0, 0);
        (0, 5); (0, 0); (0, 0); (0, 0); (0, 0); (2, 0)];
     bar := {| player1 := 1; player2 := 0 |};
     borne_off := {| player1 := 0; player2 := 0 |};
     dice := None;
     current_player := P1;
     game_id := "g" |}.

(** *** The rows that the board-game handlers insert into [game_moves]

    [roll-dice] and [make-move] insert one row at their [await], after the
    room has been changed and only then. *)

Module Ledger.

(** [move_data]: [{ type: 'roll', dice }] or [{ from, to }]. *)
Inductive MoveData : Type :=
  | RollData (dice : Z * Z)
  | FromTo (from : Origin) (to : Dest).

Record Row : Type := mkRow {
  game_id : string;
  player_id : string;
  move_data : MoveData;
  move_number : Z;
}.

(** The row of an action whose first segment has reached the insert. *)
Definition inserted (gameId : string) (a : Handler.Action) (pend : option Handler.Pending)
  : list Row :=
  match pend with
  | None => []
  | Some _ =>
      match a with
      | Handler.Roll userId rolled => [mkRow gameId userId (RollData rolled) 0]
      | Handler.Move userId from to => [mkRow gameId userId (FromTo from to) 0]
      end
  end.

(** One handler, start to end: the rooms, what is sent and what is
    inserted. *)
Definition handle_logged (gameId : string) (game : option Handler.Game) (a : Handler.Action)
    (rooms : Handler.Rooms) : Handler.Rooms * list Handler.Emit * list Row :=
  let '(rooms1, out1, pend) := Handler.first_segment gameId game a rooms in
  let '(rooms2, out2) := Handler.second_segment a pend rooms1 in
  (rooms2, out1 ++ out2, inserted gameId a pend).

Definition with_player_id (userId : string) (row : Row) : Row :=
  mkRow (game_id row) userId (move_data row) (move_number row).

End Ledger.

(** Player 1 has borne off 13 checkers and has one checker on each of
    the indices 2 and 5. *)
Definition two_left_board : BackgammonBoard :=
  {| points :=
       [(0, 0); (0, 0); (1, 0); (0, 3); (0, 0); (1, 0);
        (0, 5); (0, 0); (0, 0); (0, 0); (0, 0); (0, 0);
        (0, 0); (0, 0); (0, 0); (0, 0); (0, 0); (0, 2);
        (0, 5); (0, 0); (0, 0); (0, 0); (0, 0); (0, 0)];
     bar := {| player1 := 0; player2 := 0 |};
     borne_off := {| player1 := 13; player2 := 0 |};
     dice := None;
     current_player := P1;
     game_id := EmptyString |}.

(** [two_left_board] after the checker on index 5 is borne off. *)
Definition one_left_board : BackgammonBoard :=
  {| points :=
       [(0, 0); (0, 0); (1, 0); (0, 3); (0, 0); (0, 0);
        (0, 5); (0, 0); (0, 0); (0, 0); (0, 0); (0, 0);
        (0, 0); (0, 0); (0, 0); (0, 0); (0, 0); (0, 2);
        (0, 5); (0, 0); (0, 0); (0, 0); (0, 0); (0, 0)];
     bar := {| player1 := 0; player2 := 0 |};
     borne_off := {| player1 := 14; player2 := 0 |};
     dice := None;
     current_player := P1;
     game_id := EmptyString |}.

(** The room of [one_left_board] with the dice 5 and 6, the 6 spent. *)
Definition one_left_room : Handler.BackgammonGameRoom :=
  Handler.mkRoom "g" one_left_board "alice" "bob" P1 (Some (5, 6)) [false; true].

(** ** The dice duel as a function on states

    The fields of the object that [processDiceRoll] returns, computed from
    the fields of the object it is given; [processDiceRoll_processed]
    below shows that the run on the store returns this state. *)

Definition processed (s : DiceDuel.DiceGameState) (player : Player) (roll : Z)
  : DiceDuel.DiceGameState :=
  let newState :=
    match player with
    | P1 => DiceDuel.set_player1_roll (Some roll) s
    | P2 => DiceDuel.set_player2_roll (Some roll) s
    end in
  match DiceDuel.player1_roll newState, DiceDuel.player2_roll newState with
  | Some roll1, Some roll2 =>
      let newState :=
        if roll1 >? roll2 then
          DiceDuel.set_player1_score (DiceDuel.player1_score newState + 1)
            (DiceDuel.set_round_winner (Some (DiceDuel.Won P1)) newState)
        else if roll2 >? roll1 then
          DiceDuel.set_player2_score (DiceDuel.player2_score newState + 1)
            (DiceDuel.set_round_winner (Some (DiceDuel.Won P2)) newState)
        else DiceDuel.set_round_winner (Some DiceDuel.Tie) newState in
      if DiceDuel.player1_score newState >=? 3 then
        DiceDuel.set_game_winner (Some P1) newState
      else if DiceDuel.player2_score newState >=? 3 then
        DiceDuel.set_game_winner (Some P2) newState
      else
        let newState :=
          DiceDuel.set_current_round (DiceDuel.current_round newState + 1) newState in
        let newState := DiceDuel.set_player1_roll None newState in
        let newState := DiceDuel.set_player2_roll None newState in
        let newState := DiceDuel.set_round_winner None newState in
        DiceDuel.set_current_player
          (if Z.rem (DiceDuel.current_round newState) 2 =? 0 then P2 else P1) newState
  | _, _ => DiceDuel.set_current_player (opponent player) newState
  end.

(** A roll that the dice branch of [roll-dice] lets through: it is the
    roller's turn, the game has no winner and the roller has not rolled in
    this round; the die shows 1..6. *)
Definition may_roll (s : DiceDuel.DiceGameState) (player : Player) (roll : Z) : Prop :=
  DiceDuel.current_player s = player /\ DiceDuel.game_winner s = None /\
  DiceDuel.roll_of s player = None /\ 1 <= roll <= 6.

(** The states of a duel: from [initializeDiceGame] by rolls let through. *)
Inductive duel_state (gameId : string) : DiceDuel.DiceGameState -> Prop :=
  | duel_begin : duel_state gameId (DiceDuel.initializeDiceGame gameId)
  | duel_roll s player roll :
      duel_state gameId s -> may_roll s player roll ->
      duel_state gameId (processed s player roll).

(** The score of a player. *)
Definition score (s : DiceDuel.DiceGameState) (player : Player) : Z :=
  match player with
  | P1 => DiceDuel.player1_score s
  | P2 => DiceDuel.player2_score s
  end.

(** [current_round % 2 === 0 ? 2 : 1], the player that opens a round. *)
Definition starter (round : Z) : Player :=
  if Z.rem round 2 =? 0 then P2 else P1.

(** What holds of every state of a duel. *)
Definition duel_inv (gameId : string) (s : DiceDuel.DiceGameState) : Prop :=
  DiceDuel.game_id s = gameId /\ 1 <= DiceDuel.current_round s /\
  (forall p, 0 <= score s p <= 3) /\
  match DiceDuel.game_winner s with
  | None =>
      (forall p, score s p < 3) /\ DiceDuel.round_winner s = None /\
      (DiceDuel.current_player s = starter (DiceDuel.current_round s) /\
       DiceDuel.player1_roll s = None /\ DiceDuel.player2_roll s = None
       \/
       DiceDuel.current_player s = opponent (starter (DiceDuel.current_round s)) /\
       is_Some (DiceDuel.roll_of s (starter (DiceDuel.current_round s))) /\
       DiceDuel.roll_of s (DiceDuel.current_player s) = None)
  | Some p =>
      score s p = 3 /\ score s (opponent p) < 3 /\
      DiceDuel.round_winner s = Some (DiceDuel.Won p) /\
      is_Some (DiceDuel.player1_roll s) /\ is_Some (DiceDuel.player2_roll s)
  end.

(** ** Joining, the dice duel and leaving ([socket/gameHandler.ts])

    The handlers [join-game], [roll-dice] and [disconnect], each run alone
    from start to end, over the three maps of the module and the rows of
    the database that they read and write.  Time stamps are left out. *)

Module Session.

Import Handler.

Inductive Status : Type := Pending | Active | Completed.

#[global] Instance Status_eq_dec : EqDecision Status.
Proof. solve_decision. Defined.

(** A row of [games]. *)
Record GameRow : Type := mkGameRow {
  player1_id : string;
  player2_id : string;
  row_game_type : option GameType;
  status : Status;
  winner_id : option string;
  points_awarded : Z;
}.

(** The row as [roll-dice] and [make-move] of the board game read it. *)
Definition as_game (game : GameRow) : Game := mkGame (row_game_type game).

Record DiceGameRoom : Type := mkDiceRoom {
  dice_gameId : string;
  gameState : DiceDuel.DiceGameState;
  dice_player1Id : string;
  dice_player2Id : string;
}.

(** [move_data] of the rows that the dice branch of [roll-dice] inserts. *)
Record MoveRow : Type := mkMoveRow {
  move_game_id : string;
  move_player_id : string;
  move_roll : Z;
  move_player : Player;
  move_round : Z;
  move_number : Z;
}.

Record Socket : Type := mkSocket {
  socketId : string;
  userId : string;
}.

Record World : Type := mkWorld {
  games : gmap string GameRow;
  (** [users.points], by user id *)
  users : gmap string Z;
  backgammonRooms : gmap string BackgammonGameRoom;
  diceRooms : gmap string DiceGameRoom;
  socketToGame : gmap string string;
  game_moves : list MoveRow;
}.

Inductive Event : Type :=
  (** [socket.emit('error', { message })] *)
  | ErrorTo (socket : string) (message : string)
  (** [socket.emit('dice-game-state', { gameState, canRoll })] *)
  | DiceGameStateTo (socket : string) (s : DiceDuel.DiceGameState) (canRoll : bool)
  (** [socket.emit('game-state', { board, currentPlayer, dice, canMove })] *)
  | GameStateTo (socket : string) (b : BackgammonBoard) (current : Player)
      (d : option (Z * Z)) (canMove : bool)
  (** [socket.to(room).emit('player-joined', { userId })] *)
  | PlayerJoined (gameId : string) (user : string)
  (** ['dice-rolled'] to every socket of the room *)
  | DiceRolledAll (gameId : string) (roll : Z) (player : Player) (round : Z)
  (** ['dice-game-state'] to every socket of the room, each with
      [canRoll] for its own player number *)
  | DiceGameStateAll (gameId : string) (s : DiceDuel.DiceGameState)
  (** ['dice-game-over'] to the room *)
  | DiceGameOver (gameId : string) (winner : Player) (winnerId : string)
      (s : DiceDuel.DiceGameState) (reason : option string)
  (** ['game-over'] to the room *)
  | GameOver (gameId : string) (winner : Player) (winnerId : string)
      (b : BackgammonBoard) (reason : option string)
  (** what the board-game branch of [roll-dice] sends *)
  | RoomEvent (e : Emit).

Definition with_games (w : World) (g : gmap string GameRow) : World :=
  mkWorld g (users w) (backgammonRooms w) (diceRooms w) (socketToGame w) (game_moves w).
Definition with_users (w : World) (u : gmap string Z) : World :=
  mkWorld (games w) u (backgammonRooms w) (diceRooms w) (socketToGame w) (game_moves w).
Definition with_backgammonRooms (w : World) (r : gmap string BackgammonGameRoom) : World :=
  mkWorld (games w) (users w) r (diceRooms w) (socketToGame w) (game_moves w).
Definition with_diceRooms (w : World) (r : gmap string DiceGameRoom) : World :=
  mkWorld (games w) (users w) (backgammonRooms w) r (socketToGame w) (game_moves w).
Definition with_socketToGame (w : World) (m : gmap string string) : World :=
  mkWorld (games w) (users w) (backgammonRooms w) (diceRooms w) m (game_moves w).
Definition with_game_moves (w : World) (l : list MoveRow) : World :=
  mkWorld (games w) (users w) (backgammonRooms w) (diceRooms w) (socketToGame w) l.

(** [x === userId ? 1 : 2] *)
Definition number_of (player1 user : string) : Player :=
  if bool_decide (player1 = user) then P1 else P2.

(** [n === 1 ? player1Id : player2Id] *)
Definition id_of (n : Player) (player1 player2 : string) : string :=
  match n with P1 => player1 | P2 => player2 end.

(** [db.update(games).set({ status: 'completed', winner_id, points_awarded })]
    on the row of [gameId], then the winner's points, when the user row
    exists. *)
Definition complete_game (w : World) (gameId winnerId : string) (pointsAwarded : Z) : World :=
  let w1 :=
    with_games w
      (alter (fun game =>
                mkGameRow (player1_id game) (player2_id game) (row_game_type game)
                  Completed (Some winnerId) pointsAwarded) gameId (games w)) in
  match users w1 !! winnerId with
  | Some points => with_users w1 (<[winnerId := points + pointsAwarded]> (users w1))
  | None => w1
  end.

(** *** [join-game] *)

Definition join_game (w : World) (socket : Socket) (gameId : string) : World * list Event :=
  match games w !! gameId with
  | None => (w, [ErrorTo (socketId socket) "Game not found"])
  | Some game =>
      if negb (bool_decide (player1_id game = userId socket))
         && negb (bool_decide (player2_id game = userId socket)) then
        (w, [ErrorTo (socketId socket) "Not authorized"])
      else if negb (bool_decide (status game = Active)) then
        (w, [ErrorTo (socketId socket) "Game is not active"])
      else
        let w1 := with_socketToGame w (<[socketId socket := gameId]> (socketToGame w)) in
        let playerNumber := number_of (player1_id game) (userId socket) in
        match default Backgammon (row_game_type game) with
        | Dice =>
            let room :=
              match diceRooms w1 !! gameId with
              | Some room => room
              | None =>
                  mkDiceRoom gameId (DiceDuel.initializeDiceGame gameId)
                    (player1_id game) (player2_id game)
              end in
            (with_diceRooms w1 (<[gameId := room]> (diceRooms w1)),
             [DiceGameStateTo (socketId socket) (gameState room)
                (Player_eqb (DiceDuel.current_player (gameState room)) playerNumber
                 && bool_decide (DiceDuel.game_winner (gameState room) = None));
              PlayerJoined gameId (userId socket)])
        | Backgammon =>
            let room :=
              match backgammonRooms w1 !! gameId with
              | Some room => room
              | None => new_room gameId (player1_id game) (player2_id game)
              end in
            (with_backgammonRooms w1 (<[gameId := room]> (backgammonRooms w1)),
             [GameStateTo (socketId socket) (board room) (currentPlayer room) (dice room)
                (Player_eqb (currentPlayer room) playerNumber);
              PlayerJoined gameId (userId socket)])
        end
  end.

(** *** [roll-dice] *)

(** [roll] is what [rollSingleDice()] returns and [rolled] what
    [rollBackgammonDice()] returns; a run uses one of them. *)
Definition roll_dice (w : World) (socket : Socket) (gameId : string) (roll : Z)
    (rolled : Z * Z) : World * list Event :=
  match games w !! gameId with
  | None => (w, [ErrorTo (socketId socket) "Game not found"])
  | Some game =>
      match default Backgammon (row_game_type game) with
      | Dice =>
          match diceRooms w !! gameId with
          | None => (w, [ErrorTo (socketId socket) "Game room not found"])
          | Some room =>
              let playerNumber := number_of (dice_player1Id room) (userId socket) in
              if negb (Player_eqb (DiceDuel.current_player (gameState room)) playerNumber) then
                (w, [ErrorTo (socketId socket) "Not your turn"])
              else if negb (bool_decide (DiceDuel.game_winner (gameState room) = None)) then
                (w, [ErrorTo (socketId socket) "Game is over"])
              else if bool_decide (is_Some (DiceDuel.roll_of (gameState room) playerNumber)) then
                (w, [ErrorTo (socketId socket) "You already rolled this round"])
              else
                let newState := processed (gameState room) playerNumber roll in
                let room' :=
                  mkDiceRoom (dice_gameId room) newState
                    (dice_player1Id room) (dice_player2Id room) in
                let w1 := with_diceRooms w (<[gameId := room']> (diceRooms w)) in
                let w2 :=
                  with_game_moves w1
                    (game_moves w1 ++
                     [mkMoveRow gameId (userId socket) roll playerNumber
                        (DiceDuel.current_round newState)
                        (DiceDuel.current_round newState)]) in
                match DiceDuel.game_winner newState with
                | Some winner =>
                    let winnerId :=
                      id_of winner (dice_player1Id room') (dice_player2Id room') in
                    let w3 := complete_game w2 gameId winnerId 10 in
                    (with_diceRooms w3 (delete gameId (diceRooms w3)),
                     [DiceGameOver gameId winner winnerId newState None])
                | None =>
                    (w2,
                     [DiceRolledAll gameId roll playerNumber (DiceDuel.current_round newState);
                      DiceGameStateAll gameId newState])
                end
          end
      | Backgammon =>
          let '(rooms, out) :=
            Handler.roll_dice (backgammonRooms w) (userId socket) gameId
              (Some (as_game game)) rolled in
          (with_backgammonRooms w rooms, RoomEvent <$> out)
      end
  end.

(** *** [disconnect] *)

Definition disconnect (w : World) (socket : Socket) : World * list Event :=
  match socketToGame w !! socketId socket with
  | None => (w, [])
  | Some gameId =>
      (* [if (!gameId) return;] also leaves on the empty string *)
      if bool_decide (gameId = EmptyString) then (w, []) else
      let forget := with_socketToGame w (delete (socketId socket) (socketToGame w)) in
      match games w !! gameId with
      | None => (forget, [])
      | Some game =>
          let gameType := default Backgammon (row_game_type game) in
          (* the two player ids of the room, and the event that tells the
             room who has won *)
          let room :=
            match gameType with
            | Dice =>
                (fun room =>
                   (dice_player1Id room, dice_player2Id room,
                    fun winner winnerId =>
                      DiceGameOver gameId winner winnerId (gameState room)
                        (Some "opponent_left"%string)))
                <$> diceRooms w !! gameId
            | Backgammon =>
                (fun room =>
                   (player1Id room, player2Id room,
                    fun winner winnerId =>
                      GameOver gameId winner winnerId (board room)
                        (Some "opponent_left"%string)))
                <$> backgammonRooms w !! gameId
            end in
          match room with
          | None => (forget, [])
          | Some (player1, player2, notify) =>
              if negb (bool_decide (status game = Active)) then (forget, [])
              else
                let disconnectedPlayerNumber := number_of player1 (userId socket) in
                let winnerNumber := opponent disconnectedPlayerNumber in
                let winnerId := id_of winnerNumber player1 player2 in
                let pointsAwarded := match gameType with Dice => 10 | Backgammon => 20 end in
                let w1 := complete_game w gameId winnerId pointsAwarded in
                let w2 := with_backgammonRooms w1 (delete gameId (backgammonRooms w1)) in
                let w3 := with_diceRooms w2 (delete gameId (diceRooms w2)) in
                (with_socketToGame w3 (delete (socketId socket) (socketToGame w3)),
                 [notify winnerNumber winnerId])
          end
      end
  end.

(** *** [roll-dice] in a dice duel, in its two segments

    The handler waits at [await db.insert(game_moves)]; other handlers may
    run before it goes on.  It keeps the room object in a local variable,
    also when the room has been taken out of the map in the meantime. *)

Record PendingRoll : Type := mkPendingRoll {
  pending_gameId : string;
  (** the room object, with the state that the first segment stored; no
      handler but another [roll-dice] writes to it *)
  pending_dice_room : DiceGameRoom;
  pending_roll : Z;
  pending_player : Player;
}.

(** Up to the insert.  The board-game branch is split in
    [Handler.roll_begin]; here it runs to its end. *)
Definition roll_dice_begin (w : World) (socket : Socket) (gameId : string) (roll : Z)
    (rolled : Z * Z) : World * list Event * option PendingRoll :=
  match games w !! gameId with
  | None => (w, [ErrorTo (socketId socket) "Game not found"], None)
  | Some game =>
      match default Backgammon (row_game_type game) with
      | Dice =>
          match diceRooms w !! gameId with
          | None => (w, [ErrorTo (socketId socket) "Game room not found"], None)
          | Some room =>
              let playerNumber := number_of (dice_player1Id room) (userId socket) in
              if negb (Player_eqb (DiceDuel.current_player (gameState room)) playerNumber) then
                (w, [ErrorTo (socketId socket) "Not your turn"], None)
              else if negb (bool_decide (DiceDuel.game_winner (gameState room) = None)) then
                (w, [ErrorTo (socketId socket) "Game is over"], None)
              else if bool_decide (is_Some (DiceDuel.roll_of (gameState room) playerNumber)) then
                (w, [ErrorTo (socketId socket) "You already rolled this round"], None)
              else
                let newState := processed (gameState room) playerNumber roll in
                let room' :=
                  mkDiceRoom (dice_gameId room) newState
                    (dice_player1Id room) (dice_player2Id room) in
                let w1 := with_diceRooms w (<[gameId := room']> (diceRooms w)) in
                let w2 :=
                  with_game_moves w1
                    (game_moves w1 ++
                     [mkMoveRow gameId (userId socket) roll playerNumber
                        (DiceDuel.current_round newState)
                        (DiceDuel.current_round newState)]) in
                (w2, [], Some (mkPendingRoll gameId room' roll playerNumber))
          end
      | Backgammon =>
          let '(rooms, out) :=
            Handler.roll_dice (backgammonRooms w) (userId socket) gameId
              (Some (as_game game)) rolled in
          (with_backgammonRooms w rooms, RoomEvent <$> out, None)
      end
  end.

(** After the insert: the win test on the state of the room object. *)
Definition roll_dice_finish (w : World) (pend : PendingRoll) : World * list Event :=
  let room := pending_dice_room pend in
  let gameId := pending_gameId pend in
  match DiceDuel.game_winner (gameState room) with
  | Some winner =>
      let winnerId := id_of winner (dice_player1Id room) (dice_player2Id room) in
      let w3 := complete_game w gameId winnerId 10 in
      (with_diceRooms w3 (delete gameId (diceRooms w3)),
       [DiceGameOver gameId winner winnerId (gameState room) None])
  | None =>
      (w,
       [DiceRolledAll gameId (pending_roll pend) (pending_player pend)
          (DiceDuel.current_round (gameState room));
        DiceGameStateAll gameId (gameState room)])
  end.

(** A [disconnect] of [leaver] runs while the [roll-dice] of [roller]
    waits for its insert. *)
Definition roll_with_disconnect_between (w : World) (roller : Socket) (gameId : string)
    (roll : Z) (rolled : Z * Z) (leaver : Socket) : World * list Event :=
  let '(w1, out1, pend) := roll_dice_begin w roller gameId roll rolled in
  let '(w2, out2) := disconnect w1 leaver in
  match pend with
  | None => (w2, out1 ++ out2)
  | Some pend =>
      let '(w3, out3) := roll_dice_finish w2 pend in
      (w3, out1 ++ out2 ++ out3)
  end.

(** *** Runs *)

Inductive Request : Type :=
  | JoinGame (socket : Socket) (gameId : string)
  | RollDice (socket : Socket) (gameId : string) (roll : Z) (rolled : Z * Z)
  | Disconnect (socket : Socket).

Definition serve (w : World) (r : Request) : World * list Event :=
  match r with
  | JoinGame socket gameId => join_game w socket gameId
  | RollDice socket gameId roll rolled => roll_dice w socket gameId roll rolled
  | Disconnect socket => disconnect w socket
  end.

(** The world after a list of requests served one at a time: each handler
    runs to its end before the next one starts.  Handlers that overlap at
    their awaits are not runs of this kind; [roll_with_disconnect_between]
    is one such schedule. *)
Definition run (w : World) (rs : list Request) : World :=
  foldl (fun w r => fst (serve w r)) w rs.

(** Every room belongs to an active game of its kind. *)
Definition rooms_active (w : World) : Prop :=
  forall gameId,
    (is_Some (backgammonRooms w !! gameId) ->
     exists game, games w !! gameId = Some game /\ status game = Active /\
       default Backgammon (row_game_type game) = Backgammon) /\
    (is_Some (diceRooms w !! gameId) ->
     exists game, games w !! gameId = Some game /\ status game = Active /\
       default Backgammon (row_game_type game) = Dice).

(** The row of a game that has ended. *)
Definition completed (game : GameRow) (winnerId : string) (pointsAwarded : Z) : GameRow :=
  mkGameRow (player1_id game) (player2_id game) (row_game_type game)
    Completed (Some winnerId) pointsAwarded.

(** The points after an award; a winner without a user row gets none. *)
Definition award (points : gmap string Z) (winnerId : string) (pointsAwarded : Z)
  : gmap string Z :=
  match points !! winnerId with
  | Some p => <[winnerId := p + pointsAwarded]> points
  | None => points
  end.

(** *** Sample worlds *)

Definition alice : Socket := mkSocket "s1" "alice".
Definition bob : Socket := mkSocket "s2" "bob".

(** An active board game and an active dice duel between alice and bob,
    nobody connected. *)
Definition lobby : World :=
  {| games := {[ "g"%string := mkGameRow "alice" "bob" (Some Backgammon) Active None 0;
                 "d"%string := mkGameRow "alice" "bob" (Some Dice) Active None 0 ]};
     users := {[ "alice"%string := 0; "bob"%string := 0 ]};
     backgammonRooms := ∅;
     diceRooms := ∅;
     socketToGame := ∅;
     game_moves := [] |}.

(** The duel "d" in its third round: alice leads 2 to 0 and has rolled a
    6, bob is to roll. *)
Definition last_round_state : DiceDuel.DiceGameState :=
  DiceDuel.mkDiceGameState "d" 2 0 3 (Some 6) None P2 None None.

Definition last_round : World :=
  {| games := games lobby;
     users := users lobby;
     backgammonRooms := ∅;
     diceRooms := {[ "d"%string := mkDiceRoom "d" last_round_state "alice" "bob" ]};
     socketToGame := {[ "s1"%string := "d"%string; "s2"%string := "d"%string ]};
     game_moves := [] |}.

End Session.

(** ** The board component of the client (shared-home version)

    [calculateValidDestinations] computes the destinations that the board
    highlights for the selected point or the bar; a click on one of them
    sends [make-move].  The component reads the set by [has] only, so the
    model keeps the destinations in the order in which they are added. *)

Module Client.

(** A loop that adds to [valid] in each round. *)
Fixpoint collect {I : Type} (body : I -> Outcome (list Dest)) (idxs : list I)
  : Outcome (list Dest) :=
  match idxs with
  | [] => Ret []
  | i :: rest =>
      let! here := body i in
      let! more := collect body rest in
      Ret (here ++ more)
  end.

Definition calculateValidDestinations (board : option BackgammonBoard)
    (dice : option (Z * Z)) (usedDice : list bool) (playerNumber : Player)
    (from : Origin) : Outcome (list Dest) :=
  match board, dice with
  | Some board, Some dice =>
      let homeStart := 0 in
      let homeEnd := 5 in
      let direction := -1 in
      match from with
      | FromBar =>
          collect (fun i =>
            let expectedIndex0 := 24 - fst dice - 1 in
            let expectedIndex1 := 24 - snd dice - 1 in
            let! pt := point_at (points board) i in
            if count pt (opponent playerNumber) <=? 1 then
              Ret ((if unused usedDice 0 && (i =? expectedIndex0) then [ToPoint i] else [])
                   ++ (if unused usedDice 1 && (i =? expectedIndex1) then [ToPoint i] else []))
            else Ret []) (seqZ 18 6)
      | FromPoint from =>
          let! outside :=
            any_at (fun i =>
              if (i <? homeStart) || (i >? homeEnd) then
                let! pt := point_at (points board) i in
                Ret (count pt playerNumber >? 0)
              else Ret false) (seqZ 0 24) in
          let allInHome := negb outside && negb (per (bar board) playerNumber >? 0) in
          let! regular :=
            collect (fun dieIndex =>
              if negb (unused usedDice dieIndex) then Ret [] else
              let to := from + pick dice dieIndex * direction in
              if (0 <=? to) && (to <? 24) then
                let! pt := point_at (points board) to in
                if count pt (opponent playerNumber) <=? 1 then Ret [ToPoint to] else Ret []
              else Ret []) [0%nat; 1%nat] in
          let! bearing :=
            if allInHome && (homeStart <=? from) && (from <=? homeEnd) then
              let pointNumber := from + 1 in
              collect (fun dieIndex =>
                if negb (unused usedDice dieIndex) then Ret [] else
                if pointNumber =? pick dice dieIndex then Ret [ToOff]
                else if pointNumber <? pick dice dieIndex then
                  let! higher :=
                    any_at (fun i =>
                      let! pt := point_at (points board) i in
                      Ret (count pt playerNumber >? 0)) (seqZ (from + 1) (homeEnd - from)) in
                  if higher then Ret [] else Ret [ToOff]
                else Ret []) [0%nat; 1%nat]
            else Ret [] in
          Ret (regular ++ bearing)
      end
  | _, _ => Ret []
  end.

(** What the component lets the user select: the bar when the player has
    a checker on it, a point when the player has a checker there. *)
Definition selectable (board : BackgammonBoard) (playerNumber : Player) (from : Origin)
  : Prop :=
  match from with
  | FromBar => 0 < per (bar board) playerNumber
  | FromPoint from => 0 <= from <= 23 /\ 0 < checkers board from playerNumber
  end.

End Client.
(** ** Basic facts *)

Lemma bindO_Ret {A B} (m : Outcome A) (k : A -> Outcome B) (r : B) :
  bindO m k = Ret r <-> exists a, m = Ret a /\ k a = Ret r.
Proof.
  destruct m as [a|]; simpl; split.
  - eauto.
  - intros (a' & Ha & Hk). congruence.
  - discriminate.
  - intros (a' & Ha & _). discriminate.
Qed.

Lemma point_at_Ret pts i pt :
  point_at pts i = Ret pt <-> 0 <= i /\ pts !! Z.to_nat i = Some pt.
Proof.
  unfold point_at. destruct (Z.leb_spec 0 i).
  - destruct (pts !! Z.to_nat i) eqn:E; split; intros; try discriminate.
    + split; [lia | congruence].
    + f_equal. destruct H0. congruence.
    + destruct H0. discriminate.
  - split; [discriminate | lia].
Qed.

Lemma point_at_in_range pts i :
  0 <= i < Z.of_nat (length pts) -> exists pt, point_at pts i = Ret pt.
Proof.
  intros Hi. destruct (lookup_lt_is_Some_2 pts (Z.to_nat i)) as [pt Hpt]; [lia|].
  exists pt. apply point_at_Ret. split; [lia | exact Hpt].
Qed.

Lemma point_at_checkers b i pt p :
  point_at (points b) i = Ret pt -> checkers b i p = count pt p.
Proof.
  intros [Hi Hpt]%point_at_Ret. unfold checkers.
  destruct (Z.leb_spec 0 i); [|lia]. by rewrite Hpt.
Qed.

Lemma point_at_wf b i :
  length (points b) = 24%nat -> 0 <= i < 24 ->
  exists pt, point_at (points b) i = Ret pt /\ forall p, count pt p = checkers b i p.
Proof.
  intros Hlen Hi. destruct (point_at_in_range (points b) i) as [pt Hpt]; [lia|].
  exists pt. split; [exact Hpt|]. intros p. symmetry. by apply point_at_checkers.
Qed.

Lemma well_formed_b_ok (b : BackgammonBoard) :
  well_formed_b b = true -> WellFormed b.
Proof.
  unfold well_formed_b. rewrite !andb_true_iff.
  intros [[[[[Hlen Hall] Hb1] Hb2] Ho1] Ho2].
  split.
  - apply Z.eqb_eq in Hlen. lia.
  - intros i p. unfold checkers. destruct (0 <=? i); [|lia].
    destruct (points b !! Z.to_nat i) as [pt|] eqn:E; [|lia].
    rewrite forallb_forall in Hall.
    specialize (Hall pt). rewrite <- list_elem_of_In in Hall.
    specialize (Hall (list_elem_of_lookup_2 _ _ _ E)).
    apply andb_true_iff in Hall as [H1 H2].
    destruct p; simpl; lia.
  - intros []; simpl; lia.
  - intros []; simpl; lia.
Qed.

(** A scan whose body never throws on the scanned indices is [existsb]. *)
Lemma any_at_pure (body : Z -> Outcome bool) (g : Z -> bool) (idxs : list Z) :
  (forall i, i ∈ idxs -> body i = Ret (g i)) ->
  any_at body idxs = Ret (existsb g idxs).
Proof.
  induction idxs as [|i rest IH]; intros Hbody; simpl; [reflexivity|].
  rewrite (Hbody i) by left. simpl.
  destruct (g i); [reflexivity|].
  apply IH. intros j Hj. apply Hbody. by right.
Qed.

Lemma existsb_seqZ_false (g : Z -> bool) (m len : Z) :
  existsb g (seqZ m len) = false <-> forall i, m <= i < m + len -> g i = false.
Proof.
  split.
  - intros H i Hi. destruct (g i) eqn:E; [|reflexivity].
    rewrite <- H. symmetry. apply existsb_exists. exists i. split; [|exact E].
    apply list_elem_of_In, elem_of_seqZ. lia.
  - intros H. destruct (existsb g (seqZ m len)) eqn:E; [|reflexivity].
    apply existsb_exists in E as (i & Hi & Hg).
    apply list_elem_of_In, elem_of_seqZ in Hi. rewrite H in Hg by lia. discriminate.
Qed.

Lemma existsb_seqZ_true (g : Z -> bool) (m len : Z) :
  existsb g (seqZ m len) = true <-> exists i, m <= i < m + len /\ g i = true.
Proof.
  rewrite existsb_exists. split; intros (i & Hi & Hg); exists i; (split; [|exact Hg]).
  - apply list_elem_of_In, elem_of_seqZ in Hi. lia.
  - apply list_elem_of_In, elem_of_seqZ. lia.
Qed.

(** ** Facts about the shared-home rule engine *)

Section SharedRules.
Import Shared.

Variable b : BackgammonBoard.
Hypothesis Hlen : length (points b) = 24%nat.

Lemma outside_home_scan (p : Player) :
  any_at (fun i =>
      if (i <? 0) || (i >? 5) then
        let! pt := point_at (points b) i in
        Ret (count pt p >? 0)
      else Ret false) (seqZ 0 24)
  = Ret (existsb (fun i => ((i <? 0) || (i >? 5)) && (checkers b i p >? 0)) (seqZ 0 24)).
Proof.
  apply any_at_pure. intros i Hi%elem_of_seqZ.
  destruct ((i <? 0) || (i >? 5)); [|reflexivity].
  destruct (point_at_wf b i Hlen) as (pt & Hpt & Hc); [lia|].
  rewrite Hpt. simpl. by rewrite Hc.
Qed.

Lemma allInHomeBoard_spec (p : Player) :
  exists v, allInHomeBoard b p = Ret v /\
    (v = true <-> (forall i, 6 <= i <= 23 -> checkers b i p <= 0) /\ per (bar b) p = 0).
Proof.
  unfold allInHomeBoard. cbv zeta. rewrite outside_home_scan. cbn [bindO].
  match goal with |- context [existsb ?g ?l] => destruct (existsb g l) eqn:E end.
  - exists false. split; [reflexivity|]. split; [discriminate|].
    intros [Hout _]. exfalso.
    apply existsb_seqZ_true in E as (i & Hi & Hg).
    apply andb_true_iff in Hg as [Hr Hc].
    assert (6 <= i <= 23) by (zbool; simpl in *; try discriminate; lia).
    specialize (Hout i H). zbool; try discriminate; lia.
  - eexists. split; [reflexivity|].
    rewrite Z.eqb_eq. split.
    + intros Hbar. split; [|exact Hbar]. intros i Hi.
      pose proof (proj1 (existsb_seqZ_false _ _ _) E i ltac:(lia)) as Hg.
      simpl in Hg. zbool; simpl in *; try discriminate; lia.
    + tauto.
Qed.

Lemma higher_scan (p : Player) (from : Z) :
  0 <= from ->
  any_at (fun i =>
      let! pti := point_at (points b) i in
      Ret (count pti p >? 0)) (seqZ (from + 1) (5 - from))
  = Ret (existsb (fun i => checkers b i p >? 0) (seqZ (from + 1) (5 - from))).
Proof.
  intros Hfrom. apply any_at_pure. intros i Hi%elem_of_seqZ.
  destruct (point_at_wf b i Hlen) as (pt & Hpt & Hc); [lia|].
  rewrite Hpt. simpl. by rewrite Hc.
Qed.

End SharedRules.

(** ** The starting layout *)

Lemma perm_2535_a : [5; 3; 5; 2] ≡ₚ [2; 5; 3; 5].
Proof.
  apply (Permutation_cons_app [2] [3; 5] 5).
  apply (Permutation_cons_app [2] [5] 3).
  apply (Permutation_cons_app [2] [] 5). reflexivity.
Qed.

Lemma perm_2535_b : [3; 5; 2; 5] ≡ₚ [2; 5; 3; 5].
Proof.
  apply (Permutation_cons_app [2; 5] [5] 3).
  apply (Permutation_cons_app [2] [5] 5). reflexivity.
Qed.

(** C8, as the shared-home file has it: each player's occupied points carry
    2, 5, 3 and 5 checkers (15 in all), player 1 on indices 5, 8, 12, 23 and
    player 2 on indices 3, 6, 17, 18; the two placements mirror each other
    under the reflection that exchanges the two rows of the board; nothing
    is on the bar, nothing is borne off and there are no dice. *)
Theorem initializeBoard_layout :
  points Shared.initializeBoard =
    [(0, 0); (0, 0); (0, 0); (0, 3); (0, 0); (5, 0);
     (0, 5); (0, 0); (3, 0); (0, 0); (0, 0); (0, 0);
     (5, 0); (0, 0); (0, 0); (0, 0); (0, 0); (0, 2);
     (0, 5); (0, 0); (0, 0); (0, 0); (0, 0); (2, 0)]
  /\ (forall p, occupied Shared.initializeBoard p ≡ₚ [2; 5; 3; 5])
  /\ fifteen Shared.initializeBoard
  /\ (forall i, 0 <= i <= 23 ->
        checkers Shared.initializeBoard i P2
        = checkers Shared.initializeBoard (row_mirror i) P1)
  /\ bar Shared.initializeBoard = {| player1 := 0; player2 := 0 |}
  /\ borne_off Shared.initializeBoard = {| player1 := 0; player2 := 0 |}
  /\ dice Shared.initializeBoard = None.
Proof.
  split; [reflexivity|]. split.
  - intros []; [exact perm_2535_a | exact perm_2535_b].
  - split; [intros []; reflexivity|]. split; [|repeat split].
    intros i Hi. each_index i Hi; reflexivity.
Qed.

(** C8 as stated fails on the shared-home layout: player 1 has two
    checkers on index 23 and player 2 none on index 0. *)
Lemma initializeBoard_not_mirror : ~ mirror_symmetric Shared.initializeBoard.
Proof.
  intros H. specialize (H 0 ltac:(lia)). vm_compute in H. discriminate.
Qed.

Lemma initializeBoard_wf : WellFormed Shared.initializeBoard.
Proof.
  split.
  - reflexivity.
  - intros i p. unfold checkers. destruct (0 <=? i); [|lia].
    destruct (points Shared.initializeBoard !! Z.to_nat i) as [pt|] eqn:E; [|lia].
    assert (Hin : pt ∈ points Shared.initializeBoard) by (eapply list_elem_of_lookup_2; exact E).
    vm_compute in Hin.
    repeat (apply elem_of_cons in Hin as [->|Hin]; [destruct p; simpl; lia|]).
    by apply elem_of_nil in Hin.
  - intros []; simpl; lia.
  - intros []; simpl; lia.
Qed.

(** ** Legality of bar entry and bearing off *)

(** C4: entering from the bar is legal exactly when the player has a
    checker on the bar, the destination is one of the indices 18..23 and
    holds at most one opposing checker; with a die value [d] the destination
    must also be [(24 - d) - 1]. *)
Theorem bar_entry_legal (b : BackgammonBoard) (p : Player) (to : Z) :
  WellFormed b ->
  Shared.isValidMove b FromBar (ToPoint to) p None
    = Ret (bool_decide (1 <= per (bar b) p /\ 18 <= to <= 23 /\
                        checkers b to (opponent p) <= 1))
  /\ forall d, Shared.isValidMove b FromBar (ToPoint to) p (Some d)
    = Ret (bool_decide ((1 <= per (bar b) p /\ 18 <= to <= 23 /\
                         checkers b to (opponent p) <= 1) /\ to = (24 - d) - 1)).
Proof.
  intros [Hlen _ Hbar _]. specialize (Hbar p).
  assert (Hpt : 18 <= to <= 23 -> exists pt, point_at (points b) to = Ret pt /\
                  count pt (opponent p) = checkers b to (opponent p)).
  { intros Hto. destruct (point_at_wf b to Hlen) as (pt & Hpt & Hc); [lia|]. eauto. }
  split; [|intros d]; unfold Shared.isValidMove; cbv zeta;
    (destruct (Z.ltb_spec to 18); simpl;
      [f_equal; symmetry; apply bool_decide_eq_false; lia|]);
    rewrite Z.gtb_ltb;
    (destruct (Z.ltb_spec 23 to); simpl;
      [f_equal; symmetry; apply bool_decide_eq_false; lia|]);
    destruct Hpt as (pt & -> & Hc); [lia| |lia|]; cbn [bindO];
    rewrite Hc, Z.gtb_ltb;
    (destruct (Z.ltb_spec 1 (checkers b to (opponent p)));
      [f_equal; symmetry; apply bool_decide_eq_false; lia|]);
    (destruct (Z.eqb_spec (per (bar b) p) 0);
      [f_equal; symmetry; apply bool_decide_eq_false; lia|]).
  - f_equal. symmetry. apply bool_decide_eq_true. lia.
  - destruct (Z.eqb_spec to (24 - d - 1)); simpl; f_equal; symmetry.
    + apply bool_decide_eq_true. lia.
    + apply bool_decide_eq_false. lia.
Qed.

(** C5: with all of [p]'s checkers home and a checker of [p] on home
    point [from], bearing off with die [d] is legal exactly when
    [from + 1 = d], or [from + 1 < d] and [p] has no checker on a home
    point above [from]; without all checkers home it is never legal. *)
Theorem bear_off_legal (b : BackgammonBoard) (p : Player) (from d : Z) :
  WellFormed b ->
  (Shared.allInHomeBoard b p = Ret true ->
   0 <= from <= 5 -> 1 <= checkers b from p ->
   exists v, Shared.isValidMove b (FromPoint from) ToOff p (Some d) = Ret v /\
     (v = true <->
      from + 1 = d \/
      (from + 1 < d /\ forall i, from < i <= 5 -> checkers b i p = 0)))
  /\ (Shared.allInHomeBoard b p = Ret false ->
      forall dv, Shared.isValidMove b (FromPoint from) ToOff p dv = Ret false).
Proof.
  intros [Hlen Hpts _ _]. split.
  - intros Hhome Hfrom Hhas.
    unfold Shared.isValidMove. rewrite Hhome. cbn [bindO negb].
    unfold Shared.isInHomeBoard.
    destruct (Z.leb_spec 0 from); [|lia]. destruct (Z.leb_spec from 5); [|lia].
    cbn [andb negb].
    destruct (point_at_wf b from Hlen) as (pt & -> & Hc); [lia|].
    cbn [bindO]. rewrite Hc.
    destruct (Z.eqb_spec (checkers b from p) 0); [lia|]. cbv zeta.
    destruct (Z.eqb_spec (from + 1) d).
    { exists true. split; [reflexivity|]. tauto. }
    destruct (Z.ltb_spec (from + 1) d).
    + rewrite (higher_scan b Hlen p from) by lia. cbn [bindO].
      match goal with |- context [existsb ?g ?l] => destruct (existsb g l) eqn:E end.
      * exists false. split; [reflexivity|]. split; [discriminate|].
        intros [?|[_ Hnone]]; [lia|]. exfalso.
        apply existsb_seqZ_true in E as (i & Hi & Hg).
        rewrite Z.gtb_ltb in Hg. apply Z.ltb_lt in Hg.
        rewrite (Hnone i) in Hg by lia. lia.
      * exists true. split; [reflexivity|]. split; [|reflexivity].
        intros _. right. split; [lia|]. intros i Hi.
        pose proof (proj1 (existsb_seqZ_false _ _ _) E i ltac:(lia)) as Hg.
        simpl in Hg. rewrite Z.gtb_ltb in Hg. apply Z.ltb_ge in Hg.
        specialize (Hpts i p). lia.
    + exists false. split; [reflexivity|]. split; [discriminate|]. lia.
  - intros Hhome dv. unfold Shared.isValidMove. rewrite Hhome. reflexivity.
Qed.

(** ** Applying a move *)

Lemma on_points_insert (pts : list PointT) (n : nat) (pt pt' : PointT) (q : Player) :
  pts !! n = Some pt ->
  on_points (<[n := pt']> pts) q = on_points pts q - count pt q + count pt' q.
Proof.
  revert n. induction pts as [|x rest IH]; intros [|n] Hn; simpl in *; try discriminate.
  - injection Hn as ->. lia.
  - rewrite (IH n Hn). lia.
Qed.

Lemma count_set_count (pt : PointT) (p q : Player) (v : Z) :
  count (set_count pt p v) q = if Player_eqb q p then v else count pt q.
Proof. destruct p, q; reflexivity. Qed.

Lemma per_set_per (o : PerPlayer) (p q : Player) (v : Z) :
  per (set_per o p v) q = if Player_eqb q p then v else per o q.
Proof. destruct p, q; reflexivity. Qed.

Lemma point_at_defined (pts : list PointT) (i : Z) :
  (exists pt, point_at pts i = Ret pt) <-> 0 <= i < Z.of_nat (length pts).
Proof.
  split.
  - intros (pt & [Hi Hpt]%point_at_Ret). apply lookup_lt_Some in Hpt. lia.
  - apply point_at_in_range.
Qed.

(** What [points[i][p] = f(points[i][p])] does to a board. *)
Lemma update_count_spec (b : BackgammonBoard) (i : Z) (p : Player) (f : Z -> Z) :
  0 <= i < Z.of_nat (length (points b)) ->
  exists b', update_count b i p f = Ret b' /\
    length (points b') = length (points b) /\
    bar b' = bar b /\ borne_off b' = borne_off b /\
    (forall q, on_points (points b') q =
       on_points (points b) q +
       if Player_eqb q p then f (checkers b i p) - checkers b i p else 0) /\
    (forall j q, checkers b' j q =
       if (j =? i) && Player_eqb q p then f (checkers b i p) else checkers b j q).
Proof.
  intros Hi. destruct (point_at_in_range (points b) i Hi) as [pt Hpt].
  unfold update_count. rewrite Hpt. cbn [bindO]. eexists. split; [reflexivity|].
  pose proof (point_at_checkers b i pt p Hpt) as Hc.
  apply point_at_Ret in Hpt as [_ Hlk]. simpl.
  split; [apply length_insert|]. do 2 (split; [reflexivity|]). split.
  - intros q. rewrite (on_points_insert _ _ pt _ q Hlk), count_set_count, Hc.
    destruct (Player_eqb q p) eqn:E; [|lia].
    destruct p, q; try discriminate; lia.
  - intros j q. unfold checkers at 1. simpl.
    destruct (Z.eqb_spec j i) as [->|Hne].
    + destruct (Z.leb_spec 0 i); [|lia].
      rewrite list_lookup_insert_eq by lia.
      rewrite count_set_count, Hc. simpl.
      destruct (Player_eqb q p); [reflexivity|].
      unfold checkers. destruct (Z.leb_spec 0 i); [|lia]. by rewrite Hlk.
    + simpl. unfold checkers. destruct (Z.leb_spec 0 j); [|reflexivity].
      rewrite list_lookup_insert_ne by lia. reflexivity.
Qed.

(** Hitting a blot moves one opposing checker from the point to the bar. *)
Lemma hit_blot_spec (b : BackgammonBoard) (to : Z) (p : Player) :
  0 <= to < Z.of_nat (length (points b)) ->
  exists b', hit_blot b to p = Ret b' /\
    length (points b') = length (points b) /\
    borne_off b' = borne_off b /\
    (forall q, on_points (points b') q + per (bar b') q =
               on_points (points b) q + per (bar b) q) /\
    (forall q, per (bar b) q <= per (bar b') q) /\
    (forall j q, checkers b' j q =
       if (j =? to) && Player_eqb q (opponent p) && (checkers b to (opponent p) =? 1)
       then 0 else checkers b j q).
Proof.
  intros Hto. destruct (point_at_in_range (points b) to Hto) as [pt Hpt].
  unfold hit_blot. rewrite Hpt. cbn [bindO].
  rewrite <- (point_at_checkers b to pt (opponent p) Hpt).
  destruct (Z.eqb_spec (checkers b to (opponent p)) 1) as [Hone|Hne].
  - destruct (update_count_spec b to (opponent p) (fun _ => 0) Hto)
      as (b1 & -> & Hlen & Hbar & Hoff & Hsum & Hchk).
    cbn [bindO]. eexists. split; [reflexivity|].
    cbn [with_bar points bar borne_off].
    split; [exact Hlen|]. split; [exact Hoff|]. split; [|split].
    + intros q. rewrite per_set_per, Hsum, Hbar, Hone.
      destruct (Player_eqb q (opponent p)) eqn:E; [|lia].
      destruct p, q; try discriminate; simpl; lia.
    + intros q. rewrite per_set_per, Hbar.
      destruct (Player_eqb q (opponent p)) eqn:E; [|lia].
      destruct p, q; try discriminate; simpl; lia.
    + intros j q. rewrite andb_true_r, <- Hchk. reflexivity.
  - exists b. split; [reflexivity|]. repeat split; try lia.
    intros j q. by rewrite andb_false_r.
Qed.

Lemma total_with_bar (b : BackgammonBoard) (o : PerPlayer) (q : Player) :
  total (with_bar b o) q = total b q - per (bar b) q + per o q.
Proof. unfold total. simpl. lia. Qed.

Lemma total_with_borne_off (b : BackgammonBoard) (o : PerPlayer) (q : Player) :
  total (with_borne_off b o) q = total b q - per (borne_off b) q + per o q.
Proof. unfold total. simpl. lia. Qed.

Lemma Player_eqb_eq (p q : Player) : Player_eqb p q = true <-> p = q.
Proof. destruct p, q; simpl; split; congruence. Qed.

(** [makeMove] returns a board and keeps every player's checker total,
    whenever the indices of the move are points of the board. *)
Lemma makeMove_conserves (b : BackgammonBoard) (from : Origin) (to : Dest)
    (p : Player) (d : Z) :
  move_in_range b from to ->
  exists b', makeMove b from to p d = Ret b' /\
    length (points b') = length (points b) /\
    forall q, total b' q = total b q.
Proof.
  unfold makeMove, move_in_range, in_points. cbv zeta.
  destruct from as [|from], to as [|to]; intros Hr.
  - exists b. auto.
  - destruct (hit_blot_spec (with_bar b (set_per (bar b) p (per (bar b) p - 1))) to p Hr)
      as (b2 & -> & Hlen2 & Hoff2 & Hsum2 & _ & _).
    cbn [bindO].
    destruct (update_count_spec b2 to p (fun c => c + 1)) as (b3 & -> & Hlen3 & Hbar3 & Hoff3 & Hsum3 & _).
    { rewrite Hlen2. exact Hr. }
    eexists. split; [reflexivity|]. split; [rewrite Hlen3, Hlen2; reflexivity|].
    intros q. unfold total. rewrite Hsum3, Hbar3, Hoff3, Hoff2.
    specialize (Hsum2 q). cbn [with_bar points bar borne_off] in Hsum2 |- *.
    rewrite per_set_per in Hsum2.
    destruct (Player_eqb q p) eqn:E; [|lia].
    apply Player_eqb_eq in E as ->. lia.
  - destruct (update_count_spec b from p (fun c => c - 1) Hr)
      as (b1 & -> & Hlen1 & Hbar1 & Hoff1 & Hsum1 & _).
    cbn [bindO]. eexists. split; [reflexivity|]. split; [exact Hlen1|].
    intros q. rewrite total_with_borne_off, per_set_per.
    unfold total. rewrite Hsum1, Hbar1, Hoff1.
    destruct (Player_eqb q p) eqn:E; [|lia].
    apply Player_eqb_eq in E as ->. lia.
  - destruct Hr as [Hf Ht].
    destruct (update_count_spec b from p (fun c => c - 1) Hf)
      as (b1 & -> & Hlen1 & Hbar1 & Hoff1 & Hsum1 & _).
    cbn [bindO].
    destruct (hit_blot_spec b1 to p) as (b2 & -> & Hlen2 & Hoff2 & Hsum2 & _ & _).
    { rewrite Hlen1. exact Ht. }
    cbn [bindO].
    destruct (update_count_spec b2 to p (fun c => c + 1)) as (b3 & -> & Hlen3 & Hbar3 & Hoff3 & Hsum3 & _).
    { rewrite Hlen2, Hlen1. exact Ht. }
    eexists. split; [reflexivity|]. split; [congruence|].
    intros q. unfold total. rewrite Hsum3, Hbar3, Hoff3, Hoff2, Hoff1.
    specialize (Hsum2 q). rewrite Hsum1, Hbar1 in Hsum2.
    destruct (Player_eqb q p); lia.
Qed.

(** [makeMove] keeps counts non-negative when the source is occupied. *)
Lemma makeMove_wf (b b' : BackgammonBoard) (from : Origin) (to : Dest)
    (p : Player) (d : Z) :
  WellFormed b -> move_in_range b from to -> source_occupied b from to p ->
  makeMove b from to p d = Ret b' -> WellFormed b'.
Proof.
  intros [Hlen Hpts Hbar Hoff].
  unfold makeMove, move_in_range, source_occupied, in_points. cbv zeta.
  destruct from as [|from], to as [|to]; intros Hr Hsrc.
  - intros [= <-]. by split.
  - set (b1 := with_bar b (set_per (bar b) p (per (bar b) p - 1))).
    destruct (hit_blot_spec b1 to p Hr) as (b2 & -> & Hlen2 & Hoff2 & _ & Hbar2 & Hchk2).
    cbn [bindO].
    destruct (update_count_spec b2 to p (fun c => c + 1)) as (b3 & -> & Hlen3 & Hbar3 & Hoff3 & _ & Hchk3).
    { rewrite Hlen2. exact Hr. }
    intros [= <-]. split.
    + rewrite Hlen3, Hlen2. exact Hlen.
    + intros j q. rewrite Hchk3, !Hchk2.
      pose proof (Hpts j q). pose proof (Hpts to p).
      change (checkers b1) with (checkers b).
      repeat match goal with |- context [if ?c then _ else _] => destruct c end; lia.
    + intros q. rewrite Hbar3. specialize (Hbar2 q).
      cbn [b1 with_bar bar] in Hbar2. rewrite per_set_per in Hbar2.
      pose proof (Hbar q). pose proof (Hbar p).
      destruct (Player_eqb q p) eqn:E; [|lia].
      apply Player_eqb_eq in E as ->. lia.
    + intros q. rewrite Hoff3, Hoff2. apply Hoff.
  - destruct (update_count_spec b from p (fun c => c - 1) Hr)
      as (b1 & -> & Hlen1 & Hbar1 & Hoff1 & _ & Hchk1).
    cbn [bindO]. intros [= <-]. split.
    + cbn [with_borne_off points]. rewrite Hlen1. exact Hlen.
    + intros j q. change (checkers (with_borne_off b1 _)) with (checkers b1).
      rewrite Hchk1. pose proof (Hpts j q). pose proof (Hpts from p).
      destruct (_ && _); lia.
    + intros q. cbn [with_borne_off bar]. rewrite Hbar1. apply Hbar.
    + intros q. cbn [with_borne_off borne_off]. rewrite per_set_per, Hoff1.
      pose proof (Hoff q). pose proof (Hoff p). destruct (Player_eqb q p); lia.
  - destruct Hr as [Hf Ht].
    destruct (update_count_spec b from p (fun c => c - 1) Hf)
      as (b1 & -> & Hlen1 & Hbar1 & Hoff1 & _ & Hchk1).
    cbn [bindO].
    destruct (hit_blot_spec b1 to p) as (b2 & -> & Hlen2 & Hoff2 & _ & Hbar2 & Hchk2).
    { rewrite Hlen1. exact Ht. }
    cbn [bindO].
    destruct (update_count_spec b2 to p (fun c => c + 1)) as (b3 & -> & Hlen3 & Hbar3 & Hoff3 & _ & Hchk3).
    { rewrite Hlen2, Hlen1. exact Ht. }
    intros [= <-]. split.
    + rewrite Hlen3, Hlen2, Hlen1. exact Hlen.
    + intros j q. rewrite Hchk3, !Hchk2, !Hchk1.
      pose proof (Hpts j q). pose proof (Hpts to p). pose proof (Hpts from p).
      repeat match goal with |- context [if ?c then _ else _] => destruct c end; lia.
    + intros q. rewrite Hbar3. specialize (Hbar2 q). rewrite Hbar1 in Hbar2.
      specialize (Hbar q). lia.
    + intros q. rewrite Hoff3, Hoff2, Hoff1. apply Hoff.
Qed.

(** A move that [isValidMove] accepts touches only points of the board and
    starts where the mover has a checker. *)
Lemma isValidMove_sound (b : BackgammonBoard) (from : Origin) (to : Dest)
    (p : Player) (dv : option Z) :
  Shared.isValidMove b from to p dv = Ret true ->
  move_in_range b from to /\ source_occupied b from to p.
Proof.
  unfold Shared.isValidMove, move_in_range, source_occupied, in_points. cbv zeta.
  destruct from as [|from], to as [|to]; intros H; try discriminate H.
  - destruct ((to <? 18) || (to >? 23)); [discriminate|].
    apply bindO_Ret in H as (pt & Hpt & H).
    destruct (count pt (opponent p) >? 1); [discriminate|].
    destruct (Z.eqb_spec (per (bar b) p) 0); [discriminate|].
    split; [|assumption]. apply point_at_defined. eauto.
  - apply bindO_Ret in H as (home & _ & H).
    destruct (negb home); [discriminate|].
    destruct (negb (Shared.isInHomeBoard from p)); [discriminate|].
    apply bindO_Ret in H as (pt & Hpt & H).
    rewrite <- (point_at_checkers b from pt p Hpt) in H.
    destruct (Z.eqb_spec (checkers b from p) 0); [discriminate|].
    split; [|assumption]. apply point_at_defined. eauto.
  - destruct (_ || _); [discriminate|].
    apply bindO_Ret in H as (ptf & Hptf & H).
    rewrite <- (point_at_checkers b from ptf p Hptf) in H.
    destruct (Z.eqb_spec (checkers b from p) 0); [discriminate|].
    destruct (to >=? from); [discriminate|].
    apply bindO_Ret in H as (ptt & Hptt & H).
    split; [|assumption]. split; apply point_at_defined; eauto.
Qed.

(** C1: a move that [isValidMove] accepts is applied by [makeMove] to a
    board on which every player still has 15 checkers (points, bar and
    borne off together); so every board reached from the starting board by
    accepted moves has 15 checkers for each player. *)
Theorem fifteen_checkers_invariant :
  (forall b from to p d,
     Shared.isValidMove b from to p (Some d) = Ret true ->
     fifteen b ->
     exists b', makeMove b from to p d = Ret b' /\ fifteen b')
  /\ (forall b,
        reachable_from Shared.isValidMove Shared.initializeBoard b ->
        length (points b) = 24%nat /\ fifteen b).
Proof.
  split.
  - intros b from to p d Hvalid H15.
    destruct (isValidMove_sound _ _ _ _ _ Hvalid) as [Hr _].
    destruct (makeMove_conserves b from to p d Hr) as (b' & Hb' & _ & Htot).
    exists b'. split; [exact Hb'|]. intros q. rewrite Htot. apply H15.
  - intros b Hreach. induction Hreach as [|b from to p d b' _ [IHlen IH15] Hvalid Hmove].
    + split; [reflexivity|]. intros []; reflexivity.
    + destruct (isValidMove_sound _ _ _ _ _ Hvalid) as [Hr _].
      destruct (makeMove_conserves b from to p d Hr) as (b'' & Hb'' & Hlen & Htot).
      rewrite Hmove in Hb''. injection Hb'' as <-.
      split; [congruence|]. intros q. rewrite Htot. apply IH15.
Qed.

Lemma fifteen_checkers_invariant_witness :
  (exists b', makeMove Shared.initializeBoard (FromPoint 8) (ToPoint 5) P1 3 = Ret b'
              /\ fifteen b')
  /\ (length (points after_8_5) = 24%nat /\ fifteen after_8_5).
Proof.
  split.
  - apply (proj1 fifteen_checkers_invariant).
    + reflexivity.
    + intros []; reflexivity.
  - apply (proj2 fifteen_checkers_invariant).
    apply (reach_move _ _ Shared.initializeBoard (FromPoint 8) (ToPoint 5) P1 3).
    + apply reach_start.
    + reflexivity.
    + reflexivity.
Defined.

(** Boards reached by accepted moves are well formed. *)
Lemma reachable_wf (b : BackgammonBoard) :
  reachable_from Shared.isValidMove Shared.initializeBoard b -> WellFormed b.
Proof.
  induction 1 as [|b from to p d b' _ IH Hvalid Hmove].
  - exact initializeBoard_wf.
  - destruct (isValidMove_sound _ _ _ _ _ Hvalid) as [Hr Hs].
    exact (makeMove_wf b b' from to p d IH Hr Hs Hmove).
Qed.

Lemma bar_entry_legal_witness :
  Shared.isValidMove blocked_bar_board FromBar (ToPoint 20) P1 None
    = Ret (bool_decide (1 <= per (bar blocked_bar_board) P1 /\ 18 <= 20 <= 23 /\
                        checkers blocked_bar_board 20 (opponent P1) <= 1))
  /\ forall d, Shared.isValidMove blocked_bar_board FromBar (ToPoint 20) P1 (Some d)
    = Ret (bool_decide ((1 <= per (bar blocked_bar_board) P1 /\ 18 <= 20 <= 23 /\
                         checkers blocked_bar_board 20 (opponent P1) <= 1) /\ 20 = (24 - d) - 1)).
Proof. apply (bar_entry_legal blocked_bar_board P1 20). apply well_formed_b_ok. reflexivity. Defined.

Lemma returned_Ret (o : Outcome bool) :
  (exists v, o = Ret v) -> o = Ret (returned o).
Proof. intros [v ->]. reflexivity. Qed.

(** On a board of 24 points [isValidMove] always returns. *)
Lemma isValidMove_total (b : BackgammonBoard) (from : Origin) (to : Dest)
    (p : Player) (dv : option Z) :
  length (points b) = 24%nat ->
  exists v, Shared.isValidMove b from to p dv = Ret v.
Proof.
  intros Hlen. unfold Shared.isValidMove. cbv zeta.
  destruct from as [|from], to as [|to]; [eauto| | |].
  - destruct (Z.ltb_spec to 18); simpl; [eauto|].
    rewrite Z.gtb_ltb. destruct (Z.ltb_spec 23 to); simpl; [eauto|].
    destruct (point_at_wf b to Hlen) as (pt & -> & _); [lia|]. cbn [bindO].
    destruct (_ >? _); [eauto|]. destruct (_ =? _); [eauto|].
    destruct dv; [|eauto]. destruct (negb _); eauto.
  - destruct (allInHomeBoard_spec b Hlen p) as (home & -> & _). cbn [bindO].
    destruct home; cbn [negb]; [|eauto].
    unfold Shared.isInHomeBoard.
    destruct (Z.leb_spec 0 from); simpl; [|eauto].
    destruct (Z.leb_spec from 5); simpl; [|eauto].
    destruct (point_at_wf b from Hlen) as (pt & -> & _); [lia|]. cbn [bindO].
    destruct (_ =? _); [eauto|]. destruct dv as [d|]; [|eauto].
    destruct (_ =? _); [eauto|]. destruct (_ <? _); [|eauto].
    rewrite (higher_scan b Hlen p from) by lia. cbn [bindO].
    destruct (existsb _ _); eauto.
  - destruct (Z.ltb_spec from 0); simpl; [eauto|].
    rewrite (Z.gtb_ltb from). destruct (Z.ltb_spec 23 from); simpl; [eauto|].
    destruct (Z.ltb_spec to 0); simpl; [eauto|].
    rewrite (Z.gtb_ltb to). destruct (Z.ltb_spec 23 to); simpl; [eauto|].
    destruct (point_at_wf b from Hlen) as (ptf & -> & _); [lia|]. cbn [bindO].
    destruct (_ =? _); [eauto|]. destruct (_ >=? _); [eauto|].
    destruct (point_at_wf b to Hlen) as (ptt & -> & _); [lia|]. cbn [bindO].
    destruct (_ >? _); [eauto|]. destruct dv; [|eauto]. destruct (negb _); eauto.
Qed.

(** What an accepted move looks like, by kind. *)
Lemma isValidMove_regular_shape (b : BackgammonBoard) (from to : Z) (p : Player) (d : Z) :
  Shared.isValidMove b (FromPoint from) (ToPoint to) p (Some d) = Ret true ->
  to = from - d /\ 0 <= to < 24 /\ 0 <= from < 24 /\ checkers b from p <> 0.
Proof.
  unfold Shared.isValidMove. cbv zeta. intros H.
  destruct (Z.ltb_spec from 0); simpl in H; [discriminate|].
  rewrite (Z.gtb_ltb from) in H. destruct (Z.ltb_spec 23 from); simpl in H; [discriminate|].
  destruct (Z.ltb_spec to 0); simpl in H; [discriminate|].
  rewrite (Z.gtb_ltb to) in H. destruct (Z.ltb_spec 23 to); simpl in H; [discriminate|].
  apply bindO_Ret in H as (ptf & Hptf & H).
  rewrite <- (point_at_checkers b from ptf p Hptf) in H.
  destruct (Z.eqb_spec (checkers b from p) 0); [discriminate|].
  destruct (to >=? from); [discriminate|].
  apply bindO_Ret in H as (ptt & Hptt & H).
  destruct (_ >? _); [discriminate|].
  destruct (Z.eqb_spec (from - to) d); simpl in H; [|discriminate]. lia.
Qed.

Lemma isValidMove_off_shape (b : BackgammonBoard) (from : Z) (p : Player) (dv : option Z) :
  Shared.isValidMove b (FromPoint from) ToOff p dv = Ret true ->
  Shared.allInHomeBoard b p = Ret true /\ Shared.isInHomeBoard from p = true /\
  checkers b from p <> 0.
Proof.
  unfold Shared.isValidMove. intros H.
  apply bindO_Ret in H as (home & Hhome & H).
  destruct home; cbn [negb] in H; [|discriminate].
  destruct (Shared.isInHomeBoard from p); cbn [negb] in H; [|discriminate].
  apply bindO_Ret in H as (pt & Hpt & H).
  rewrite <- (point_at_checkers b from pt p Hpt) in H.
  destruct (Z.eqb_spec (checkers b from p) 0); [discriminate|]. auto.
Qed.

Lemma isValidMove_bar_shape (b : BackgammonBoard) (to : Dest) (p : Player) (dv : option Z) :
  Shared.isValidMove b FromBar to p dv = Ret true ->
  per (bar b) p <> 0 /\ exists i, to = ToPoint i /\ 18 <= i <= 23.
Proof.
  unfold Shared.isValidMove. cbv zeta. destruct to as [|to]; [discriminate|]. intros H.
  destruct (Z.ltb_spec to 18); simpl in H; [discriminate|].
  rewrite Z.gtb_ltb in H. destruct (Z.ltb_spec 23 to); simpl in H; [discriminate|].
  apply bindO_Ret in H as (pt & Hpt & H).
  destruct (_ >? _); [discriminate|].
  destruct (Z.eqb_spec (per (bar b) p) 0); [discriminate|].
  split; [assumption|]. exists to. split; [reflexivity | lia].
Qed.

Lemma isValidMove_bar_entry_point (b : BackgammonBoard) (i : Z) (p : Player) (d : Z) :
  Shared.isValidMove b FromBar (ToPoint i) p (Some d) = Ret true ->
  i = 24 - d - 1 /\ checkers b i (opponent p) <= 1.
Proof.
  unfold Shared.isValidMove. cbv zeta. intros H.
  destruct (_ || _); [discriminate|].
  apply bindO_Ret in H as (pt & Hpt & H).
  rewrite <- (point_at_checkers b i pt (opponent p) Hpt) in H.
  rewrite Z.gtb_ltb in H. destruct (Z.ltb_spec 1 (checkers b i (opponent p))); [discriminate|].
  destruct (_ =? 0); [discriminate|].
  destruct (Z.eqb_spec i (24 - d - 1)); [auto|discriminate].
Qed.

(** ** The any-legal-move test *)

Section CanPlayerMove.
Import Shared.

Variable b : BackgammonBoard.
Variable p : Player.
Variable dice : Z * Z.
Variable usedDice : list bool.
Hypothesis Hwf : WellFormed b.

Local Abbreviation valid from to k := (accepts b p dice from to k).

Lemma valid_true (from : Origin) (to : Dest) (k : nat) :
  valid from to k = true <-> isValidMove b from to p (Some (pick dice k)) = Ret true.
Proof.
  unfold accepts.
  destruct (isValidMove_total b from to p (Some (pick dice k)) (wf_length b Hwf)) as [v ->].
  simpl. split; congruence.
Qed.

Lemma die_pick (k : nat) : die (Some dice) k = Ret (pick dice k).
Proof. reflexivity. Qed.

Lemma try_entry_eval (i : Z) (k : nat) :
  try_entry b p (Some dice) usedDice i k
  = Ret (unused usedDice k && valid FromBar (ToPoint i) k).
Proof.
  unfold try_entry. destruct (unused usedDice k); [|reflexivity].
  rewrite die_pick. cbn [bindO andb].
  apply returned_Ret, isValidMove_total, Hwf.
Qed.

Lemma regular_out_of_range (i to : Z) (dv : option Z) :
  (0 <=? to) && (to <? 24) = false ->
  isValidMove b (FromPoint i) (ToPoint to) p dv = Ret false.
Proof.
  intros Hto. unfold isValidMove.
  destruct (Z.ltb_spec i 0); simpl; [reflexivity|].
  destruct (i >? 23); simpl; [reflexivity|].
  destruct (Z.ltb_spec to 0); simpl; [reflexivity|].
  rewrite Z.gtb_ltb. destruct (Z.ltb_spec 23 to); simpl; [reflexivity|].
  exfalso. zbool; simpl in *; try discriminate; lia.
Qed.

Lemma off_needs_home (i : Z) (dv : option Z) :
  and_then (isInHomeBoard i p) (allInHomeBoard b p) = Ret false ->
  isValidMove b (FromPoint i) ToOff p dv = Ret false.
Proof.
  destruct (allInHomeBoard_spec b (wf_length b Hwf) p) as (home & Hhome & _).
  unfold and_then, isValidMove. rewrite Hhome. cbn [bindO].
  destruct (isInHomeBoard i p); [intros [= ->]; reflexivity|].
  intros _. destruct home; reflexivity.
Qed.

Lemma try_die_eval (i : Z) (k : nat) :
  try_die b p (Some dice) usedDice i k
  = Ret (unused usedDice k &&
         (valid (FromPoint i) (ToPoint (i - pick dice k)) k || valid (FromPoint i) ToOff k)).
Proof.
  unfold try_die. destruct (unused usedDice k); [|reflexivity].
  rewrite die_pick. cbn [bindO andb]. cbv zeta.
  assert (Hmoves :
    and_then ((0 <=? i - pick dice k) && (i - pick dice k <? 24))
      (isValidMove b (FromPoint i) (ToPoint (i - pick dice k)) p (Some (pick dice k)))
    = Ret (valid (FromPoint i) (ToPoint (i - pick dice k)) k)).
  { unfold and_then, accepts.
    destruct ((0 <=? i - pick dice k) && (i - pick dice k <? 24)) eqn:E.
    - apply returned_Ret, isValidMove_total, Hwf.
    - by rewrite regular_out_of_range. }
  rewrite Hmoves. cbn [bindO].
  destruct (valid (FromPoint i) (ToPoint (i - pick dice k)) k); [reflexivity|].
  cbn [orb].
  destruct (and_then (isInHomeBoard i p) (allInHomeBoard b p)) as [[|]|] eqn:Ehome;
    cbn [bindO].
  - apply returned_Ret, isValidMove_total, Hwf.
  - unfold accepts. by rewrite (off_needs_home i _ Ehome).
  - exfalso. destruct (allInHomeBoard_spec b (wf_length b Hwf) p) as (home & Hhome & _).
    unfold and_then in Ehome. rewrite Hhome in Ehome.
    destruct (isInHomeBoard i p); discriminate.
Qed.

Lemma canPlayerMove_eval :
  canPlayerMove b p (Some dice) usedDice
  = Ret (if per (bar b) p >? 0 then
           existsb (fun i => unused usedDice 0 && valid FromBar (ToPoint i) 0
                             || unused usedDice 1 && valid FromBar (ToPoint i) 1)
                   (seqZ 18 6)
         else
           existsb (fun i => (checkers b i p >? 0) &&
                       (unused usedDice 0 &&
                          (valid (FromPoint i) (ToPoint (i - pick dice 0)) 0
                           || valid (FromPoint i) ToOff 0)
                        || unused usedDice 1 &&
                          (valid (FromPoint i) (ToPoint (i - pick dice 1)) 1
                           || valid (FromPoint i) ToOff 1)))
                   (seqZ 0 24)).
Proof.
  unfold canPlayerMove. destruct (per (bar b) p >? 0).
  - apply any_at_pure. intros i _. rewrite !try_entry_eval. cbn [bindO].
    destruct (unused usedDice 0 && valid FromBar (ToPoint i) 0); reflexivity.
  - apply any_at_pure. intros i Hi%elem_of_seqZ.
    destruct (point_at_wf b i (wf_length b Hwf)) as (pt & -> & Hc); [lia|].
    cbn [bindO]. rewrite Hc. destruct (checkers b i p >? 0); [|reflexivity].
    rewrite !try_die_eval. cbn [bindO andb].
    match goal with |- (if ?c then _ else _) = _ => destruct c end; reflexivity.
Qed.

(** On a well-formed board, with dice, [canPlayerMove] returns. *)
Lemma canPlayerMove_total :
  exists v, canPlayerMove b p (Some dice) usedDice = Ret v.
Proof. rewrite canPlayerMove_eval. eauto. Qed.

Lemma legal_with_valid (from : Origin) (to : Dest) :
  legal_with isValidMove b p dice usedDice from to <->
  unused usedDice 0 && valid from to 0 || unused usedDice 1 && valid from to 1 = true.
Proof.
  unfold legal_with. rewrite orb_true_iff, !andb_true_iff, !valid_true. split.
  - intros (k & Hk & Hun & Hv).
    destruct k as [|[|k]]; [left | right | lia]; auto.
  - intros [[Hun Hv]|[Hun Hv]]; [exists 0%nat | exists 1%nat]; auto.
Qed.

(** What [canPlayerMove] decides: it returns, and it returns false
    exactly when no unused die makes [isValidMove] accept a move, where
    only bar entries count while the player has a checker on the bar; with
    a checker on the bar it returns true exactly when an unused die opens
    an entry point among the indices 18..23. *)
Theorem canPlayerMove_false_iff :
  exists v, canPlayerMove b p (Some dice) usedDice = Ret v /\
    (v = false <->
     forall from to, (0 < per (bar b) p -> from = FromBar) ->
       ~ legal_with isValidMove b p dice usedDice from to) /\
    (0 < per (bar b) p ->
     (v = true <->
      exists i, 18 <= i <= 23 /\
        legal_with isValidMove b p dice usedDice FromBar (ToPoint i))).
Proof.
  rewrite canPlayerMove_eval. eexists. split; [reflexivity|].
  rewrite Z.gtb_ltb. destruct (Z.ltb_spec 0 (per (bar b) p)) as [Hbar|Hbar].
  - split.
    + rewrite existsb_seqZ_false. split.
      * intros Hnone from to Hfrom Hlegal. rewrite (Hfrom Hbar) in Hlegal.
        pose proof Hlegal as (k & _ & _ & Hv).
        apply isValidMove_bar_shape in Hv as (_ & i & -> & Hi).
        apply legal_with_valid in Hlegal. rewrite Hnone in Hlegal by lia. discriminate.
      * intros Hnone i Hi. apply not_true_is_false. intros Hg.
        apply (Hnone FromBar (ToPoint i)); [reflexivity|]. by apply legal_with_valid.
    + intros _. rewrite existsb_seqZ_true. split.
      * intros (i & Hi & Hg). exists i. split; [lia|]. by apply legal_with_valid.
      * intros (i & Hi & Hg). exists i. split; [lia|]. by apply legal_with_valid.
  - assert (Hzero : per (bar b) p = 0) by (pose proof (wf_bar b Hwf p); lia).
    split; [|lia].
    rewrite existsb_seqZ_false. split.
    + intros Hnone from to _ (k & Hk & Hun & Hv).
      assert (Hvk : valid from to k = true) by (by apply valid_true).
      destruct from as [|i].
      { apply isValidMove_bar_shape in Hv as [Hne _]. contradiction. }
      assert (Hi : 0 <= i < 24 /\ checkers b i p <> 0 /\
                   (to = ToPoint (i - pick dice k) \/ to = ToOff)).
      { destruct to as [|t].
        - apply isValidMove_off_shape in Hv as (_ & Hin & Hc).
          unfold isInHomeBoard in Hin. apply andb_true_iff in Hin as [H0 H5].
          split; [lia|]. auto.
        - apply isValidMove_regular_shape in Hv as (-> & _ & Hi & Hc). auto. }
      destruct Hi as (Hi & Hc & Hto).
      specialize (Hnone i ltac:(lia)). cbv beta in Hnone.
      pose proof (wf_points b Hwf i p) as Hpos.
      rewrite Z.gtb_ltb in Hnone. destruct (Z.ltb_spec 0 (checkers b i p)); [|lia].
      cbn [andb] in Hnone.
      apply orb_false_iff in Hnone as [H0 H1].
      destruct k as [|[|k]]; [| |lia].
      * rewrite Hun in H0. cbn [andb] in H0. apply orb_false_iff in H0 as [Hr Ho].
        destruct Hto as [-> | ->]; congruence.
      * rewrite Hun in H1. cbn [andb] in H1. apply orb_false_iff in H1 as [Hr Ho].
        destruct Hto as [-> | ->]; congruence.
    + intros Hnone i Hi. apply not_true_is_false. intros Hg.
      apply andb_true_iff in Hg as [_ Hg].
      apply orb_true_iff in Hg as [Hg|Hg]; apply andb_true_iff in Hg as [Hun Hg];
        apply orb_true_iff in Hg as [Hg|Hg].
      * apply (Hnone (FromPoint i) (ToPoint (i - pick dice 0))); [lia|].
        exists 0%nat. split; [lia|]. split; [exact Hun|]. by apply valid_true.
      * apply (Hnone (FromPoint i) ToOff); [lia|].
        exists 0%nat. split; [lia|]. split; [exact Hun|]. by apply valid_true.
      * apply (Hnone (FromPoint i) (ToPoint (i - pick dice 1))); [lia|].
        exists 1%nat. split; [lia|]. split; [exact Hun|]. by apply valid_true.
      * apply (Hnone (FromPoint i) ToOff); [lia|].
        exists 1%nat. split; [lia|]. split; [exact Hun|]. by apply valid_true.
Qed.

End CanPlayerMove.

Lemma bear_off_legal_witness :
  exists v, Shared.isValidMove home_board (FromPoint 3) ToOff P1 (Some 6) = Ret v /\
    (v = true <->
     3 + 1 = 6 \/ (3 + 1 < 6 /\ forall i, 3 < i <= 5 -> checkers home_board i P1 = 0)).
Proof.
  apply (proj1 (bear_off_legal home_board P1 3 6 (well_formed_b_ok home_board eq_refl))).
  - reflexivity.
  - lia.
  - vm_compute. discriminate.
Defined.

Lemma canPlayerMove_false_iff_witness :
  exists v, Shared.canPlayerMove blocked_bar_board P1 (Some (1, 2)) [false; false] = Ret v /\
    (v = false <->
     forall from to, (0 < per (bar blocked_bar_board) P1 -> from = FromBar) ->
       ~ legal_with Shared.isValidMove blocked_bar_board P1 (1, 2) [false; false] from to) /\
    (v = true <->
     exists i, 18 <= i <= 23 /\
       legal_with Shared.isValidMove blocked_bar_board P1 (1, 2) [false; false]
         FromBar (ToPoint i)).
Proof.
  destruct (canPlayerMove_false_iff blocked_bar_board P1 (1, 2) [false; false])
    as (v & Hrun & Hfalse & Htrue).
  - apply well_formed_b_ok. reflexivity.
  - exists v. split; [exact Hrun|]. split; [exact Hfalse|].
    apply Htrue. reflexivity.
Defined.

(** [isValidMove] does not ask for an empty bar: with a checker on the
    bar and both entry points held by the opponent, [canPlayerMove]
    returns false although [isValidMove] accepts the move from index 8 to
    index 7 with the unused first die. *)
Lemma canPlayerMove_false_with_accepted_move :
  ~ (Shared.canPlayerMove blocked_bar_board P1 (Some (1, 2)) [false; false] = Ret false
     <-> forall from to,
           ~ legal_with Shared.isValidMove blocked_bar_board P1 (1, 2) [false; false] from to).
Proof.
  intros [Hnone _].
  apply (Hnone eq_refl (FromPoint 8) (ToPoint 7)).
  exists 0%nat. split; [lia|]. split; reflexivity.
Qed.

(** C6: the code at a position reached by play.  After [hit_opening]
    player 1 has a checker on the bar and rolls 6 and 5; no die opens an
    entry point, and [canPlayerMove] returns false, as the claim says of a
    player on the bar.  But [isValidMove] accepts the ordinary move from
    index 12 to index 7 with the 5: its ordinary branch never looks at the
    bar, where [canPlayerMove] ("must enter first") and the bear-off
    branch do.  [make-move] applies that move, and the checker stays on
    the bar. *)
Theorem ordinary_move_accepted_with_bar_checker :
  play "g" Handler.backgammon_game
    (Handler.only_room (Handler.new_room "g" "alice" "bob")) hit_opening
    = Handler.only_room (Handler.room_rolled hit_board (6, 5))
  /\ per (bar hit_board) P1 = 1
  /\ Shared.canPlayerMove hit_board P1 (Some (6, 5)) [false; false] = Ret false
  /\ (forall i d, d = 6 \/ d = 5 ->
        Shared.isValidMove hit_board FromBar (ToPoint i) P1 (Some d) = Ret false)
  /\ Shared.isValidMove hit_board (FromPoint 12) (ToPoint 7) P1 (Some 5) = Ret true
  /\ exists room',
       fst (Handler.handle "g" Handler.backgammon_game
              (Handler.Move "alice" (FromPoint 12) (ToPoint 7))
              (Handler.only_room (Handler.room_rolled hit_board (6, 5)))) !! "g"%string
         = Some room' /\
       checkers (Handler.board room') 12 P1 = 2 /\
       checkers (Handler.board room') 7 P1 = 1 /\
       per (bar (Handler.board room')) P1 = 1.
Proof.
  split; [vm_compute; reflexivity|]. split; [reflexivity|]. split; [reflexivity|].
  split.
  { intros i d Hd.
    destruct (isValidMove_total hit_board FromBar (ToPoint i) P1 (Some d) eq_refl)
      as [[] Hv]; [|exact Hv].
    exfalso. pose proof Hv as (_ & j & [= <-] & Hi)%isValidMove_bar_shape.
    apply isValidMove_bar_entry_point in Hv as [-> Hopen].
    destruct Hd as [-> | ->]; [lia|]. vm_compute in Hopen. congruence. }
  split; [reflexivity|].
  eexists. split; [vm_compute; reflexivity|]. repeat split.
Qed.

(** ** The dice duel *)

Section DiceDuelFacts.
Import DiceDuel.

Lemma read_last (h : Store) (s : DiceGameState) :
  read (length h) (h ++ [s]) = Some (s, h ++ [s]).
Proof. unfold read. by rewrite list_lookup_middle. Qed.

Lemma write_last (h : Store) (s : DiceGameState) (f : DiceGameState -> DiceGameState) :
  write (length h) f (h ++ [s]) = Some (tt, h ++ [f s]).
Proof.
  unfold write. rewrite list_lookup_middle by reflexivity.
  rewrite insert_app_r_alt by lia. by rewrite Nat.sub_diag.
Qed.

(** C7: what the code returns for the round with rolls 5 and 3.  Player 1
    has score 1, the round is 2 and both rolls are unset, as the claim
    says; but [round_winner] is null and not 1: [processDiceRoll] assigns
    1 and, setting up the next round in the same call, assigns null over
    it.  Player 2 starts round 2. *)
Theorem round_5_3_result :
  exists s, final_state round_5_3 = Some s /\
    player1_score s = 1 /\ player2_score s = 0 /\
    round_winner s = None /\
    current_round s = 2 /\
    player1_roll s = None /\ player2_roll s = None /\
    current_player s = P2 /\ game_winner s = None.
Proof. eexists. split; [reflexivity|]. repeat split. Qed.

(** The state that the claim describes, with [round_winner] equal to 1,
    is not the one that the two calls return. *)
Lemma round_5_3_round_winner_not_1 :
  ~ (exists s, final_state round_5_3 = Some s /\
       player1_score s = 1 /\ round_winner s = Some (Won P1) /\
       current_round s = 2 /\
       player1_roll s = None /\ player2_roll s = None).
Proof.
  intros (s & Hs & _ & Hw & _). vm_compute in Hs. injection Hs as <-.
  discriminate Hw.
Qed.

(** [processDiceRoll] always returns a new object and leaves the store it
    was given as it was. *)
Lemma processDiceRoll_allocates (h : Store) (o : Ref) (s : DiceGameState)
    (p : Player) (r : Z) :
  h !! o = Some s ->
  exists s', processDiceRoll o p r h = Some (length h, h ++ [s']).
Proof.
  intros Ho. unfold processDiceRoll, bindM. unfold spread at 1. rewrite Ho.
  destruct p; rewrite write_last, read_last;
    cbn [player1_roll player2_roll set_player1_roll set_player2_roll].
  - destruct (player2_roll s) as [roll2|]; [|rewrite write_last; eauto].
    destruct (r >? roll2); [|destruct (roll2 >? r)];
      rewrite ?write_last, read_last;
      (destruct (_ >=? 3); [|destruct (_ >=? 3)]);
      rewrite ?write_last; eauto.
  - destruct (player1_roll s) as [roll1|]; [|rewrite write_last; eauto].
    destruct (roll1 >? r); [|destruct (r >? roll1)];
      rewrite ?write_last, read_last;
      (destruct (_ >=? 3); [|destruct (_ >=? 3)]);
      rewrite ?write_last; eauto.
Qed.

(** C10: [processDiceRoll] returns a new state object and leaves the store
    it was given, the input state included, unchanged; when the other
    player has not rolled in this round, the new state differs from the
    input state only in the roller's roll, now [r], and in
    [current_player], now the other player. *)
Theorem processDiceRoll_first_roll (h : Store) (o : Ref) (s : DiceGameState)
    (p : Player) (r : Z) :
  h !! o = Some s ->
  exists s',
    processDiceRoll o p r h = Some (length h, h ++ [s']) /\
    (h ++ [s']) !! o = Some s /\
    (roll_of s (opponent p) = None ->
     roll_of s' p = Some r /\
     roll_of s' (opponent p) = None /\
     current_player s' = opponent p /\
     player1_score s' = player1_score s /\
     player2_score s' = player2_score s /\
     current_round s' = current_round s /\
     round_winner s' = round_winner s /\
     game_winner s' = game_winner s /\
     game_id s' = game_id s).
Proof.
  intros Ho.
  destruct (processDiceRoll_allocates h o s p r Ho) as [s' Hrun].
  exists s'. split; [exact Hrun|]. split; [by apply lookup_app_l_Some|].
  intros Hother. revert Hrun.
  unfold processDiceRoll, bindM. unfold spread at 1. rewrite Ho.
  destruct p; simpl in Hother; rewrite write_last, read_last;
    cbn [player1_roll player2_roll set_player1_roll set_player2_roll];
    rewrite Hother, write_last; unfold retM;
    intros [= Heq%app_inj_tail]; destruct Heq as [_ <-];
    simpl; rewrite Hother; repeat split.
Qed.

Lemma processDiceRoll_first_roll_witness :
  exists s',
    processDiceRoll 0%nat P1 5 duel_start = Some (length duel_start, duel_start ++ [s']) /\
    (duel_start ++ [s']) !! 0%nat = Some (initializeDiceGame EmptyString) /\
    roll_of s' P1 = Some 5 /\
    roll_of s' P2 = None /\
    current_player s' = P2 /\
    player1_score s' = 0 /\
    player2_score s' = 0 /\
    current_round s' = 1 /\
    round_winner s' = None /\
    game_winner s' = None /\
    game_id s' = EmptyString.
Proof.
  destruct (processDiceRoll_first_roll duel_start 0%nat (initializeDiceGame EmptyString) P1 5)
    as (s' & Hrun & Hkept & Hframe).
  - reflexivity.
  - exists s'. split; [exact Hrun|]. split; [exact Hkept|].
    apply Hframe. reflexivity.
Defined.

End DiceDuelFacts.

(** ** The room handlers *)

Section HandlerFacts.
Import Handler.

(** A move that is not applied leaves the rooms as they were and sends one
    error, to the acting connection. *)
Lemma move_begin_all_or_nothing (rooms : Rooms) (userId gameId : string)
    (from : Origin) (to : Dest) (game : option Game) :
  (exists message,
     move_begin rooms userId gameId from to game = (rooms, [SocketError message], None))
  \/ (exists room d room',
        rooms !! gameId = Some room /\ dice room = Some d /\
        currentPlayer room = player_number room userId /\
        move_in_room room (player_number room userId) d from to = Ret (inr room') /\
        move_begin rooms userId gameId from to game
          = (<[gameId := room']> rooms, [], Some (mkPending gameId (player_number room userId)))).
Proof.
  unfold move_begin.
  destruct game as [game|]; [|left; eauto].
  destruct (default Backgammon (game_type game)); [|left; eauto].
  destruct (rooms !! gameId) as [room|] eqn:Hroom; [|left; eauto].
  destruct (Player_eqb (currentPlayer room) (player_number room userId)) eqn:Hturn;
    cbn [negb]; [|left; eauto].
  apply Player_eqb_eq in Hturn.
  destruct (dice room) as [d|] eqn:Hdice; [|left; eauto].
  destruct (move_in_room room (player_number room userId) d from to) as [[message|room']|] eqn:Hmove;
    [left; eauto | | left; eauto].
  right. exists room, d, room'. auto.
Qed.

(** C9: when no unused die matches the move, or [isValidMove] rejects
    it, the handler sends one error to the acting connection and the rooms,
    with the board, the dice, the used flags and the current player of
    every room, are as before. *)
Theorem rejected_move_changes_nothing (rooms : Rooms) (userId gameId : string)
    (from : Origin) (to : Dest) (game : option Game)
    (room : BackgammonGameRoom) (d : Z * Z) :
  rooms !! gameId = Some room ->
  dice room = Some d ->
  (die_for room d (player_number room userId) from to = Ret None
   \/ exists k v,
        die_for room d (player_number room userId) from to = Ret (Some (k, v)) /\
        Shared.isValidMove (board room) from to (player_number room userId) (Some v)
          = Ret false) ->
  exists message,
    make_move rooms userId gameId from to game = (rooms, [SocketError message]).
Proof.
  intros Hroom Hdice Hrej. unfold make_move.
  destruct (move_begin_all_or_nothing rooms userId gameId from to game)
    as [[message ->]|(room0 & d0 & room' & Hroom0 & Hdice0 & _ & Hmove & _)]; [eauto|].
  exfalso. rewrite Hroom in Hroom0. injection Hroom0 as <-.
  rewrite Hdice in Hdice0. injection Hdice0 as <-.
  unfold move_in_room in Hmove.
  destruct Hrej as [Hnone|(k & v & Hsome & Hinvalid)].
  - rewrite Hnone in Hmove. discriminate.
  - rewrite Hsome in Hmove. cbn [bindO] in Hmove. rewrite Hinvalid in Hmove. discriminate.
Qed.

Lemma rejected_move_changes_nothing_witness :
  exists message,
    make_move (only_room (room_rolled Shared.initializeBoard (3, 1))) "alice" "g"
      (FromPoint 8) (ToPoint 6) backgammon_game
    = (only_room (room_rolled Shared.initializeBoard (3, 1)), [SocketError message]).
Proof.
  apply (rejected_move_changes_nothing _ "alice" "g" (FromPoint 8) (ToPoint 6) backgammon_game
           (room_rolled Shared.initializeBoard (3, 1)) (3, 1)).
  - reflexivity.
  - reflexivity.
  - left. reflexivity.
Defined.

(** What an applied move is. *)
Lemma move_in_room_applied (room room' : BackgammonGameRoom) (p : Player) (d : Z * Z)
    (from : Origin) (to : Dest) :
  move_in_room room p d from to = Ret (inr room') ->
  exists k v newBoard,
    die_for room d p from to = Ret (Some (k, v)) /\
    Shared.isValidMove (board room) from to p (Some v) = Ret true /\
    makeMove (board room) from to p v = Ret newBoard /\
    room' = mark_used (with_board room newBoard) k.
Proof.
  unfold move_in_room. intros H.
  apply bindO_Ret in H as ([[k v]|] & Hdie & H); [|discriminate].
  apply bindO_Ret in H as (valid & Hvalid & H).
  destruct valid; cbn [negb] in H; [|discriminate].
  apply bindO_Ret in H as (newBoard & Hmove & H).
  injection H as <-. exists k, v, newBoard. auto.
Qed.

(** After the insert, the turn passes exactly when every flag is set or
    [canPlayerMove] returns false. *)
Lemma move_finish_turn (rooms : Rooms) (pend : Pending) (room : BackgammonGameRoom)
    (d : Z * Z) :
  rooms !! pending_room pend = Some room ->
  dice room = Some d ->
  WellFormed (board room) ->
  exists canMoveMore room',
    Shared.canPlayerMove (board room) (playerNumber pend) (Some d) (diceUsed room)
      = Ret canMoveMore /\
    fst (move_finish rooms pend) = <[pending_room pend := room']> rooms /\
    room' = (if forallb (fun used => used) (diceUsed room) || negb canMoveMore
             then switch_player room else room).
Proof.
  intros Hroom Hdice Hwf. unfold move_finish. rewrite Hroom, Hdice.
  destruct (canPlayerMove_total (board room) (playerNumber pend) d (diceUsed room) Hwf)
    as (v & ->).
  exists v. eexists. split; [reflexivity|]. split; reflexivity.
Qed.

(** The move handler, run alone on an accepted move: the board is the one
    [makeMove] returns, the die is marked, and the turn passes, with the
    dice cleared, exactly when both flags are set or [canPlayerMove] finds
    no move for the dice left. *)
Lemma make_move_turn (rooms : Rooms) (userId gameId : string) (from : Origin) (to : Dest)
    (game : Game) (room room1 : BackgammonGameRoom) (d : Z * Z) :
  default Backgammon (game_type game) = Backgammon ->
  rooms !! gameId = Some room ->
  currentPlayer room = player_number room userId ->
  dice room = Some d ->
  WellFormed (board room) ->
  move_in_room room (player_number room userId) d from to = Ret (inr room1) ->
  exists canMoveMore,
    Shared.canPlayerMove (board room1) (player_number room userId) (Some d) (diceUsed room1)
      = Ret canMoveMore /\
    fst (make_move rooms userId gameId from to (Some game)) !! gameId
      = Some (if forallb (fun used => used) (diceUsed room1) || negb canMoveMore
              then switch_player room1 else room1).
Proof.
  intros Hgame Hroom Hturn Hdice Hwf Hmove. unfold make_move, move_begin.
  rewrite Hgame, Hroom, Hdice, Hmove, <- Hturn.
  replace (Player_eqb (currentPlayer room) (currentPlayer room)) with true
    by (by destruct (currentPlayer room)).
  cbn [negb].
  apply move_in_room_applied in Hmove as (k & v & newBoard & _ & Hvalid & Hnew & ->).
  assert (Hwf1 : WellFormed newBoard).
  { destruct (isValidMove_sound _ _ _ _ _ Hvalid) as [Hr Hs].
    exact (makeMove_wf _ _ _ _ _ _ Hwf Hr Hs Hnew). }
  set (room1 := mark_used (with_board room newBoard) k).
  set (pend := mkPending gameId (currentPlayer room)).
  destruct (move_finish_turn (<[gameId := room1]> rooms) pend room1 d)
    as (canMoveMore & room2 & Hcan & Hfin & ->).
  { apply lookup_insert_eq. }
  { exact Hdice. }
  { exact Hwf1. }
  exists canMoveMore. split; [exact Hcan|].
  destruct (move_finish (<[gameId := room1]> rooms) pend) as [rooms2 out2].
  simpl in Hfin |- *. rewrite Hfin. apply lookup_insert_eq.
Qed.


End HandlerFacts.

(** ** Two handlers on one room *)

Section Interleaving.
Import Handler.

Variable gameId : string.
Variable game : option Game.

Local Abbreviation first_rooms a rooms := (fst (fst (first_segment gameId game a rooms))).
Local Abbreviation first_pending a rooms := (snd (first_segment gameId game a rooms)).

Lemma handle_rooms (a : Action) (rooms : Rooms) :
  fst (handle gameId game a rooms)
  = fst (second_segment a (first_pending a rooms) (first_rooms a rooms)).
Proof.
  unfold handle. destruct (first_segment gameId game a rooms) as [[rooms1 out1] pend].
  cbn [fst snd]. by destruct (second_segment a pend rooms1).
Qed.

Lemma serial_rooms (a1 a2 : Action) (rooms : Rooms) :
  fst (serial gameId game a1 a2 rooms)
  = fst (handle gameId game a2 (fst (handle gameId game a1 rooms))).
Proof.
  unfold serial. destruct (handle gameId game a1 rooms) as [rooms1 out1].
  cbn [fst]. by destruct (handle gameId game a2 rooms1).
Qed.

Lemma overlapped_rooms (a1 a2 : Action) (in_order : bool) (rooms : Rooms) :
  fst (overlapped gameId game a1 a2 in_order rooms)
  = let rooms1 := first_rooms a1 rooms in
    let pend1 := first_pending a1 rooms in
    let rooms2 := first_rooms a2 rooms1 in
    let pend2 := first_pending a2 rooms1 in
    if in_order
    then fst (second_segment a2 pend2 (fst (second_segment a1 pend1 rooms2)))
    else fst (second_segment a1 pend1 (fst (second_segment a2 pend2 rooms2))).
Proof.
  unfold overlapped. destruct (first_segment gameId game a1 rooms) as [[rooms1 out1] pend1].
  cbn [fst snd]. destruct (first_segment gameId game a2 rooms1) as [[rooms2 out2] pend2].
  cbn [fst snd]. destruct in_order.
  - destruct (second_segment a1 pend1 rooms2) as [rooms3 out3]. cbn [fst].
    by destruct (second_segment a2 pend2 rooms3).
  - destruct (second_segment a2 pend2 rooms2) as [rooms3 out3]. cbn [fst].
    by destruct (second_segment a1 pend1 rooms3).
Qed.

(** A first segment either changes nothing and leaves nothing pending, or
    replaces the room of the acting player, whose turn it is, by one that
    has dice. *)
Lemma first_segment_cases (a : Action) (rooms : Rooms) :
  (first_rooms a rooms = rooms /\ first_pending a rooms = None)
  \/ (exists room room',
        rooms !! gameId = Some room /\
        first_rooms a rooms = <[gameId := room']> rooms /\
        first_pending a rooms = Some (mkPending gameId (player_number room (actor a))) /\
        currentPlayer room = player_number room (actor a) /\
        currentPlayer room' = currentPlayer room /\
        player1Id room' = player1Id room /\
        is_Some (dice room') /\
        match a with
        | Roll _ _ => dice room = None
        | Move _ _ _ => is_Some (dice room)
        end).
Proof.
  destruct a as [u rolled|u from to]; cbn [first_segment actor].
  - unfold roll_begin. destruct game as [g|]; [|left; auto].
    destruct (default Backgammon (game_type g)); [|left; auto].
    destruct (rooms !! gameId) as [room|] eqn:Hroom; [|left; auto].
    destruct (Player_eqb (currentPlayer room) (player_number room u)) eqn:Hturn;
      cbn [negb]; [|left; auto].
    apply Player_eqb_eq in Hturn.
    destruct (dice room) as [d|] eqn:Hdice.
    { rewrite bool_decide_eq_true_2 by eauto. left; auto. }
    rewrite bool_decide_eq_false_2 by (intros [? ?]; discriminate).
    right. exists room. eexists. cbn [fst snd].
    repeat split; try reflexivity; try assumption. cbn. eauto.
  - destruct (move_begin_all_or_nothing rooms u gameId from to game)
      as [[message ->]|(room & d & room' & Hroom & Hdice & Hturn & Hmove & ->)]; [left; auto|].
    right. exists room, room'. cbn [fst snd].
    apply move_in_room_applied in Hmove as (k & v & newBoard & _ & _ & _ & ->).
    repeat split; try reflexivity; try assumption.
    + cbn. rewrite Hdice. eauto.
    + rewrite Hdice. eauto.
Qed.

Lemma second_segment_none (a : Action) (rooms : Rooms) :
  fst (second_segment a None rooms) = rooms.
Proof. reflexivity. Qed.

Lemma roll_finish_rooms (rooms : Rooms) (rolled : Z * Z) (pend : Pending) :
  fst (roll_finish rooms rolled pend) = rooms.
Proof. unfold roll_finish. by destruct (rooms !! pending_room pend). Qed.

(** The second segment of a move leaves the room or passes the turn. *)
Lemma move_finish_cases (rooms : Rooms) (pend : Pending) (room : BackgammonGameRoom) :
  rooms !! pending_room pend = Some room ->
  fst (move_finish rooms pend) = rooms
  \/ fst (move_finish rooms pend) = <[pending_room pend := switch_player room]> rooms.
Proof.
  intros Hroom. unfold move_finish. rewrite Hroom.
  destruct (Shared.canPlayerMove _ _ _ _) as [canMoveMore|]; [|left; reflexivity].
  destruct (_ || _); cbn [fst]; [right; reflexivity|].
  left. by apply insert_id.
Qed.

(** A handler whose first segment leaves nothing pending changes nothing. *)
Lemma handle_rejected (a : Action) (rooms : Rooms) :
  first_pending a rooms = None -> fst (handle gameId game a rooms) = rooms.
Proof.
  intros Hnone. rewrite handle_rooms, Hnone, second_segment_none.
  destruct (first_segment_cases a rooms) as [[-> _]|(room & room' & _ & _ & Hp & _)].
  - reflexivity.
  - rewrite Hp in Hnone. discriminate.
Qed.

(** No move is applied to a room without dice. *)
Lemma move_needs_dice (u : string) (from : Origin) (to : Dest) (rooms : Rooms)
    (room : BackgammonGameRoom) :
  rooms !! gameId = Some room -> dice room = None ->
  first_pending (Move u from to) rooms = None.
Proof.
  intros Hroom Hdice.
  destruct (first_segment_cases (Move u from to) rooms)
    as [[_ ->]|(room0 & room' & Hroom0 & _ & _ & _ & _ & _ & _ & [d Hd])]; [reflexivity|].
  rewrite Hroom in Hroom0. injection Hroom0 as <-. congruence.
Qed.

(** No action of a player is applied out of turn. *)
Lemma out_of_turn (a : Action) (rooms : Rooms) (room : BackgammonGameRoom) :
  rooms !! gameId = Some room ->
  currentPlayer room <> player_number room (actor a) ->
  first_pending a rooms = None.
Proof.
  intros Hroom Hturn.
  destruct (first_segment_cases a rooms)
    as [[_ ->]|(room0 & room' & Hroom0 & _ & _ & Hturn0 & _)]; [reflexivity|].
  rewrite Hroom in Hroom0. injection Hroom0 as <-. contradiction.
Qed.

(** No roll is applied to a room that has dice. *)
Lemma roll_needs_no_dice (u : string) (rolled : Z * Z) (rooms : Rooms)
    (room : BackgammonGameRoom) :
  rooms !! gameId = Some room -> is_Some (dice room) ->
  first_pending (Roll u rolled) rooms = None.
Proof.
  intros Hroom [d Hdice].
  destruct (first_segment_cases (Roll u rolled) rooms)
    as [[_ ->]|(room0 & room' & Hroom0 & _ & _ & _ & _ & _ & _ & Hd)]; [reflexivity|].
  rewrite Hroom in Hroom0. injection Hroom0 as <-. congruence.
Qed.

(** C3, as the code has it: handlers are atomic only between their
    awaits, and a second action may run while the first waits for its
    insert.  The rooms that two overlapping handlers leave are those of one
    of the two serial orders, unless both actions are moves and both are
    applied in their first segments. *)
Theorem overlap_serial_unless_two_moves (a1 a2 : Action) (in_order : bool) (rooms : Rooms) :
  ~ two_moves_applied gameId game a1 a2 rooms ->
  fst (overlapped gameId game a1 a2 in_order rooms) = fst (serial gameId game a1 a2 rooms)
  \/ fst (overlapped gameId game a1 a2 in_order rooms) = fst (serial gameId game a2 a1 rooms).
Proof.
  intros Hnot. rewrite overlapped_rooms, !serial_rooms. cbv zeta.
  destruct (first_segment_cases a1 rooms)
    as [[Hr1 Hp1]|(room & room1 & Hroom & Hr1 & Hp1 & Hturn & Hcur1 & Hid1 & Hdice1 & Hkind1)].
  { (* the first action is rejected *)
    left. rewrite (handle_rejected a1 rooms Hp1), handle_rooms, Hr1, Hp1.
    destruct in_order; by rewrite !second_segment_none. }
  assert (Hroom1 : (<[gameId := room1]> rooms) !! gameId = Some room1)
    by apply lookup_insert_eq.
  destruct a1 as [u1 rolled1|u1 from1 to1].
  { (* the first action is a roll: its second segment changes nothing *)
    left. rewrite (handle_rooms (Roll u1 rolled1) rooms), Hp1.
    cbn [second_segment]. rewrite !roll_finish_rooms.
    rewrite handle_rooms. by destruct in_order. }
  (* the first action is a move that is applied *)
  assert (Hp2 : first_pending a2 (<[gameId := room1]> rooms) = None).
  { destruct a2 as [u2 rolled2|u2 from2 to2].
    - by apply (roll_needs_no_dice u2 rolled2 _ room1).
    - destruct (first_pending (Move u2 from2 to2) (<[gameId := room1]> rooms)) eqn:E;
        [|reflexivity].
      exfalso. apply Hnot. split; [by eauto 10|].
      rewrite Hp1, Hr1, E. eauto. }
  rewrite Hr1.
  assert (Hr2 : first_rooms a2 (<[gameId := room1]> rooms) = <[gameId := room1]> rooms).
  { destruct (first_segment_cases a2 (<[gameId := room1]> rooms))
      as [[-> _]|(? & ? & _ & _ & Hp & _)]; [reflexivity|].
    rewrite Hp in Hp2. discriminate. }
  rewrite Hr2, Hp2, Hp1.
  assert (Hover :
    (if in_order
     then fst (second_segment a2 None
            (fst (second_segment (Move u1 from1 to1)
                    (Some (mkPending gameId (player_number room (actor (Move u1 from1 to1)))))
                    (<[gameId := room1]> rooms))))
     else fst (second_segment (Move u1 from1 to1)
            (Some (mkPending gameId (player_number room (actor (Move u1 from1 to1)))))
            (fst (second_segment a2 None (<[gameId := room1]> rooms)))))
    = fst (handle gameId game (Move u1 from1 to1) rooms)).
  { rewrite handle_rooms, Hp1, Hr1. destruct in_order; by rewrite !second_segment_none. }
  rewrite Hover. clear Hover.
  set (done1 := fst (handle gameId game (Move u1 from1 to1) rooms)).
  assert (Hdone1 : done1 = <[gameId := room1]> rooms
                   \/ done1 = <[gameId := switch_player room1]> rooms).
  { unfold done1. rewrite handle_rooms, Hp1, Hr1. cbn [second_segment].
    destruct (move_finish_cases (<[gameId := room1]> rooms)
                (mkPending gameId (player_number room (actor (Move u1 from1 to1)))) room1 Hroom1)
      as [->| ->]; [left; reflexivity|].
    right. cbn [pending_room]. apply insert_insert_eq. }
  destruct Hdone1 as [Hsame|Hswitched].
  { (* the turn stays: the second action is rejected as before *)
    left. rewrite Hsame. symmetry. by apply handle_rejected. }
  (* the turn passes *)
  assert (Hroom2 : done1 !! gameId = Some (switch_player room1)).
  { rewrite Hswitched. apply lookup_insert_eq. }
  destruct (decide (opponent (currentPlayer room1)
                    = player_number (switch_player room1) (actor a2))) as [Hnow|Hnotyet].
  - destruct a2 as [u2 rolled2|u2 from2 to2].
    + (* a roll of the player whose turn begins: rejected before the move *)
      right. rewrite (handle_rejected (Roll u2 rolled2) rooms); [reflexivity|].
      apply (out_of_turn _ rooms room Hroom).
      assert (Hpn : player_number room u2 = opponent (currentPlayer room)).
      { unfold player_number in Hnow |- *. cbn in Hnow.
        rewrite Hid1, Hcur1 in Hnow. by symmetry. }
      cbn [actor]. rewrite Hpn. by destruct (currentPlayer room).
    + left. symmetry. apply handle_rejected.
      by apply (move_needs_dice u2 from2 to2 done1 (switch_player room1)).
  - left. symmetry. apply handle_rejected.
    by apply (out_of_turn a2 done1 (switch_player room1)).
Qed.

End Interleaving.

Section InterleavingExamples.
Import Handler.

Lemma overlap_serial_unless_two_moves_witness :
  fst (overlapped "g" backgammon_game (Roll "alice" (3, 1))
         (Move "alice" (FromPoint 8) (ToPoint 5)) true
         (only_room (room_to_roll Shared.initializeBoard)))
    = fst (serial "g" backgammon_game (Roll "alice" (3, 1))
             (Move "alice" (FromPoint 8) (ToPoint 5))
             (only_room (room_to_roll Shared.initializeBoard)))
  \/ fst (overlapped "g" backgammon_game (Roll "alice" (3, 1))
            (Move "alice" (FromPoint 8) (ToPoint 5)) true
            (only_room (room_to_roll Shared.initializeBoard)))
    = fst (serial "g" backgammon_game (Move "alice" (FromPoint 8) (ToPoint 5))
             (Roll "alice" (3, 1))
             (only_room (room_to_roll Shared.initializeBoard))).
Proof.
  apply (overlap_serial_unless_two_moves "g" backgammon_game).
  intros [(u1 & f1 & t1 & u2 & f2 & t2 & Hroll & _) _]. discriminate Hroll.
Defined.

(** C3 as stated fails: when the two bear-offs overlap, the turn passes
    twice and ends with player 1, while after either serial order it is
    with player 2. *)
Lemma overlapping_bear_offs_not_serial :
  ~ (fst (overlapped "g" backgammon_game bear_off_0 bear_off_1 true last_two_rooms)
       = fst (serial "g" backgammon_game bear_off_0 bear_off_1 last_two_rooms)
     \/ fst (overlapped "g" backgammon_game bear_off_0 bear_off_1 true last_two_rooms)
       = fst (serial "g" backgammon_game bear_off_1 bear_off_0 last_two_rooms)).
Proof.
  intros [H|H]; apply (f_equal turn_of) in H; vm_compute in H; discriminate H.
Qed.

(** In that run both handlers enter the win branch; a serial run enters
    it once. *)
Lemma overlapping_bear_offs_win_twice :
  snd (overlapped "g" backgammon_game bear_off_0 bear_off_1 true last_two_rooms)
    = [WinBranch P1; WinBranch P1]
  /\ turn_of (fst (overlapped "g" backgammon_game bear_off_0 bear_off_1 true last_two_rooms))
    = Some P1
  /\ (exists shown,
        snd (serial "g" backgammon_game bear_off_0 bear_off_1 last_two_rooms)
          = [shown; WinBranch P1] /\ shown <> WinBranch P1)
  /\ turn_of (fst (serial "g" backgammon_game bear_off_0 bear_off_1 last_two_rooms))
    = Some P2.
Proof.
  split; [vm_compute; reflexivity|]. split; [vm_compute; reflexivity|].
  split; [|vm_compute; reflexivity].
  eexists. split; [vm_compute; reflexivity|]. discriminate.
Qed.

(** Away from the end of the game: two overlapping moves are both applied
    where either serial order applies only the first. *)
Lemma overlapping_steps_not_serial :
  points_of (fst (overlapped "g" backgammon_game step_8_7 step_12_10 true blocked_rooms))
    <> points_of (fst (serial "g" backgammon_game step_8_7 step_12_10 blocked_rooms))
  /\ points_of (fst (overlapped "g" backgammon_game step_8_7 step_12_10 true blocked_rooms))
    <> points_of (fst (serial "g" backgammon_game step_12_10 step_8_7 blocked_rooms)).
Proof. split; vm_compute; discriminate. Qed.

End InterleavingExamples.

(** ** The per-player-home version of the rule engine *)

(** The older layout is the mirror-symmetric one. *)
Lemma directional_layout_mirror :
  mirror_symmetric Directional.initializeBoard /\ fifteen Directional.initializeBoard.
Proof.
  split.
  - intros i Hi. each_index i Hi; reflexivity.
  - intros []; reflexivity.
Qed.

(** There player 1 enters from the bar on the indices 0..5, with the die
    equal to [to + 1]. *)
Lemma directional_bar_entry :
  Directional.isValidMove blocked_bar_board FromBar (ToPoint 2) P1 (Some 3) = Ret true
  /\ Directional.isValidMove blocked_bar_board FromBar (ToPoint 20) P1 (Some 3) = Ret false
  /\ Shared.isValidMove blocked_bar_board FromBar (ToPoint 2) P1 (Some 3) = Ret false
  /\ Shared.isValidMove blocked_bar_board FromBar (ToPoint 20) P1 (Some 3) = Ret true.
Proof. repeat split. Qed.

(** Its [canPlayerMove] has the same bar gate: on the opening position
    with 3 and 1 it finds a move, and with a checker of player 2 on the bar
    whose entry points are held it finds none. *)
Lemma directional_canPlayerMove_samples :
  Directional.canPlayerMove Directional.initializeBoard P1 (Some (3, 1)) [false; false]
    = Ret true
  /\ Directional.canPlayerMove
       (with_bar (with_points Directional.initializeBoard
                    (<[23%nat := (2, 0)]> (<[22%nat := (2, 0)]>
                       (points Directional.initializeBoard))))
          {| player1 := 0; player2 := 1 |})
       P2 (Some (1, 2)) [false; false]
    = Ret false.
Proof. split; reflexivity. Qed.

(** The moves it accepts stay on the board too, so the 15 checkers of a
    player are kept there as well. *)
Lemma directional_isValidMove_sound (b : BackgammonBoard) (from : Origin) (to : Dest)
    (p : Player) (dv : option Z) :
  Directional.isValidMove b from to p dv = Ret true ->
  move_in_range b from to /\ source_occupied b from to p.
Proof.
  unfold Directional.isValidMove, move_in_range, source_occupied, in_points. cbv zeta.
  destruct from as [|from], to as [|to]; intros H; try discriminate H.
  - destruct (_ || _); [discriminate|].
    apply bindO_Ret in H as (pt & Hpt & H).
    destruct (count pt (opponent p) >? 1); [discriminate|].
    destruct (Z.eqb_spec (per (bar b) p) 0); [discriminate|].
    split; [|assumption]. apply point_at_defined. eauto.
  - apply bindO_Ret in H as (home & _ & H).
    destruct (negb home); [discriminate|].
    destruct (negb (Directional.isInHomeBoard from p)); [discriminate|].
    apply bindO_Ret in H as (pt & Hpt & H).
    rewrite <- (point_at_checkers b from pt p Hpt) in H.
    destruct (Z.eqb_spec (checkers b from p) 0); [discriminate|].
    split; [|assumption]. apply point_at_defined. eauto.
  - destruct (_ || _); [discriminate|].
    apply bindO_Ret in H as (ptf & Hptf & H).
    rewrite <- (point_at_checkers b from ptf p Hptf) in H.
    destruct (Z.eqb_spec (checkers b from p) 0); [discriminate|].
    destruct (_ <=? 0); [discriminate|].
    apply bindO_Ret in H as (ptt & Hptt & H).
    split; [|assumption]. split; apply point_at_defined; eauto.
Qed.

Lemma directional_fifteen (b : BackgammonBoard) :
  reachable_from Directional.isValidMove Directional.initializeBoard b ->
  length (points b) = 24%nat /\ fifteen b.
Proof.
  induction 1 as [|b from to p d b' _ [IHlen IH15] Hvalid Hmove].
  - split; [reflexivity|]. intros []; reflexivity.
  - destruct (directional_isValidMove_sound _ _ _ _ _ Hvalid) as [Hr _].
    destruct (makeMove_conserves b from to p d Hr) as (b'' & Hb'' & Hlen & Htot).
    rewrite Hmove in Hb''. injection Hb'' as <-.
    split; [congruence|]. intros q. rewrite Htot. apply IH15.
Qed.

(** ** A turn that cannot end *)

Section Stuck.
Import Handler.

(** The die value that the matching picks is one of the two dice. *)
Lemma die_for_value (room : BackgammonGameRoom) (d : Z * Z) (p : Player)
    (from : Origin) (to : Dest) (k : nat) (v : Z) :
  die_for room d p from to = Ret (Some (k, v)) -> v = fst d \/ v = snd d.
Proof.
  unfold die_for. cbv zeta. destruct from as [|from], to as [|to]; try discriminate.
  - destruct (_ && _); [intros [= _ <-]; auto|].
    destruct (_ && _); [intros [= _ <-]; auto|]. discriminate.
  - destruct (_ && _); [intros [= _ <-]; auto|].
    destruct (_ && _); [intros [= _ <-]; auto|].
    destruct (_ && _); [|discriminate].
    intros (higher & _ & H)%bindO_Ret.
    destruct higher; [discriminate|]. injection H as _ <-.
    destruct (fst d >? snd d); auto.
  - destruct (_ && _); [intros [= _ <-]; auto|].
    destruct (_ && _); [intros [= _ <-]; auto|]. discriminate.
Qed.

Lemma stuck_board_wf : WellFormed stuck_board.
Proof. apply well_formed_b_ok. reflexivity. Qed.

(** On [stuck_board] no move of player 1 with a 1 or a 2 is accepted. *)
Lemma stuck_no_valid_move (from : Origin) (to : Dest) (v : Z) :
  v = 1 \/ v = 2 ->
  Shared.isValidMove stuck_board from to P1 (Some v) <> Ret true.
Proof.
  intros Hv Hvalid. destruct from as [|from].
  - pose proof Hvalid as (_ & i & -> & Hi)%isValidMove_bar_shape.
    apply isValidMove_bar_entry_point in Hvalid as [-> Hopen].
    destruct Hv as [-> | ->]; vm_compute in Hopen; congruence.
  - destruct to as [|to].
    + apply isValidMove_off_shape in Hvalid as (Hhome & _). discriminate Hhome.
    + apply isValidMove_regular_shape in Hvalid as (_ & _ & Hfrom & Hhas).
      each_index from Hfrom; apply Hhas; reflexivity.
Qed.

(** After player 1 rolls 1 and 2 on [stuck_board], [canPlayerMove] finds
    no move, the turn stays with player 1, and no roll or move of either
    player changes the room any more. *)
Lemma stuck_after_roll :
  fst (roll_dice (only_room (room_to_roll stuck_board)) "alice" "g" backgammon_game (1, 2))
    = stuck_rooms
  /\ Shared.canPlayerMove stuck_board P1 (Some (1, 2)) [false; false] = Ret false
  /\ forall a, fst (handle "g" backgammon_game a stuck_rooms) = stuck_rooms.
Proof.
  split; [vm_compute; reflexivity|]. split; [reflexivity|].
  intros a. apply handle_rejected.
  destruct a as [u rolled|u from to].
  - apply (roll_needs_no_dice "g" backgammon_game u rolled stuck_rooms
             (room_rolled stuck_board (1, 2))); [reflexivity | by eexists].
  - cbn [first_segment].
    destruct (move_begin_all_or_nothing stuck_rooms u "g" from to backgammon_game)
      as [[message ->]|(room & d & room' & Hroom & Hdice & Hturn & Hmove & _)]; [reflexivity|].
    exfalso. injection Hroom as <-. injection Hdice as <-.
    apply move_in_room_applied in Hmove as (k & v & newBoard & Hdie & Hvalid & _).
    apply die_for_value in Hdie. cbn [fst snd] in Hdie.
    cbn [currentPlayer room_rolled] in Hturn. rewrite <- Hturn in Hvalid.
    exact (stuck_no_valid_move from to v Hdie Hvalid).
Qed.

End Stuck.

(** ** What every room satisfies *)

Section RoomInvariant.
Import Handler.

Variable gameId : string.
Variable game : option Game.

Lemma new_room_ok (id player1 player2 : string) : room_ok (new_room id player1 player2).
Proof.
  split; [reflexivity|]. split.
  - destruct initializeBoard_wf as [Hlen Hpts Hbar Hoff]. by split.
  - intros []; reflexivity.
Qed.

(** The first segment of a handler keeps the dice and the flags together,
    the counts non-negative and 15 checkers for each player, in every
    room. *)
Lemma first_segment_keeps_rooms_ok (a : Action) (rooms : Rooms) :
  map_Forall (fun _ room => room_ok room) rooms ->
  map_Forall (fun _ room => room_ok room) (fst (fst (first_segment gameId game a rooms))).
Proof.
  intros Hall.
  destruct a as [u rolled|u from to]; cbn [first_segment].
  - unfold roll_begin. destruct game as [g|]; [|exact Hall].
    destruct (default Backgammon (game_type g)); [|exact Hall].
    destruct (rooms !! gameId) as [room|] eqn:Hroom; [|exact Hall].
    destruct (negb _); [exact Hall|]. destruct (bool_decide _); [exact Hall|].
    cbn [fst]. apply map_Forall_insert_2; [|exact Hall].
    destruct (Hall gameId room Hroom) as (_ & Hwf & H15). by split.
  - destruct (move_begin_all_or_nothing rooms u gameId from to game)
      as [[message ->]|(room & d & room' & Hroom & Hdice & _ & Hmove & ->)]; [exact Hall|].
    cbn [fst]. apply map_Forall_insert_2; [|exact Hall].
    destruct (Hall gameId room Hroom) as (Hflags & Hwf & H15).
    apply move_in_room_applied in Hmove as (k & v & newBoard & _ & Hvalid & Hnew & ->).
    destruct (isValidMove_sound _ _ _ _ _ Hvalid) as [Hr Hs].
    split; [|split].
    + unfold dice_flags in Hflags |- *. cbn. rewrite Hdice in Hflags |- *.
      by rewrite length_insert.
    + exact (makeMove_wf _ _ _ _ _ _ Hwf Hr Hs Hnew).
    + destruct (makeMove_conserves (board room) from to (player_number room u) v Hr)
        as (b' & Hb' & _ & Htot).
      cbn. rewrite Hnew in Hb'. injection Hb' as <-.
      intros q. rewrite Htot. apply H15.
Qed.

(** So does the second segment. *)
Lemma second_segment_keeps_rooms_ok (a : Action) (pend : option Pending) (rooms : Rooms) :
  map_Forall (fun _ room => room_ok room) rooms ->
  map_Forall (fun _ room => room_ok room) (fst (second_segment a pend rooms)).
Proof.
  intros Hall. destruct pend as [pend|]; [|exact Hall].
  destruct a as [u rolled|u from to]; cbn [second_segment].
  - by rewrite roll_finish_rooms.
  - unfold move_finish. destruct (rooms !! pending_room pend) as [room|] eqn:Hroom; [|exact Hall].
    destruct (Shared.canPlayerMove _ _ _ _) as [canMoveMore|]; [|exact Hall].
    cbn [fst]. apply map_Forall_insert_2; [|exact Hall].
    destruct (Hall _ room Hroom) as (Hflags & Hwf & H15).
    destruct (_ || _); [|by split]. by split.
Qed.

(** Hence every room is well formed with 15 checkers for each player
    after two handlers, however their segments interleave. *)
Lemma overlapped_keeps_rooms_ok (a1 a2 : Action) (in_order : bool) (rooms : Rooms) :
  map_Forall (fun _ room => room_ok room) rooms ->
  map_Forall (fun _ room => room_ok room)
    (fst (overlapped gameId game a1 a2 in_order rooms)).
Proof.
  intros Hall. rewrite overlapped_rooms. cbv zeta.
  destruct in_order; do 2 apply second_segment_keeps_rooms_ok;
    by do 2 apply first_segment_keeps_rooms_ok.
Qed.

End RoomInvariant.

(** ** A whole turn *)

Section OpeningTurn.
Import Handler.

(** From the starting board player 1 rolls 3 and 1, moves a checker three
    points and another one point; the turn is then with player 2 and there
    are no dice. *)
Lemma opening_3_1_turn :
  let rooms0 := only_room (new_room "g" "alice" "bob") in
  let rooms1 := fst (roll_dice rooms0 "alice" "g" backgammon_game (3, 1)) in
  let rooms2 := fst (make_move rooms1 "alice" "g" (FromPoint 8) (ToPoint 5) backgammon_game) in
  let rooms3 := fst (make_move rooms2 "alice" "g" (FromPoint 23) (ToPoint 22) backgammon_game) in
  (fun room => (currentPlayer room, dice room, diceUsed room)) <$> rooms1 !! "g"%string
    = Some (P1, Some (3, 1), [false; false])
  /\ (fun room => (currentPlayer room, dice room, diceUsed room)) <$> rooms2 !! "g"%string
    = Some (P1, Some (3, 1), [true; false])
  /\ (fun room => (currentPlayer room, dice room, diceUsed room)) <$> rooms3 !! "g"%string
    = Some (P2, None, []).
Proof. cbv zeta. repeat split; vm_compute; reflexivity. Qed.

End OpeningTurn.

(** ** More on the shared-home rules *)



(** The bar after the blot rule. *)
Lemma hit_blot_bar (b b' : BackgammonBoard) (to : Z) (p : Player) :
  hit_blot b to p = Ret b' ->
  bar b' = (if checkers b to (opponent p) =? 1
            then set_per (bar b) (opponent p) (per (bar b) (opponent p) + 1)
            else bar b).
Proof.
  unfold hit_blot. intros (pt & Hpt & H)%bindO_Ret.
  rewrite <- (point_at_checkers b to pt (opponent p) Hpt) in H.
  destruct (checkers b to (opponent p) =? 1); [|by injection H as <-].
  apply bindO_Ret in H as (b1 & Hb1 & H). injection H as <-.
  unfold update_count in Hb1. apply bindO_Ret in Hb1 as (pt1 & _ & Hb1).
  injection Hb1 as <-. reflexivity.
Qed.

(** Putting a checker of [p] on point [to]: the blot rule, then the
    increment. *)
Lemma land_on_spec (b : BackgammonBoard) (to : Z) (p : Player) :
  in_points b to ->
  exists b2 b3,
    hit_blot b to p = Ret b2 /\
    update_count b2 to p (fun c => c + 1) = Ret b3 /\
    (forall j q, checkers b3 j q =
       if j =? to then
         if Player_eqb q p then checkers b to p + 1
         else if checkers b to (opponent p) =? 1 then 0 else checkers b to q
       else checkers b j q) /\
    bar b3 = (if checkers b to (opponent p) =? 1
              then set_per (bar b) (opponent p) (per (bar b) (opponent p) + 1)
              else bar b) /\
    borne_off b3 = borne_off b.
Proof.
  intros Hto. unfold in_points in Hto.
  destruct (hit_blot_spec b to p Hto) as (b2 & Hb2 & Hlen2 & Hoff2 & _ & _ & Hchk2).
  destruct (update_count_spec b2 to p (fun c => c + 1))
    as (b3 & Hb3 & _ & Hbar3 & Hoff3 & _ & Hchk3); [by rewrite Hlen2|].
  exists b2, b3. split; [exact Hb2|]. split; [exact Hb3|]. split; [|split].
  - intros j q. rewrite Hchk3, !Hchk2.
    destruct (Z.eqb_spec j to) as [->|Hne]; cbn [andb].
    + rewrite Z.eqb_refl. cbn [andb].
      destruct p, q; cbn [Player_eqb opponent andb]; try reflexivity;
        destruct (_ =? 1); reflexivity.
    + reflexivity.
  - rewrite Hbar3. exact (hit_blot_bar b b2 to p Hb2).
  - by rewrite Hoff3.
Qed.

(** X2: an accepted ordinary move takes one checker of the mover from
    [from] and puts one on [to]; an opposing checker that stood alone on
    [to] goes to the opponent's bar; no other count changes. *)
Theorem ordinary_move_effect (b : BackgammonBoard) (p : Player) (from to d : Z) :
  Shared.isValidMove b (FromPoint from) (ToPoint to) p (Some d) = Ret true ->
  exists b', makeMove b (FromPoint from) (ToPoint to) p d = Ret b' /\
    checkers b' from p = checkers b from p - 1 /\
    checkers b' to p = checkers b to p + 1 /\
    checkers b' from (opponent p) = checkers b from (opponent p) /\
    checkers b' to (opponent p)
      = (if checkers b to (opponent p) =? 1 then 0 else checkers b to (opponent p)) /\
    (forall j q, j <> from -> j <> to -> checkers b' j q = checkers b j q) /\
    per (bar b') (opponent p)
      = per (bar b) (opponent p) + (if checkers b to (opponent p) =? 1 then 1 else 0) /\
    per (bar b') p = per (bar b) p /\
    borne_off b' = borne_off b.
Proof.
  intros Hvalid.
  pose proof (isValidMove_regular_shape _ _ _ _ _ Hvalid) as (Hto & _ & _ & _).
  destruct (isValidMove_sound _ _ _ _ _ Hvalid) as [[Hf Ht] _].
  assert (Hne : to <> from).
  { unfold Shared.isValidMove in Hvalid. cbv zeta in Hvalid.
    destruct (_ || _); [discriminate|].
    apply bindO_Ret in Hvalid as (? & _ & Hvalid).
    destruct (_ =? 0); [discriminate|]. rewrite Z.geb_leb in Hvalid.
    destruct (Z.leb_spec from to); [discriminate|lia]. }
  unfold makeMove. cbv zeta.
  destruct (update_count_spec b from p (fun c => c - 1) Hf)
    as (b1 & -> & Hlen1 & Hbar1 & Hoff1 & _ & Hchk1).
  cbn [bindO].
  destruct (land_on_spec b1 to p) as (b2 & b3 & -> & Hb3 & Hchk3 & Hbar3 & Hoff3).
  { unfold in_points in *. by rewrite Hlen1. }
  cbn [bindO]. exists b3. split; [exact Hb3|].
  assert (Hopp : forall q, Player_eqb (opponent q) q = false) by by intros [].
  assert (Hrefl : forall q, Player_eqb q q = true) by by intros [].
  assert (Hb1to : forall q, checkers b1 to q = checkers b to q).
  { intros q. rewrite Hchk1. destruct (Z.eqb_spec to from); [contradiction|reflexivity]. }
  rewrite !Hchk3, !Hb1to, Hbar3, Hbar1, Hoff3, Hoff1, Z.eqb_refl, Hrefl, Hopp.
  destruct (Z.eqb_spec from to) as [Heq|_]; [congruence|].
  rewrite !Hchk1, Z.eqb_refl, Hrefl, Hopp. cbn [andb].
  split; [reflexivity|]. split; [reflexivity|]. split; [reflexivity|]. split; [reflexivity|].
  split.
  - intros j q Hjf Hjt. rewrite Hchk3.
    destruct (Z.eqb_spec j to); [contradiction|]. rewrite Hchk1.
    destruct (Z.eqb_spec j from); [contradiction|]. reflexivity.
  - rewrite andb_false_r.
    destruct (checkers b to (opponent p) =? 1); rewrite ?per_set_per, ?Hrefl;
      destruct p; cbn; repeat split; lia.
Qed.

Lemma ordinary_move_effect_witness :
  exists b', makeMove Shared.initializeBoard (FromPoint 8) (ToPoint 5) P1 3 = Ret b' /\
    checkers b' 8 P1 = checkers Shared.initializeBoard 8 P1 - 1 /\
    checkers b' 5 P1 = checkers Shared.initializeBoard 5 P1 + 1 /\
    checkers b' 8 (opponent P1) = checkers Shared.initializeBoard 8 (opponent P1) /\
    checkers b' 5 (opponent P1)
      = (if checkers Shared.initializeBoard 5 (opponent P1) =? 1 then 0
         else checkers Shared.initializeBoard 5 (opponent P1)) /\
    (forall j q, j <> 8 -> j <> 5 -> checkers b' j q = checkers Shared.initializeBoard j q) /\
    per (bar b') (opponent P1)
      = per (bar Shared.initializeBoard) (opponent P1)
        + (if checkers Shared.initializeBoard 5 (opponent P1) =? 1 then 1 else 0) /\
    per (bar b') P1 = per (bar Shared.initializeBoard) P1 /\
    borne_off b' = borne_off Shared.initializeBoard.
Proof.
  apply (ordinary_move_effect Shared.initializeBoard P1 8 5 3). reflexivity.
Defined.

(** X3: an accepted entry from the bar takes one checker of the mover off
    the bar and puts it on [to]; an opposing checker that stood alone on
    [to] goes to the opponent's bar; no other count changes. *)
Theorem bar_entry_effect (b : BackgammonBoard) (p : Player) (to : Z) (dv : option Z) (d : Z) :
  Shared.isValidMove b FromBar (ToPoint to) p dv = Ret true ->
  exists b', makeMove b FromBar (ToPoint to) p d = Ret b' /\
    per (bar b') p = per (bar b) p - 1 /\
    checkers b' to p = checkers b to p + 1 /\
    checkers b' to (opponent p)
      = (if checkers b to (opponent p) =? 1 then 0 else checkers b to (opponent p)) /\
    (forall j q, j <> to -> checkers b' j q = checkers b j q) /\
    per (bar b') (opponent p)
      = per (bar b) (opponent p) + (if checkers b to (opponent p) =? 1 then 1 else 0) /\
    borne_off b' = borne_off b.
Proof.
  intros Hvalid.
  destruct (isValidMove_sound _ _ _ _ _ Hvalid) as [Ht _].
  unfold makeMove. cbv zeta.
  set (b1 := with_bar b (set_per (bar b) p (per (bar b) p - 1))).
  destruct (land_on_spec b1 to p Ht) as (b2 & b3 & -> & Hb3 & Hchk3 & Hbar3 & Hoff3).
  cbn [bindO]. exists b3. split; [exact Hb3|].
  assert (Hopp : forall q, Player_eqb (opponent q) q = false) by by intros [].
  assert (Hrefl : forall q, Player_eqb q q = true) by by intros [].
  change (checkers b1) with (checkers b) in Hchk3, Hbar3.
  rewrite !Hchk3, Hbar3, Hoff3, Z.eqb_refl, Hrefl, Hopp.
  cbn [b1 with_bar bar borne_off].
  split.
  { destruct (checkers b to (opponent p) =? 1); rewrite ?per_set_per, ?Hrefl;
      destruct p; cbn; lia. }
  split; [reflexivity|]. split; [reflexivity|]. split.
  { intros j q Hj. rewrite Hchk3. by destruct (Z.eqb_spec j to). }
  split; [|reflexivity].
  destruct (checkers b to (opponent p) =? 1); rewrite ?per_set_per, ?Hrefl, ?Hopp;
    destruct p; cbn; lia.
Qed.

Lemma bar_entry_effect_witness :
  exists b', makeMove blocked_bar_board FromBar (ToPoint 20) P1 3 = Ret b' /\
    per (bar b') P1 = per (bar blocked_bar_board) P1 - 1 /\
    checkers b' 20 P1 = checkers blocked_bar_board 20 P1 + 1 /\
    checkers b' 20 (opponent P1)
      = (if checkers blocked_bar_board 20 (opponent P1) =? 1 then 0
         else checkers blocked_bar_board 20 (opponent P1)) /\
    (forall j q, j <> 20 -> checkers b' j q = checkers blocked_bar_board j q) /\
    per (bar b') (opponent P1)
      = per (bar blocked_bar_board) (opponent P1)
        + (if checkers blocked_bar_board 20 (opponent P1) =? 1 then 1 else 0) /\
    borne_off b' = borne_off blocked_bar_board.
Proof.
  apply (bar_entry_effect blocked_bar_board P1 20 (Some 3) 3). reflexivity.
Defined.

(** X4: an accepted bear-off takes one checker of the mover from [from]
    and adds one to the mover's borne-off count; no other count changes. *)
Theorem bear_off_effect (b : BackgammonBoard) (p : Player) (from : Z) (dv : option Z) (d : Z) :
  Shared.isValidMove b (FromPoint from) ToOff p dv = Ret true ->
  exists b', makeMove b (FromPoint from) ToOff p d = Ret b' /\
    checkers b' from p = checkers b from p - 1 /\
    per (borne_off b') p = per (borne_off b) p + 1 /\
    checkers b' from (opponent p) = checkers b from (opponent p) /\
    (forall j q, j <> from -> checkers b' j q = checkers b j q) /\
    per (borne_off b') (opponent p) = per (borne_off b) (opponent p) /\
    bar b' = bar b.
Proof.
  intros Hvalid.
  destruct (isValidMove_sound _ _ _ _ _ Hvalid) as [Hf _].
  unfold makeMove. cbv zeta.
  destruct (update_count_spec b from p (fun c => c - 1) Hf)
    as (b1 & -> & _ & Hbar1 & Hoff1 & _ & Hchk1).
  cbn [bindO]. eexists. split; [reflexivity|].
  change (checkers (with_borne_off b1 _)) with (checkers b1).
  cbn [with_borne_off bar borne_off].
  assert (Hopp : forall q, Player_eqb (opponent q) q = false) by by intros [].
  assert (Hrefl : forall q, Player_eqb q q = true) by by intros [].
  rewrite !Hchk1, !per_set_per, Hoff1, Hbar1, Z.eqb_refl, Hrefl, Hopp. cbn [andb].
  repeat split.
  intros j q Hj. rewrite Hchk1. by destruct (Z.eqb_spec j from).
Qed.

Lemma bear_off_effect_witness :
  exists b', makeMove home_board (FromPoint 3) ToOff P1 6 = Ret b' /\
    checkers b' 3 P1 = checkers home_board 3 P1 - 1 /\
    per (borne_off b') P1 = per (borne_off home_board) P1 + 1 /\
    checkers b' 3 (opponent P1) = checkers home_board 3 (opponent P1) /\
    (forall j q, j <> 3 -> checkers b' j q = checkers home_board j q) /\
    per (borne_off b') (opponent P1) = per (borne_off home_board) (opponent P1) /\
    bar b' = bar home_board.
Proof.
  apply (bear_off_effect home_board P1 3 (Some 6) 6). reflexivity.
Defined.

(** ** Boards that accepted moves reach *)

(** X5: on every board reached from the starting board by accepted moves
    there are 24 points and no checker count, bar count or borne-off count
    is negative. *)
Theorem reachable_counts_nonnegative (b : BackgammonBoard) :
  reachable_from Shared.isValidMove Shared.initializeBoard b ->
  length (points b) = 24%nat /\
  (forall i p, 0 <= checkers b i p) /\
  (forall p, 0 <= per (bar b) p) /\
  (forall p, 0 <= per (borne_off b) p).
Proof. intros [H1 H2 H3 H4]%reachable_wf. auto. Qed.

Lemma reachable_counts_nonnegative_witness :
  length (points after_8_5) = 24%nat /\
  (forall i p, 0 <= checkers after_8_5 i p) /\
  (forall p, 0 <= per (bar after_8_5) p) /\
  (forall p, 0 <= per (borne_off after_8_5) p).
Proof.
  apply reachable_counts_nonnegative.
  apply (reach_move _ _ Shared.initializeBoard (FromPoint 8) (ToPoint 5) P1 3).
  - apply reach_start.
  - reflexivity.
  - reflexivity.
Defined.

Lemma on_points_nonneg (pts : list PointT) (p : Player) :
  (forall pt, pt ∈ pts -> 0 <= count pt p) -> 0 <= on_points pts p.
Proof.
  induction pts as [|pt rest IH]; intros Hall; simpl; [lia|].
  pose proof (Hall pt ltac:(left)). pose proof (IH (fun x Hx => Hall x ltac:(by right))). lia.
Qed.

Lemma on_points_zero (pts : list PointT) (p : Player) :
  (forall pt, pt ∈ pts -> 0 <= count pt p) -> on_points pts p <= 0 ->
  forall pt, pt ∈ pts -> count pt p = 0.
Proof.
  induction pts as [|x rest IH]; intros Hall Hsum pt Hin; [by apply elem_of_nil in Hin|].
  simpl in Hsum. pose proof (Hall x ltac:(left)) as Hx.
  pose proof (on_points_nonneg rest p (fun y Hy => Hall y ltac:(by right))) as Hrest.
  apply elem_of_cons in Hin as [->|Hin]; [lia|].
  apply IH; [intros y Hy; apply Hall; by right | lia | exact Hin].
Qed.

Lemma checkers_of_elem (b : BackgammonBoard) (p : Player) (pt : PointT) :
  pt ∈ points b -> exists i, checkers b i p = count pt p.
Proof.
  intros (n & Hn)%list_elem_of_lookup_1. exists (Z.of_nat n). unfold checkers.
  destruct (Z.leb_spec 0 (Z.of_nat n)); [|lia]. by rewrite Nat2Z.id, Hn.
Qed.

(** X6: on a well-formed board with 15 checkers for each player, the
    player that [checkWinCondition] names has borne off all 15 and has no
    checker left on any point or on the bar. *)
Theorem winner_has_no_checkers (b : BackgammonBoard) (p : Player) :
  WellFormed b -> fifteen b ->
  checkWinCondition b = Some p ->
  per (borne_off b) p = 15 /\ per (bar b) p = 0 /\ forall i, checkers b i p = 0.
Proof.
  intros [Hlen Hpts Hbar Hoff] H15 Hwin.
  assert (Hoff15 : per (borne_off b) p = 15).
  { unfold checkWinCondition in Hwin.
    destruct (Z.eqb_spec (player1 (borne_off b)) 15); [by injection Hwin as <-|].
    destruct (Z.eqb_spec (player2 (borne_off b)) 15); [by injection Hwin as <-|discriminate]. }
  assert (Hall : forall pt, pt ∈ points b -> 0 <= count pt p).
  { intros pt Hin. destruct (checkers_of_elem b p pt Hin) as [i <-]. apply Hpts. }
  pose proof (on_points_nonneg (points b) p Hall) as Hsum.
  pose proof (H15 p) as Htot. unfold total in Htot. pose proof (Hbar p).
  split; [exact Hoff15|]. split; [lia|].
  intros i. unfold checkers. destruct (0 <=? i); [|reflexivity].
  destruct (points b !! Z.to_nat i) as [pt|] eqn:E; [|reflexivity].
  apply (on_points_zero (points b) p Hall); [lia|].
  by eapply list_elem_of_lookup_2.
Qed.

Lemma winner_has_no_checkers_witness :
  per (borne_off won_board) P1 = 15 /\ per (bar won_board) P1 = 0 /\
  forall i, checkers won_board i P1 = 0.
Proof.
  apply (winner_has_no_checkers won_board P1).
  - apply well_formed_b_ok. reflexivity.
  - intros []; reflexivity.
  - reflexivity.
Defined.

(** ** When the rule engine returns and when it throws *)

(** X7: [allInHomeBoard] is true exactly when the player has no checker on
    the indices 6..23 and none on the bar. *)
Theorem allInHomeBoard_true_iff (b : BackgammonBoard) (p : Player) :
  WellFormed b ->
  exists v, Shared.allInHomeBoard b p = Ret v /\
    (v = true <->
     per (bar b) p = 0 /\ forall i, 6 <= i <= 23 -> checkers b i p = 0).
Proof.
  intros [Hlen Hpts _ _].
  destruct (allInHomeBoard_spec b Hlen p) as (v & Hv & Hiff).
  exists v. split; [exact Hv|]. rewrite Hiff. split.
  - intros [Hout Hbar]. split; [exact Hbar|]. intros i Hi.
    pose proof (Hout i Hi). pose proof (Hpts i p). lia.
  - intros [Hbar Hout]. split; [|exact Hbar]. intros i Hi. rewrite (Hout i Hi). lia.
Qed.

Lemma allInHomeBoard_true_iff_witness :
  exists v, Shared.allInHomeBoard home_board P1 = Ret v /\
    (v = true <->
     per (bar home_board) P1 = 0 /\ forall i, 6 <= i <= 23 -> checkers home_board i P1 = 0).
Proof.
  apply (allInHomeBoard_true_iff home_board P1). apply well_formed_b_ok. reflexivity.
Defined.



Section NullDice.
Import Shared.

Variable b : BackgammonBoard.
Variable p : Player.
Variable usedDice : list bool.
Hypothesis Hlen : length (points b) = 24%nat.

Lemma try_entry_null (i : Z) (k : nat) :
  try_entry b p None usedDice i k = if unused usedDice k then Throw else Ret false.
Proof. unfold try_entry. by destruct (unused usedDice k). Qed.

Lemma try_die_null (i : Z) (k : nat) :
  try_die b p None usedDice i k = if unused usedDice k then Throw else Ret false.
Proof. unfold try_die. by destruct (unused usedDice k). Qed.

Lemma any_at_throw (body : Z -> Outcome bool) (idxs : list Z) (i : Z) :
  i ∈ idxs -> body i = Throw ->
  (forall j, j ∈ idxs -> body j = Throw \/ body j = Ret false) ->
  any_at body idxs = Throw.
Proof.
  induction idxs as [|j rest IH]; intros Hin Hi Hall; [by apply elem_of_nil in Hin|].
  simpl. destruct (Hall j ltac:(left)) as [-> | Hj]; [reflexivity|].
  rewrite Hj. simpl. apply elem_of_cons in Hin as [->|Hin]; [congruence|].
  apply IH; [exact Hin | exact Hi | intros; apply Hall; by right].
Qed.

(** X9: with [dice] null, [canPlayerMove] throws exactly when some die
    counts as unused and the player has a checker on the bar or on a point;
    otherwise it returns false. *)
Theorem canPlayerMove_null_dice :
  let some_unused := unused usedDice 0 = true \/ unused usedDice 1 = true in
  let has_checker := 0 < per (bar b) p \/ exists i, 0 <= i <= 23 /\ 0 < checkers b i p in
  (some_unused /\ has_checker -> canPlayerMove b p None usedDice = Throw) /\
  (~ (some_unused /\ has_checker) -> canPlayerMove b p None usedDice = Ret false).
Proof.
  cbv zeta. unfold canPlayerMove. rewrite Z.gtb_ltb.
  set (entry := fun i : Z =>
    let! first := try_entry b p None usedDice i 0 in
    if first then Ret true else try_entry b p None usedDice i 1).
  set (scan := fun i : Z =>
    let! pt := point_at (points b) i in
    if count pt p >? 0 then
      let! first := try_die b p None usedDice i 0 in
      if first then Ret true else try_die b p None usedDice i 1
    else Ret false).
  assert (Hentry : forall i, entry i =
            if unused usedDice 0 || unused usedDice 1 then Throw else Ret false).
  { intros i. unfold entry. rewrite !try_entry_null.
    destruct (unused usedDice 0), (unused usedDice 1); reflexivity. }
  assert (Hscan : forall i, 0 <= i <= 23 -> scan i =
            if (checkers b i p >? 0) && (unused usedDice 0 || unused usedDice 1)
            then Throw else Ret false).
  { intros i Hi. unfold scan.
    destruct (point_at_wf b i Hlen) as (pt & -> & Hc); [lia|]. cbn [bindO].
    rewrite Hc. destruct (checkers b i p >? 0); [|reflexivity].
    rewrite !try_die_null.
    destruct (unused usedDice 0), (unused usedDice 1); reflexivity. }
  destruct (unused usedDice 0 || unused usedDice 1) eqn:Eun.
  - assert (Hsome : unused usedDice 0 = true \/ unused usedDice 1 = true)
      by (by apply orb_true_iff).
    destruct (Z.ltb_spec 0 (per (bar b) p)) as [Hbar|Hbar].
    + split; [|tauto]. intros _.
      apply (any_at_throw entry _ 18); [apply elem_of_seqZ; lia | apply Hentry |].
      intros j _. left. apply Hentry.
    + split.
      * intros [_ [Hb|(i & Hi & Hpos)]]; [lia|].
        apply (any_at_throw scan _ i); [apply elem_of_seqZ; lia | |].
        -- rewrite (Hscan i Hi). destruct (Z.gtb_spec (checkers b i p) 0); [reflexivity|lia].
        -- intros j Hj%elem_of_seqZ. rewrite (Hscan j) by lia.
           destruct (_ && _); auto.
      * intros Hnot.
        rewrite (any_at_pure scan (fun _ => false)).
        { f_equal; by induction (seqZ 0 24). }
        intros j Hj%elem_of_seqZ. rewrite (Hscan j) by lia.
        destruct (Z.gtb_spec (checkers b j p) 0); [|reflexivity].
        exfalso. apply Hnot. split; [exact Hsome|]. right. exists j. lia.
  - apply orb_false_iff in Eun as [E0 E1].
    split; [intros [[?|?] _]; congruence|]. intros _.
    destruct (0 <? per (bar b) p).
    + rewrite (any_at_pure entry (fun _ => false)); [f_equal; by induction (seqZ _ _)|].
      intros j _. apply Hentry.
    + rewrite (any_at_pure scan (fun _ => false)); [f_equal; by induction (seqZ _ _)|].
      intros j Hj%elem_of_seqZ. rewrite (Hscan j) by lia. by rewrite andb_false_r.
Qed.

End NullDice.

Lemma canPlayerMove_null_dice_witness :
  Shared.canPlayerMove Shared.initializeBoard P1 None [false; false] = Throw.
Proof.
  apply (canPlayerMove_null_dice Shared.initializeBoard P1 [false; false] eq_refl).
  split; [left; reflexivity|]. right. exists 5. split; [lia | reflexivity].
Defined.

(** ** The per-player-home rules: no checker is ever borne off *)

Section DirectionalHome.
Import Directional.

Lemma directional_outside_scan (b : BackgammonBoard) (p : Player) :
  length (points b) = 24%nat ->
  any_at (fun i =>
      if (i <? match p with P1 => 18 | P2 => 0 end)
         || (i >? match p with P1 => 23 | P2 => 5 end) then
        let! pt := point_at (points b) i in
        Ret (count pt p >? 0)
      else Ret false) (seqZ 0 24)
  = Ret (existsb (fun i => negb (isInHomeBoard i p) && (checkers b i p >? 0)) (seqZ 0 24)).
Proof.
  intros Hlen. apply any_at_pure. intros i Hi%elem_of_seqZ.
  destruct (point_at_wf b i Hlen) as (pt & Hpt & Hc); [lia|].
  rewrite Hpt, <- Hc. cbn [bindO].
  unfold isInHomeBoard. destruct p; zbool; simpl; try reflexivity; lia.
Qed.

(** A player with a checker away from home is not "all in home". *)
Lemma away_not_all_home (b : BackgammonBoard) (p : Player) :
  length (points b) = 24%nat -> away_from_home b p ->
  allInHomeBoard b p = Ret false.
Proof.
  intros Hlen Haway. unfold allInHomeBoard. cbv zeta.
  rewrite (directional_outside_scan b p Hlen). cbn [bindO].
  match goal with |- context [existsb ?g ?l] => destruct (existsb g l) eqn:E end;
    [reflexivity|].
  destruct Haway as [Hbar|(i & Hi & Hout & Hpos)].
  - f_equal. apply Z.eqb_neq. lia.
  - exfalso. rewrite existsb_seqZ_false in E. specialize (E i ltac:(lia)).
    rewrite Hout in E. destruct (Z.gtb_spec (checkers b i p) 0); [discriminate|lia].
Qed.

Lemma away_no_bear_off (b : BackgammonBoard) (p : Player) (from : Z) (dv : option Z) :
  length (points b) = 24%nat -> away_from_home b p ->
  isValidMove b (FromPoint from) ToOff p dv = Ret false.
Proof.
  intros Hlen Haway. unfold isValidMove.
  by rewrite (away_not_all_home b p Hlen Haway).
Qed.

(** A checker of [p] that lands on [to] leaves the opponent away from
    home when the opponent was. *)
Lemma land_keeps_opponent_away (b b3 : BackgammonBoard) (to : Z) (p : Player) :
  (forall j, checkers b3 j (opponent p) =
     if j =? to then
       if checkers b to (opponent p) =? 1 then 0 else checkers b to (opponent p)
     else checkers b j (opponent p)) ->
  per (bar b3) (opponent p)
    = per (bar b) (opponent p) + (if checkers b to (opponent p) =? 1 then 1 else 0) ->
  0 <= per (bar b) (opponent p) ->
  away_from_home b (opponent p) -> away_from_home b3 (opponent p).
Proof.
  intros Hchk Hbar Hnn [Hb|(i & Hi & Hout & Hpos)].
  - left. rewrite Hbar. destruct (_ =? 1); lia.
  - destruct (Z.eqb_spec (checkers b to (opponent p)) 1) as [Hone|Hne].
    + left. rewrite Hbar. lia.
    + right. exists i. split; [exact Hi|]. split; [exact Hout|].
      rewrite Hchk. destruct (Z.eqb_spec i to) as [->|_]; [|exact Hpos].
      destruct (Z.eqb_spec (checkers b to (opponent p)) 1); [contradiction|exact Hpos].
Qed.

Lemma directional_bar_shape (b : BackgammonBoard) (to : Z) (p : Player) (dv : option Z) :
  isValidMove b FromBar (ToPoint to) p dv = Ret true ->
  0 <= to <= 23 /\ isInHomeBoard to p = false /\ per (bar b) p <> 0.
Proof.
  unfold isValidMove, isInHomeBoard. cbv zeta. intros H.
  destruct (_ || _) eqn:E; [discriminate|].
  apply bindO_Ret in H as (pt & _ & H).
  destruct (_ >? 1); [discriminate|].
  destruct (Z.eqb_spec (per (bar b) p) 0); [discriminate|].
  destruct p; zbool; simpl in *; try discriminate; repeat split; try lia; exact n.
Qed.

Lemma directional_regular_shape (b : BackgammonBoard) (from to : Z) (p : Player)
    (dv : option Z) :
  isValidMove b (FromPoint from) (ToPoint to) p dv = Ret true ->
  0 <= from <= 23 /\ 0 <= to <= 23 /\ checkers b from p <> 0 /\
  match p with P1 => to < from | P2 => from < to end.
Proof.
  unfold isValidMove. cbv zeta. intros H.
  destruct (Z.ltb_spec from 0); simpl in H; [discriminate|].
  rewrite (Z.gtb_ltb from) in H. destruct (Z.ltb_spec 23 from); simpl in H; [discriminate|].
  destruct (Z.ltb_spec to 0); simpl in H; [discriminate|].
  rewrite (Z.gtb_ltb to) in H. destruct (Z.ltb_spec 23 to); simpl in H; [discriminate|].
  apply bindO_Ret in H as (ptf & Hptf & H).
  rewrite <- (point_at_checkers b from ptf p Hptf) in H.
  destruct (Z.eqb_spec (checkers b from p) 0); [discriminate|].
  destruct (Z.leb_spec ((to - from) * match p with P1 => -1 | P2 => 1 end) 0);
    [discriminate|].
  repeat split; try lia; try assumption. destruct p; lia.
Qed.

(** One accepted move keeps both players away from home, and bears
    nothing off. *)
Lemma directional_step (b b' : BackgammonBoard) (from : Origin) (to : Dest)
    (p : Player) (d : Z) :
  WellFormed b -> (forall q, away_from_home b q) ->
  isValidMove b from to p (Some d) = Ret true ->
  makeMove b from to p d = Ret b' ->
  (forall q, away_from_home b' q) /\ borne_off b' = borne_off b.
Proof.
  intros Hwf Haway Hvalid Hmove.
  pose proof Hwf as [Hlen Hpts Hbarnn _].
  assert (Hcases : forall q, q = p \/ q = opponent p) by (intros []; destruct p; auto).
  destruct from as [|from], to as [|to].
  - discriminate Hvalid.
  - destruct (directional_bar_shape _ _ _ _ Hvalid) as (Hto & Hout & _).
    unfold makeMove in Hmove. cbv zeta in Hmove.
    set (b1 := with_bar b (set_per (bar b) p (per (bar b) p - 1))) in Hmove.
    destruct (land_on_spec b1 to p) as (b2 & b3 & Hb2 & Hb3 & Hchk & Hbar & Hoff).
    { unfold in_points. cbn. rewrite Hlen. lia. }
    rewrite Hb2 in Hmove. cbn [bindO] in Hmove. rewrite Hb3 in Hmove.
    injection Hmove as <-.
    change (checkers b1) with (checkers b) in Hchk, Hbar.
    split; [|exact Hoff].
    intros q. destruct (Hcases q) as [->| ->].
    + right. exists to. split; [exact Hto|]. split; [exact Hout|].
      rewrite Hchk, Z.eqb_refl. pose proof (Hpts to p).
      destruct p; cbn [Player_eqb]; lia.
    + apply (land_keeps_opponent_away b b3 to p); [| | apply Hbarnn | apply Haway].
      * intros j. rewrite Hchk. destruct (j =? to); [|reflexivity].
        by destruct p.
      * rewrite Hbar. cbn [b1 with_bar bar].
        destruct (checkers b to (opponent p) =? 1); rewrite ?per_set_per; destruct p; cbn in *; lia.
  - rewrite (away_no_bear_off b p from (Some d) Hlen (Haway p)) in Hvalid. discriminate.
  - destruct (directional_regular_shape _ _ _ _ _ Hvalid) as (Hf & Ht & Hocc & Hdir).
    unfold makeMove in Hmove. cbv zeta in Hmove.
    destruct (update_count_spec b from p (fun c => c - 1))
      as (b1 & Hb1 & Hlen1 & Hbar1 & Hoff1 & _ & Hchk1); [rewrite Hlen; lia|].
    rewrite Hb1 in Hmove. cbn [bindO] in Hmove.
    destruct (land_on_spec b1 to p) as (b2 & b3 & Hb2 & Hb3 & Hchk & Hbar & Hoff).
    { unfold in_points. rewrite Hlen1, Hlen. lia. }
    rewrite Hb2 in Hmove. cbn [bindO] in Hmove. rewrite Hb3 in Hmove.
    injection Hmove as <-.
    assert (Hne : to <> from) by (destruct p; lia).
    assert (Hb1to : forall q, checkers b1 to q = checkers b to q).
    { intros q. rewrite Hchk1. destruct (Z.eqb_spec to from); [contradiction|reflexivity]. }
    rewrite !Hb1to, Hbar1 in Hbar.
    split; [|by rewrite Hoff, Hoff1].
    intros q. destruct (Hcases q) as [->| ->].
    + destruct (Haway p) as [Hb|(i & Hi & Hout & Hpos)].
      * left. rewrite Hbar. destruct (checkers b to (opponent p) =? 1); rewrite ?per_set_per; destruct p; cbn in *; lia.
      * right. destruct (Z.eqb_spec i from) as [->|Hif].
        -- exists to. split; [exact Ht|]. split.
           ++ unfold isInHomeBoard in *. destruct p; zbool; simpl in *; try discriminate;
                try reflexivity; lia.
           ++ rewrite Hchk, Z.eqb_refl, Hb1to. pose proof (Hpts to p).
              destruct p; cbn [Player_eqb]; lia.
        -- exists i. split; [exact Hi|]. split; [exact Hout|].
           rewrite Hchk, Hb1to. destruct (Z.eqb_spec i to) as [->|Hit].
           ++ pose proof (Hpts to p). destruct p; cbn [Player_eqb]; lia.
           ++ rewrite Hchk1. destruct (Z.eqb_spec i from); [contradiction|]. exact Hpos.
    + assert (Hopp : forall j, checkers b1 j (opponent p) = checkers b j (opponent p)).
      { intros j. rewrite Hchk1. destruct p; cbn [opponent Player_eqb];
          by rewrite andb_false_r. }
      refine (land_keeps_opponent_away b b3 to p _ _ (Hbarnn _) (Haway _)).
      * intros j. rewrite Hchk, !Hb1to, Hopp.
        destruct (j =? to); [|reflexivity]. by destruct p.
      * rewrite Hbar. destruct (checkers b to (opponent p) =? 1); rewrite ?per_set_per; destruct p; cbn in *; lia.
Qed.

End DirectionalHome.

Lemma directional_reachable_away (b : BackgammonBoard) :
  reachable_from Directional.isValidMove Directional.initializeBoard b ->
  WellFormed b /\ (forall q, away_from_home b q) /\
  forall q, per (borne_off b) q = 0.
Proof.
  induction 1 as [|b from to p d b' _ (Hwf & Haway & Hoff) Hvalid Hmove].
  - split; [apply well_formed_b_ok; reflexivity|]. split; [|intros []; reflexivity].
    intros []; right; [exists 12 | exists 11]; repeat split; lia.
  - destruct (directional_isValidMove_sound _ _ _ _ _ Hvalid) as [Hr Hs].
    destruct (directional_step b b' from to p d Hwf Haway Hvalid Hmove) as [Haway' Hoff'].
    split; [exact (makeMove_wf _ _ _ _ _ _ Hwf Hr Hs Hmove)|].
    split; [exact Haway'|]. intros q. rewrite Hoff'. apply Hoff.
Qed.

(** X10: under the per-player-home rules of [gameService.ts], player 1
    moves to lower indices and enters on 0..5 while its home is 18..23, and
    player 2 the other way round; so on every board reached from the
    starting board by accepted moves each player still has a checker
    outside its home board or on the bar, every bear-off is rejected,
    nothing is borne off and [checkWinCondition] names no winner. *)
Theorem directional_no_bear_off (b : BackgammonBoard) :
  reachable_from Directional.isValidMove Directional.initializeBoard b ->
  (forall p, away_from_home b p) /\
  (forall from p dv, Directional.isValidMove b (FromPoint from) ToOff p dv = Ret false) /\
  (forall p, per (borne_off b) p = 0) /\
  checkWinCondition b = None.
Proof.
  intros (Hwf & Haway & Hoff)%directional_reachable_away.
  split; [exact Haway|]. split; [|split; [exact Hoff|]].
  - intros from p dv. apply away_no_bear_off; [apply Hwf | apply Haway].
  - unfold checkWinCondition.
    pose proof (Hoff P1) as H1. pose proof (Hoff P2) as H2. cbn [per] in H1, H2.
    by rewrite H1, H2.
Qed.

Lemma directional_no_bear_off_witness :
  (forall p, away_from_home directional_after_12_9 p) /\
  (forall from p dv,
     Directional.isValidMove directional_after_12_9 (FromPoint from) ToOff p dv
     = Ret false) /\
  (forall p, per (borne_off directional_after_12_9) p = 0) /\
  checkWinCondition directional_after_12_9 = None.
Proof.
  apply directional_no_bear_off.
  apply (reach_move _ _ Directional.initializeBoard (FromPoint 12) (ToPoint 9) P1 3).
  - apply reach_start.
  - reflexivity.
  - reflexivity.
Defined.

(** ** Which moves [make-move] applies *)

Section DieMatching.
Import Handler.

(** A bear-off with a die value, spelled out. *)
Lemma isValidMove_off_eval (b : BackgammonBoard) (p : Player) (from dv : Z) :
  length (points b) = 24%nat ->
  Shared.isValidMove b (FromPoint from) ToOff p (Some dv) = Ret true <->
  Shared.allInHomeBoard b p = Ret true /\ 0 <= from <= 5 /\ checkers b from p <> 0 /\
  (from + 1 = dv \/
   from + 1 < dv /\
   existsb (fun i => checkers b i p >? 0) (seqZ (from + 1) (5 - from)) = false).
Proof.
  intros Hlen. unfold Shared.isValidMove.
  destruct (allInHomeBoard_spec b Hlen p) as (home & -> & _). cbn [bindO].
  destruct home; cbn [negb]; [|split; [discriminate|intros [[=] _]]].
  unfold Shared.isInHomeBoard.
  destruct (Z.leb_spec 0 from); cbn [andb negb]; [|split; [discriminate|lia]].
  destruct (Z.leb_spec from 5); cbn [andb negb]; [|split; [discriminate|lia]].
  destruct (point_at_wf b from Hlen) as (pt & -> & Hc); [lia|].
  cbn [bindO]. rewrite Hc.
  destruct (Z.eqb_spec (checkers b from p) 0); [split; [discriminate|tauto]|].
  cbv zeta.
  destruct (Z.eqb_spec (from + 1) dv); [tauto|].
  destruct (Z.ltb_spec (from + 1) dv); [|split; [discriminate|lia]].
  rewrite (higher_scan b Hlen p from) by lia. cbn [bindO].
  match goal with |- context [existsb ?g ?l] => destruct (existsb g l) eqn:E end.
  - split; [discriminate|]. intros (_ & _ & _ & [?|[_ ?]]); [lia|discriminate].
  - split; [|reflexivity]. intros _. repeat split; try lia; try assumption; right; auto.
Qed.

(** What the die matching returns when it finds a die. *)
Lemma die_for_sound (room : BackgammonGameRoom) (d : Z * Z) (p : Player)
    (from : Origin) (to : Dest) (k : nat) (v : Z) :
  die_for room d p from to = Ret (Some (k, v)) ->
  (k < 2)%nat /\ unused (diceUsed room) k = true /\ v = pick d k /\
  match from, to with
  | FromPoint from, ToOff => from + 1 = v \/ k = higherDie d
  | FromPoint from, ToPoint to => from - to = v
  | FromBar, ToPoint to => to = 24 - v - 1
  | FromBar, ToOff => False
  end.
Proof.
  unfold die_for, higherDie. cbv zeta.
  destruct from as [|from], to as [|to]; try discriminate;
    (match goal with |- context [if ?c then _ else _] => destruct c eqn:E0 end;
      [apply andb_true_iff in E0 as [?%Z.eqb_eq ?]; intros [= <- <-]; auto with lia|]);
    (match goal with |- context [if ?c then _ else _] => destruct c eqn:E1 end;
      [apply andb_true_iff in E1 as [?%Z.eqb_eq ?]; intros [= <- <-]; auto with lia|]);
    try discriminate.
  match goal with |- context [if ?c then _ else _] => destruct c eqn:E2 end;
    [|discriminate].
  apply andb_true_iff in E2 as [Hun _].
  intros (higher & _ & H)%bindO_Ret.
  destruct higher; [discriminate|]. injection H as <- <-.
  destruct (fst d >? snd d); auto with lia.
Qed.

(** A move that [isValidMove] accepts with an unused die gets a die from
    the matching, except a bear-off that overshoots with the lower die. *)
Lemma die_for_complete (room : BackgammonGameRoom) (d : Z * Z) (p : Player)
    (from : Origin) (to : Dest) (k : nat) :
  length (points (board room)) = 24%nat ->
  (k < 2)%nat -> unused (diceUsed room) k = true ->
  Shared.isValidMove (board room) from to p (Some (pick d k)) = Ret true ->
  match from, to with
  | FromPoint from, ToOff => from + 1 = pick d k \/ k = higherDie d
  | _, _ => True
  end ->
  exists k', die_for room d p from to = Ret (Some (k', pick d k')) /\
    Shared.isValidMove (board room) from to p (Some (pick d k')) = Ret true.
Proof.
  intros Hlen Hk Hun Hvalid Hshape.
  assert (Hk01 : k = 0%nat \/ k = 1%nat) by lia.
  unfold die_for. cbv zeta.
  destruct from as [|from], to as [|to].
  - discriminate Hvalid.
  - destruct (isValidMove_bar_entry_point _ _ _ _ Hvalid) as [Hto _].
    destruct ((to =? 24 - fst d - 1) && unused (diceUsed room) 0) eqn:E0.
    { exists 0%nat. split; [reflexivity|].
      apply andb_true_iff in E0 as [E0%Z.eqb_eq _].
      replace (pick d 0) with (pick d k); [exact Hvalid|].
      destruct Hk01 as [-> | ->]; cbn [pick] in *; lia. }
    destruct Hk01 as [-> | ->]; cbn [pick] in Hto.
    { rewrite Hun, (proj2 (Z.eqb_eq _ _) Hto) in E0. discriminate. }
    rewrite Hun, (proj2 (Z.eqb_eq _ _) Hto). cbn [andb]. exists 1%nat. split; [reflexivity | exact Hvalid].
  - apply (isValidMove_off_eval _ _ _ _ Hlen) in Hvalid as (Hhome & Hfrom & Hocc & Hdie).
    assert (Hexact : forall k', from + 1 = pick d k' ->
              Shared.isValidMove (board room) (FromPoint from) ToOff p (Some (pick d k'))
              = Ret true).
    { intros k' Heq. apply (isValidMove_off_eval _ _ _ _ Hlen). auto 6. }
    destruct ((from + 1 =? fst d) && unused (diceUsed room) 0) eqn:E0.
    { exists 0%nat. split; [reflexivity|].
      apply andb_true_iff in E0 as [E0%Z.eqb_eq _]. by apply Hexact. }
    destruct ((from + 1 =? snd d) && unused (diceUsed room) 1) eqn:E1.
    { exists 1%nat. split; [reflexivity|].
      apply andb_true_iff in E1 as [E1%Z.eqb_eq _]. by apply Hexact. }
    assert (Hnot : from + 1 <> pick d k).
    { intros Heq. destruct Hk01 as [-> | ->]; cbn [pick] in Heq.
      - rewrite Hun, (proj2 (Z.eqb_eq _ _) Heq) in E0. discriminate.
      - rewrite Hun, (proj2 (Z.eqb_eq _ _) Heq) in E1. discriminate. }
    destruct Hshape as [?|Hhigher]; [contradiction|].
    destruct Hdie as [?|[Hlt Hnone]]; [contradiction|].
    fold (higherDie d). rewrite <- Hhigher, Hun.
    destruct (Z.ltb_spec (from + 1) (pick d k)); [|lia]. cbn [andb].
    rewrite (higher_scan (board room) Hlen p from) by lia. rewrite Hnone. cbn [bindO].
    exists k. split; [reflexivity|].
    apply (isValidMove_off_eval _ _ _ _ Hlen). auto 6.
  - destruct (isValidMove_regular_shape _ _ _ _ _ Hvalid) as (Hto & _).
    assert (Hdist : from - to = pick d k) by lia.
    destruct ((from - to =? fst d) && unused (diceUsed room) 0) eqn:E0.
    { exists 0%nat. split; [reflexivity|].
      apply andb_true_iff in E0 as [E0%Z.eqb_eq _].
      replace (pick d 0) with (pick d k); [exact Hvalid|]. cbn [pick]. lia. }
    destruct Hk01 as [-> | ->]; cbn [pick] in Hdist.
    { rewrite Hun, (proj2 (Z.eqb_eq _ _) Hdist) in E0. discriminate. }
    rewrite Hun, (proj2 (Z.eqb_eq _ _) Hdist). cbn [andb]. exists 1%nat. split; [reflexivity | exact Hvalid].
Qed.

(** X11: [make-move] applies a move exactly when [isValidMove] accepts it
    with a die that is not used yet, where a bear-off must match that die
    exactly or use the die at [higherDie]; a bear-off that overshoots with
    the lower die is never applied. *)
Theorem move_applied_iff (room : BackgammonGameRoom) (p : Player) (d : Z * Z)
    (from : Origin) (to : Dest) :
  length (points (board room)) = 24%nat ->
  (exists room', move_in_room room p d from to = Ret (inr room')) <->
  exists k, (k < 2)%nat /\ unused (diceUsed room) k = true /\
    Shared.isValidMove (board room) from to p (Some (pick d k)) = Ret true /\
    match from, to with
    | FromPoint from, ToOff => from + 1 = pick d k \/ k = higherDie d
    | _, _ => True
    end.
Proof.
  intros Hlen. split.
  - intros (room' & (k & v & newBoard & Hdie & Hvalid & _)%move_in_room_applied).
    destruct (die_for_sound _ _ _ _ _ _ _ Hdie) as (Hk & Hun & -> & Hshape).
    exists k. repeat split; try assumption.
    destruct from, to; auto.
  - intros (k & Hk & Hun & Hvalid & Hshape).
    destruct (die_for_complete room d p from to k Hlen Hk Hun Hvalid Hshape)
      as (k' & Hdie & Hvalid').
    destruct (isValidMove_sound _ _ _ _ _ Hvalid') as [Hr _].
    destruct (makeMove_conserves (board room) from to p (pick d k') Hr) as (b' & Hb' & _).
    unfold move_in_room. rewrite Hdie. cbn [bindO]. rewrite Hvalid'. cbn [bindO negb].
    rewrite Hb'. cbn [bindO]. eauto.
Qed.

Lemma move_applied_iff_witness :
  (exists room', move_in_room (room_rolled home_board (6, 2)) P1 (6, 2) (FromPoint 3) ToOff
                 = Ret (inr room')) <->
  exists k, (k < 2)%nat /\ unused (diceUsed (room_rolled home_board (6, 2))) k = true /\
    Shared.isValidMove (board (room_rolled home_board (6, 2))) (FromPoint 3) ToOff P1
      (Some (pick (6, 2) k)) = Ret true /\
    (3 + 1 = pick (6, 2) k \/ k = higherDie (6, 2)).
Proof.
  apply (move_applied_iff (room_rolled home_board (6, 2)) P1 (6, 2) (FromPoint 3) ToOff).
  reflexivity.
Defined.

(** X12: a move that [make-move] applies spends one die that was not
    used: the room keeps its ids, its turn and its dice, the flag of that
    die is set and no other, and the board is the one [makeMove] returns
    for the value of that die. *)
Theorem applied_move_spends_unused_die (room room' : BackgammonGameRoom) (p : Player)
    (d : Z * Z) (from : Origin) (to : Dest) :
  move_in_room room p d from to = Ret (inr room') ->
  exists k, (k < 2)%nat /\ unused (diceUsed room) k = true /\
    diceUsed room' = <[k := true]> (diceUsed room) /\
    Shared.isValidMove (board room) from to p (Some (pick d k)) = Ret true /\
    makeMove (board room) from to p (pick d k) = Ret (board room') /\
    dice room' = dice room /\ currentPlayer room' = currentPlayer room /\
    gameId room' = gameId room /\
    player1Id room' = player1Id room /\ player2Id room' = player2Id room.
Proof.
  intros (k & v & newBoard & Hdie & Hvalid & Hmove & ->)%move_in_room_applied.
  destruct (die_for_sound _ _ _ _ _ _ _ Hdie) as (Hk & Hun & -> & _).
  exists k. repeat split; assumption.
Qed.

Lemma applied_move_spends_unused_die_witness :
  exists k, (k < 2)%nat /\
    unused (diceUsed (room_rolled Shared.initializeBoard (3, 1))) k = true /\
    diceUsed room_after_8_5
      = <[k := true]> (diceUsed (room_rolled Shared.initializeBoard (3, 1))) /\
    Shared.isValidMove (board (room_rolled Shared.initializeBoard (3, 1)))
      (FromPoint 8) (ToPoint 5) P1 (Some (pick (3, 1) k)) = Ret true /\
    makeMove (board (room_rolled Shared.initializeBoard (3, 1)))
      (FromPoint 8) (ToPoint 5) P1 (pick (3, 1) k) = Ret (board room_after_8_5) /\
    dice room_after_8_5 = dice (room_rolled Shared.initializeBoard (3, 1)) /\
    currentPlayer room_after_8_5 = currentPlayer (room_rolled Shared.initializeBoard (3, 1)) /\
    gameId room_after_8_5 = gameId (room_rolled Shared.initializeBoard (3, 1)) /\
    player1Id room_after_8_5 = player1Id (room_rolled Shared.initializeBoard (3, 1)) /\
    player2Id room_after_8_5 = player2Id (room_rolled Shared.initializeBoard (3, 1)).
Proof.
  apply (applied_move_spends_unused_die (room_rolled Shared.initializeBoard (3, 1))
           room_after_8_5 P1 (3, 1) (FromPoint 8) (ToPoint 5)).
  reflexivity.
Defined.

End DieMatching.

(** ** A turn that no action ends *)

Section Overshoot.
Import Handler.

Variable gameId : string.
Variable game : option Game.

Lemma unused_after_higher (d : Z * Z) (k : nat) :
  (k < 2)%nat -> unused (<[higherDie d := true]> [false; false]) k = true ->
  k = (1 - higherDie d)%nat.
Proof.
  unfold higherDie. intros Hk.
  destruct (fst d >? snd d), k as [|[|k]]; cbn; try discriminate; try lia; reflexivity.
Qed.

(** X13: the player to move has spent the die at [higherDie], has no
    checker on the bar, and all its checkers stand on home points whose
    number is below the value of the other die.  Then [canPlayerMove]
    still returns true, so [make-move] has left the turn with this player,
    and yet no roll and no move of any user changes the room: the only
    moves left are bear-offs that overshoot, and the die matching tries
    those with the die at [higherDie] only. *)
Theorem overshoot_with_lower_die_stuck (rooms : Rooms) (room : BackgammonGameRoom)
    (d : Z * Z) (top : Z) :
  rooms !! gameId = Some room ->
  WellFormed (board room) ->
  dice room = Some d ->
  diceUsed room = <[higherDie d := true]> [false; false] ->
  per (bar (board room)) (currentPlayer room) = 0 ->
  0 < checkers (board room) top (currentPlayer room) ->
  (forall j, top < j -> checkers (board room) j (currentPlayer room) = 0) ->
  top + 1 < pick d (1 - higherDie d) <= 6 ->
  Shared.canPlayerMove (board room) (currentPlayer room) (Some d) (diceUsed room) = Ret true
  /\ forall a, fst (handle gameId game a rooms) = rooms.
Proof.
  intros Hroom Hwf Hdice Hused Hbar Htop Hnone Hlow.
  pose proof Hwf as [Hlen Hpts _ _].
  set (p := currentPlayer room) in *. set (b := board room) in *.
  set (lo := (1 - higherDie d)%nat) in *.
  assert (Hlo : (lo < 2)%nat) by (unfold lo; lia).
  assert (Hun : unused (diceUsed room) lo = true).
  { rewrite Hused. unfold lo, higherDie. by destruct (fst d >? snd d). }
  assert (Htop0 : 0 <= top).
  { unfold checkers in Htop. destruct (Z.leb_spec 0 top); lia. }
  assert (Hoff : Shared.isValidMove b (FromPoint top) ToOff p (Some (pick d lo)) = Ret true).
  { apply (isValidMove_off_eval _ _ _ _ Hlen). split; [|split; [lia|split; [lia|]]].
    - destruct (allInHomeBoard_spec b Hlen p) as ([] & Hv & Hiff); [exact Hv|].
      exfalso. assert (false = true); [|discriminate]. apply Hiff. split; [|exact Hbar].
      intros i Hi. rewrite Hnone; lia.
    - right. split; [lia|]. apply existsb_seqZ_false. intros i Hi.
      rewrite Hnone by lia. reflexivity. }
  split.
  - rewrite (canPlayerMove_eval b p d (diceUsed room) Hwf). f_equal.
    rewrite Hbar. change (0 >? 0) with false. cbv iota.
    apply existsb_seqZ_true. exists top. split; [lia|].
    apply andb_true_iff. split; [apply Z.gtb_lt; lia|].
    assert (Hacc : accepts b p d (FromPoint top) ToOff lo = true).
    { unfold accepts. by rewrite Hoff. }
    assert (Hcases : lo = 0%nat \/ lo = 1%nat) by lia.
    destruct Hcases as [Hl|Hl]; rewrite Hl in Hun, Hacc; rewrite Hun, Hacc;
      cbn [andb]; rewrite ?orb_true_r; reflexivity.
  - intros a. apply handle_rejected.
    destruct a as [u rolled|u from to].
    + apply (roll_needs_no_dice gameId game u rolled rooms room Hroom). by eexists.
    + cbn [first_segment].
      destruct (move_begin_all_or_nothing rooms u gameId from to game)
        as [[message ->]|(room0 & d0 & room' & Hroom0 & Hdice0 & Hturn & Hmove & _)];
        [reflexivity|].
      exfalso. rewrite Hroom in Hroom0. injection Hroom0 as <-.
      rewrite Hdice in Hdice0. injection Hdice0 as <-.
      rewrite <- Hturn in Hmove. fold p in Hmove.
      apply move_in_room_applied in Hmove as (k & v & newBoard & Hdie & Hvalid & _).
      destruct (die_for_sound _ _ _ _ _ _ _ Hdie) as (Hk & Hunk & -> & Hshape).
      rewrite Hused in Hunk. apply (unused_after_higher d k Hk) in Hunk. fold lo in Hunk.
      subst k. fold b in Hvalid.
      assert (Hbelow : forall i, checkers b i p <> 0 -> i + 1 < pick d lo).
      { intros i Hi. destruct (Z.lt_ge_cases top i); [rewrite Hnone in Hi; lia | lia]. }
      destruct from as [|from], to as [|to].
      * discriminate Hvalid.
      * apply isValidMove_bar_shape in Hvalid as [Hb _]. contradiction.
      * apply (isValidMove_off_eval _ _ _ _ Hlen) in Hvalid as (_ & _ & Hocc & _).
        apply Hbelow in Hocc.
        destruct Hshape as [?|Hhi]; [lia|].
        unfold lo in Hhi. unfold higherDie in Hhi. destruct (fst d >? snd d); discriminate.
      * apply isValidMove_regular_shape in Hvalid as (Hto & Hrange & _ & Hocc).
        apply Hbelow in Hocc. lia.
Qed.

End Overshoot.

Lemma overshoot_with_lower_die_stuck_witness :
  Shared.canPlayerMove (Handler.board one_left_room) (Handler.currentPlayer one_left_room)
    (Some (5, 6)) (Handler.diceUsed one_left_room) = Ret true
  /\ forall a,
       fst (Handler.handle "g" Handler.backgammon_game a
              (fst (Handler.handle "g" Handler.backgammon_game
                      (Handler.Move "alice" (FromPoint 5) ToOff)
                      (Handler.only_room (Handler.room_rolled two_left_board (5, 6))))))
       = fst (Handler.handle "g" Handler.backgammon_game
                (Handler.Move "alice" (FromPoint 5) ToOff)
                (Handler.only_room (Handler.room_rolled two_left_board (5, 6)))).
Proof.
  apply (overshoot_with_lower_die_stuck "g" Handler.backgammon_game
           (fst (Handler.handle "g" Handler.backgammon_game
                   (Handler.Move "alice" (FromPoint 5) ToOff)
                   (Handler.only_room (Handler.room_rolled two_left_board (5, 6)))))
           one_left_room (5, 6) 2).
  - vm_compute. reflexivity.
  - apply well_formed_b_ok. reflexivity.
  - reflexivity.
  - reflexivity.
  - reflexivity.
  - reflexivity.
  - intros j Hj. unfold checkers. destruct (Z.leb_spec 0 j); [|reflexivity].
    destruct (Z.to_nat j) as [|[|[|n]]] eqn:E; try lia.
    do 21 (destruct n as [|n]; [reflexivity|]). reflexivity.
  - vm_compute. split; [reflexivity | discriminate].
Defined.

(** ** What a handler leaves alone *)

Section Frame.
Import Handler.

Variable gameId : string.
Variable game : option Game.

Lemma switch_player_ids (room : BackgammonGameRoom) :
  Handler.gameId (switch_player room) = Handler.gameId room /\
  player1Id (switch_player room) = player1Id room /\
  player2Id (switch_player room) = player2Id room.
Proof. auto. Qed.

(** X14: a [roll-dice] or [make-move] handler changes no room but the one
    of its game, creates and removes no room, and leaves the ids of the
    room and of its two players as they are. *)
Theorem handle_touches_one_room (a : Action) (rooms : Rooms) :
  (forall g, g <> gameId -> fst (handle gameId game a rooms) !! g = rooms !! g) /\
  match rooms !! gameId with
  | None => fst (handle gameId game a rooms) !! gameId = None
  | Some room =>
      exists room', fst (handle gameId game a rooms) !! gameId = Some room' /\
        Handler.gameId room' = Handler.gameId room /\
        player1Id room' = player1Id room /\ player2Id room' = player2Id room
  end.
Proof.
  rewrite handle_rooms.
  destruct a as [u rolled|u from to]; cbn [first_segment].
  - assert (Hfirst :
      (roll_begin rooms u gameId game rolled).1.1 = rooms /\
        (roll_begin rooms u gameId game rolled).2 = None
      \/ exists room, rooms !! gameId = Some room /\
           roll_begin rooms u gameId game rolled
           = (<[gameId := with_dice room (Some rolled) [false; false]]> rooms, [],
              Some (mkPending gameId (player_number room u)))).
    { unfold roll_begin. destruct game as [g|]; [|auto].
      destruct (default Backgammon (game_type g)); [|auto].
      destruct (rooms !! gameId) as [room|]; [|auto].
      destruct (negb _); [auto|]. destruct (bool_decide _); [auto|]. right. eauto. }
    destruct Hfirst as [[-> ->]|(room & Hroom & ->)]; cbn [fst snd second_segment].
    + split; [reflexivity|]. destruct (rooms !! gameId) as [room|]; eauto.
    + rewrite roll_finish_rooms. split.
      * intros g Hg. by rewrite lookup_insert_ne.
      * rewrite Hroom, lookup_insert_eq. eauto.
  - destruct (move_begin_all_or_nothing rooms u gameId from to game)
      as [[message ->]|(room & d & room1 & Hroom & _ & _ & Hmove & ->)];
      cbn [fst snd second_segment].
    + split; [reflexivity|]. destruct (rooms !! gameId) as [room|]; eauto.
    + apply move_in_room_applied in Hmove as (k & v & newBoard & _ & _ & _ & ->).
      set (room1 := mark_used (with_board room newBoard) k).
      destruct (move_finish_cases (<[gameId := room1]> rooms)
                  (mkPending gameId (player_number room u)) room1) as [-> | ->];
        [apply lookup_insert_eq| |].
      * split; [intros g Hg; by rewrite lookup_insert_ne|].
        rewrite Hroom, lookup_insert_eq. eauto.
      * cbn [pending_room]. rewrite insert_insert_eq. split.
        -- intros g Hg. by rewrite lookup_insert_ne.
        -- rewrite Hroom, lookup_insert_eq. eauto.
Qed.

(** X15: the handlers use the id of the acting user in two places only:
    in the test [room.player1Id === userId] and as [player_id] of the row
    they insert; neither handler asks whether the user is a player of the
    game.  So the same action sent by any other user that is not player 1
    of the room changes the rooms in the same way and gets the same
    answers, and the inserted row differs in [player_id] alone: a user
    who is not in the game acts as player 2. *)
Theorem stranger_acts_as_player2 (a : Action) (u : string) (rooms : Rooms)
    (room : BackgammonGameRoom) :
  rooms !! gameId = Some room ->
  player1Id room <> actor a -> player1Id room <> u ->
  (Ledger.handle_logged gameId game (with_actor a u) rooms).1
    = (Ledger.handle_logged gameId game a rooms).1 /\
  (Ledger.handle_logged gameId game (with_actor a u) rooms).2
    = Ledger.with_player_id u <$> (Ledger.handle_logged gameId game a rooms).2 /\
  (forall row, row ∈ (Ledger.handle_logged gameId game a rooms).2 ->
     Ledger.player_id row = actor a).
Proof.
  intros Hroom Ha Hu.
  assert (Hsame : player_number room u = player_number room (actor a)).
  { unfold player_number. by rewrite !bool_decide_eq_false_2. }
  assert (Hfirst :
    first_segment gameId game (with_actor a u) rooms = first_segment gameId game a rooms).
  { destruct a as [v rolled|v from to]; cbn [with_actor first_segment actor] in *.
    - unfold roll_begin. destruct game as [g|]; [|reflexivity].
      destruct (default Backgammon (game_type g)); [|reflexivity].
      rewrite Hroom, Hsame. reflexivity.
    - unfold move_begin. destruct game as [g|]; [|reflexivity].
      destruct (default Backgammon (game_type g)); [|reflexivity].
      rewrite Hroom, Hsame. reflexivity. }
  unfold Ledger.handle_logged. rewrite Hfirst.
  destruct (first_segment gameId game a rooms) as [[rooms1 out1] pend].
  assert (Hsecond : second_segment (with_actor a u) pend rooms1 = second_segment a pend rooms1)
    by (by destruct a).
  rewrite Hsecond. destruct (second_segment a pend rooms1) as [rooms2 out2].
  cbn [fst snd]. split; [reflexivity|]. split.
  - destruct pend, a; reflexivity.
  - intros row Hrow. destruct pend; [|by apply elem_of_nil in Hrow].
    destruct a; apply list_elem_of_singleton in Hrow as ->; reflexivity.
Qed.

End Frame.

Lemma stranger_acts_as_player2_witness :
  (Ledger.handle_logged "g" Handler.backgammon_game
     (with_actor (Handler.Roll "bob" (3, 1)) "mallory")
     (Handler.only_room (Handler.mkRoom "g" Shared.initializeBoard "alice" "bob" P2 None []))).1
    = (Ledger.handle_logged "g" Handler.backgammon_game (Handler.Roll "bob" (3, 1))
         (Handler.only_room
            (Handler.mkRoom "g" Shared.initializeBoard "alice" "bob" P2 None []))).1 /\
  (Ledger.handle_logged "g" Handler.backgammon_game
     (with_actor (Handler.Roll "bob" (3, 1)) "mallory")
     (Handler.only_room (Handler.mkRoom "g" Shared.initializeBoard "alice" "bob" P2 None []))).2
    = Ledger.with_player_id "mallory" <$>
        (Ledger.handle_logged "g" Handler.backgammon_game (Handler.Roll "bob" (3, 1))
           (Handler.only_room
              (Handler.mkRoom "g" Shared.initializeBoard "alice" "bob" P2 None []))).2 /\
  (forall row,
     row ∈ (Ledger.handle_logged "g" Handler.backgammon_game (Handler.Roll "bob" (3, 1))
              (Handler.only_room
                 (Handler.mkRoom "g" Shared.initializeBoard "alice" "bob" P2 None []))).2 ->
     Ledger.player_id row = Handler.actor (Handler.Roll "bob" (3, 1))).
Proof.
  apply (stranger_acts_as_player2 "g" Handler.backgammon_game
           (Handler.Roll "bob" (3, 1)) "mallory" _
           (Handler.mkRoom "g" Shared.initializeBoard "alice" "bob" P2 None [])).
  - reflexivity.
  - discriminate.
  - discriminate.
Defined.

(** ** What every room satisfies after a handler *)

(** X16: when every room has 24 points, no negative count, 15 checkers
    for each player and two flags exactly when it has dice, the same holds
    after any handler has run, alone or overlapping with a second one. *)
Theorem handlers_keep_rooms_ok (gameId : string) (game : option Handler.Game)
    (a1 a2 : Handler.Action) (in_order : bool) (rooms : Handler.Rooms) :
  map_Forall (fun _ room => Handler.room_ok room) rooms ->
  map_Forall (fun _ room => Handler.room_ok room) (fst (Handler.handle gameId game a1 rooms)) /\
  map_Forall (fun _ room => Handler.room_ok room)
    (fst (Handler.overlapped gameId game a1 a2 in_order rooms)).
Proof.
  intros Hall. split.
  - rewrite handle_rooms. apply second_segment_keeps_rooms_ok.
    by apply first_segment_keeps_rooms_ok.
  - by apply overlapped_keeps_rooms_ok.
Qed.

Lemma handlers_keep_rooms_ok_witness :
  map_Forall (fun _ room => Handler.room_ok room)
    (fst (Handler.handle "g" Handler.backgammon_game (Handler.Roll "alice" (3, 1))
            (Handler.only_room (Handler.new_room "g" "alice" "bob")))) /\
  map_Forall (fun _ room => Handler.room_ok room)
    (fst (Handler.overlapped "g" Handler.backgammon_game (Handler.Roll "alice" (3, 1))
            (Handler.Move "alice" (FromPoint 8) (ToPoint 5)) true
            (Handler.only_room (Handler.new_room "g" "alice" "bob")))).
Proof.
  apply handlers_keep_rooms_ok.
  apply map_Forall_singleton. apply new_room_ok.
Defined.

(** ** The dice duel, state by state *)

Section DuelStates.
Import DiceDuel.

(** The run of [processDiceRoll] on the store returns a new object that
    holds [processed s p r]. *)
Lemma processDiceRoll_processed (h : Store) (o : Ref) (s : DiceGameState)
    (p : Player) (r : Z) :
  h !! o = Some s ->
  processDiceRoll o p r h = Some (length h, h ++ [processed s p r]).
Proof.
  intros Ho. unfold processDiceRoll, bindM, processed. unfold spread at 1. rewrite Ho.
  destruct p; rewrite write_last, read_last;
    cbn [player1_roll player2_roll set_player1_roll set_player2_roll].
  - destruct (player2_roll s) as [roll2|]; [|rewrite write_last; reflexivity].
    destruct (r >? roll2); [|destruct (roll2 >? r)];
      rewrite ?write_last, read_last; cbn;
      (destruct (_ >=? 3); [|destruct (_ >=? 3)]);
      rewrite ?write_last; reflexivity.
  - destruct (player1_roll s) as [roll1|]; [|rewrite write_last; reflexivity].
    destruct (roll1 >? r); [|destruct (r >? roll1)];
      rewrite ?write_last, read_last; cbn;
      (destruct (_ >=? 3); [|destruct (_ >=? 3)]);
      rewrite ?write_last; reflexivity.
Qed.

Lemma duel_state_inv (gameId : string) (s : DiceGameState) :
  duel_state gameId s -> duel_inv gameId s.
Proof.
  induction 1 as [|s p r _ IH (Hturn & Hnone & Hroll & Hr)].
  - split; [reflexivity|]. split; [simpl; lia|]. split; [intros []; simpl; lia|].
    simpl. split; [intros []; simpl; lia|]. split; [reflexivity|]. left. auto.
  - destruct IH as (Hid & Hround & Hscores & IH). rewrite Hnone in IH.
    destruct IH as (Hlt & Hrw & Hphase).
    pose proof (Hscores P1) as Hs1. pose proof (Hscores P2) as Hs2.
    pose proof (Hlt P1) as Hl1. pose proof (Hlt P2) as Hl2.
    cbn [score] in Hs1, Hs2, Hl1, Hl2.
    destruct s as [gid s1 s2 round r1 r2 cur rw gw].
    cbn [game_id player1_score player2_score current_round player1_roll player2_roll
         current_player round_winner game_winner roll_of] in *.
    subst gid cur gw rw.
    destruct Hphase as [(Hp & -> & ->)|(Hp & Hother & _)].
    + (* the first roll of the round *)
      destruct p; unfold processed, duel_inv; cbn;
        (split; [reflexivity|]); (split; [lia|]);
        (split; [intros []; cbn; lia|]);
        (split; [intros []; cbn; lia|]); (split; [reflexivity|]);
        right; rewrite <- Hp; cbn; repeat split; eauto.
    + (* the second roll of the round *)
      assert (Hstart : starter round = opponent p) by (rewrite Hp; by destruct (starter round)).
      rewrite Hstart in Hother. destruct Hother as [r' Hr'].
      clear Hscores Hlt.
      destruct p; cbn [opponent roll_of player1_roll player2_roll] in Hr', Hroll;
        subst; unfold processed, duel_inv;
        cbn [player1_roll player2_roll set_player1_roll set_player2_roll];
        [destruct (Z.gtb_spec r r'); [|destruct (Z.gtb_spec r' r)]
        |destruct (Z.gtb_spec r' r); [|destruct (Z.gtb_spec r r')]];
        cbn [game_id player1_score player2_score current_round player1_roll player2_roll
             current_player round_winner game_winner roll_of
             set_player1_roll set_player2_roll set_player1_score set_player2_score
             set_round_winner set_game_winner set_current_round set_current_player];
        repeat match goal with
               | |- context [?a >=? 3] => destruct (Z.geb_spec a 3); try lia
               end;
        cbn [game_id player1_score player2_score current_round player1_roll player2_roll
             current_player round_winner game_winner roll_of score opponent
             set_player1_roll set_player2_roll set_player1_score set_player2_score
             set_round_winner set_game_winner set_current_round set_current_player];
        (split; [reflexivity|]); (split; [lia|]);
        (split; [intros []; cbn; lia|]).
      all: try (split; [intros []; cbn; lia|]; split; [reflexivity|]; left;
                repeat split; reflexivity).
      all: try (repeat split; cbn; eauto; lia).
Qed.

(** X17: in every state of a dice duel each score is between 0 and 3; a
    player is the game winner exactly when its score is 3, and then it
    also is the winner of the last round; as long as the game has no
    winner, [round_winner] is unset, so a state sent between rounds never
    names the winner of a round. *)
Theorem duel_scores_and_winner (gameId : string) (s : DiceGameState) :
  duel_state gameId s ->
  (forall p, 0 <= score s p <= 3) /\
  (forall p, game_winner s = Some p <-> score s p = 3) /\
  (forall p, game_winner s = Some p -> round_winner s = Some (Won p)) /\
  (game_winner s = None -> round_winner s = None).
Proof.
  intros (_ & _ & Hscores & Hcase)%duel_state_inv.
  split; [exact Hscores|].
  destruct (game_winner s) as [q|].
  - destruct Hcase as (H3 & Hlt & Hrw & _). split; [|split].
    + intros p. split; [by intros [= <-]|].
      intros Hp. f_equal. destruct p, q; cbn [opponent] in *; try reflexivity; lia.
    + by intros p [= <-].
    + discriminate.
  - destruct Hcase as (Hlt & Hrw & _). split; [|split].
    + intros p. split; [discriminate|]. pose proof (Hlt p). lia.
    + discriminate.
    + auto.
Qed.

Lemma duel_scores_and_winner_witness :
  (forall p, 0 <= score (processed (initializeDiceGame "d") P1 5) p <= 3) /\
  (forall p, game_winner (processed (initializeDiceGame "d") P1 5) = Some p
             <-> score (processed (initializeDiceGame "d") P1 5) p = 3) /\
  (forall p, game_winner (processed (initializeDiceGame "d") P1 5) = Some p ->
             round_winner (processed (initializeDiceGame "d") P1 5) = Some (Won p)) /\
  (game_winner (processed (initializeDiceGame "d") P1 5) = None ->
   round_winner (processed (initializeDiceGame "d") P1 5) = None).
Proof.
  apply (duel_scores_and_winner "d"). apply duel_roll; [apply duel_begin|].
  repeat split; lia.
Defined.

(** X18: as long as a dice duel has no winner, the player whose turn it is
    has not rolled in the current round, so [roll-dice] lets that player
    roll; a round in which nobody has rolled is opened by player 2 when
    its number is even and by player 1 when it is odd. *)
Theorem duel_turn_can_roll (gameId : string) (s : DiceGameState) (r : Z) :
  duel_state gameId s -> game_winner s = None -> 1 <= r <= 6 ->
  may_roll s (current_player s) r /\
  (player1_roll s = None -> player2_roll s = None ->
   current_player s = starter (current_round s)).
Proof.
  intros (_ & _ & _ & Hcase)%duel_state_inv Hnone Hr. rewrite Hnone in Hcase.
  destruct Hcase as (_ & _ & [(Hcur & H1 & H2)|(Hcur & Hother & Hmine)]).
  - split; [|auto]. repeat split; try assumption; try lia.
    destruct (current_player s); assumption.
  - split; [repeat split; try assumption; lia|].
    intros H1 H2. destruct Hother as [r' Hr'].
    destruct (starter (current_round s)); cbn [roll_of] in Hr'; congruence.
Qed.

Lemma duel_turn_can_roll_witness :
  may_roll (processed (initializeDiceGame "d") P1 5)
    (current_player (processed (initializeDiceGame "d") P1 5)) 3 /\
  (player1_roll (processed (initializeDiceGame "d") P1 5) = None ->
   player2_roll (processed (initializeDiceGame "d") P1 5) = None ->
   current_player (processed (initializeDiceGame "d") P1 5)
   = starter (current_round (processed (initializeDiceGame "d") P1 5))).
Proof.
  apply (duel_turn_can_roll "d").
  - apply duel_roll; [apply duel_begin|]. repeat split; lia.
  - reflexivity.
  - lia.
Defined.

End DuelStates.

(** X19: the roll that completes a round.  [processDiceRoll] returns a new
    object and leaves the store as it was; with the other player's roll
    [r'] present, the higher roll adds one to its player's score; when a
    score is then 3 or more that player is the game winner and the rolls,
    the round and the turn stay; otherwise the next round is set up with
    both rolls and [round_winner] unset and [starter] to roll. *)
Theorem processDiceRoll_second_roll (h : list DiceDuel.DiceGameState) (o : nat)
    (s : DiceDuel.DiceGameState) (p : Player) (r r' : Z) :
  h !! o = Some s ->
  DiceDuel.roll_of s (opponent p) = Some r' ->
  exists s',
    DiceDuel.processDiceRoll o p r h = Some (length h, h ++ [s']) /\
    (h ++ [s']) !! o = Some s /\
    DiceDuel.game_id s' = DiceDuel.game_id s /\
    score s' p = score s p + (if r >? r' then 1 else 0) /\
    score s' (opponent p) = score s (opponent p) + (if r' >? r then 1 else 0) /\
    if (DiceDuel.player1_score s' >=? 3) || (DiceDuel.player2_score s' >=? 3) then
      DiceDuel.game_winner s'
        = Some (if DiceDuel.player1_score s' >=? 3 then P1 else P2) /\
      DiceDuel.round_winner s'
        = Some (if r >? r' then DiceDuel.Won p
                else if r' >? r then DiceDuel.Won (opponent p) else DiceDuel.Tie) /\
      DiceDuel.roll_of s' p = Some r /\ DiceDuel.roll_of s' (opponent p) = Some r' /\
      DiceDuel.current_round s' = DiceDuel.current_round s /\
      DiceDuel.current_player s' = DiceDuel.current_player s
    else
      DiceDuel.game_winner s' = DiceDuel.game_winner s /\
      DiceDuel.round_winner s' = None /\
      DiceDuel.player1_roll s' = None /\ DiceDuel.player2_roll s' = None /\
      DiceDuel.current_round s' = DiceDuel.current_round s + 1 /\
      DiceDuel.current_player s' = starter (DiceDuel.current_round s + 1).
Proof.
  intros Ho Hother. exists (processed s p r).
  split; [by apply processDiceRoll_processed|]. split; [by apply lookup_app_l_Some|].
  destruct s as [gid s1 s2 round r1 r2 cur rw gw].
  destruct p; cbn [DiceDuel.roll_of opponent DiceDuel.player1_roll DiceDuel.player2_roll]
    in Hother; subst; unfold processed;
    cbn [DiceDuel.player1_roll DiceDuel.player2_roll
         DiceDuel.set_player1_roll DiceDuel.set_player2_roll];
    [destruct (Z.gtb_spec r r'); [|destruct (Z.gtb_spec r' r)]
    |destruct (Z.gtb_spec r' r); [|destruct (Z.gtb_spec r r')]];
    try lia;
    repeat (cbn [DiceDuel.game_id DiceDuel.player1_score DiceDuel.player2_score
                 DiceDuel.current_round DiceDuel.player1_roll DiceDuel.player2_roll
                 DiceDuel.current_player DiceDuel.round_winner DiceDuel.game_winner
                 DiceDuel.roll_of score opponent orb
                 DiceDuel.set_player1_roll DiceDuel.set_player2_roll
                 DiceDuel.set_player1_score DiceDuel.set_player2_score
                 DiceDuel.set_round_winner DiceDuel.set_game_winner
                 DiceDuel.set_current_round DiceDuel.set_current_player];
            match goal with
            | |- context [?a >=? 3] =>
                lazymatch a with
                | context [if _ then _ else _] => fail
                | _ => destruct (Z.geb_spec a 3)
                end
            end);
    cbn [DiceDuel.game_id DiceDuel.player1_score DiceDuel.player2_score
         DiceDuel.current_round DiceDuel.player1_roll DiceDuel.player2_roll
         DiceDuel.current_player DiceDuel.round_winner DiceDuel.game_winner
         DiceDuel.roll_of score opponent orb
         DiceDuel.set_player1_roll DiceDuel.set_player2_roll
         DiceDuel.set_player1_score DiceDuel.set_player2_score
         DiceDuel.set_round_winner DiceDuel.set_game_winner
         DiceDuel.set_current_round DiceDuel.set_current_player];
    try lia; repeat split; try reflexivity; try lia;
    repeat match goal with |- context [?a >? ?b] => destruct (Z.gtb_spec a b) end;
    try reflexivity; lia.
Qed.

Lemma processDiceRoll_second_roll_witness :
  exists s',
    DiceDuel.processDiceRoll 1%nat P2 3
      [DiceDuel.initializeDiceGame "d"; processed (DiceDuel.initializeDiceGame "d") P1 5]
    = Some (2%nat,
            [DiceDuel.initializeDiceGame "d"; processed (DiceDuel.initializeDiceGame "d") P1 5]
            ++ [s']) /\
    score s' P2 = 0 /\ score s' P1 = 1 /\ DiceDuel.current_round s' = 2.
Proof.
  destruct (processDiceRoll_second_roll
              [DiceDuel.initializeDiceGame "d"; processed (DiceDuel.initializeDiceGame "d") P1 5]
              1%nat (processed (DiceDuel.initializeDiceGame "d") P1 5) P2 3 5
              eq_refl eq_refl)
    as (s' & Hrun & _ & _ & Hs2 & Hs1 & Hrest).
  exists s'. split; [exact Hrun|]. split; [exact Hs2|]. split; [exact Hs1|].
  cbn [opponent] in Hs1. change (score s' P2 = 0) in Hs2.
  cbn [score] in Hs1, Hs2. rewrite Hs1, Hs2 in Hrest. apply Hrest.
Defined.

(** ** Joining, rolling in a duel and leaving *)

Section SessionFacts.
Import Handler Session.

Lemma complete_game_fields (w : World) (gameId winnerId : string) (pointsAwarded : Z) :
  games (complete_game w gameId winnerId pointsAwarded)
    = alter (fun game =>
               mkGameRow (player1_id game) (player2_id game) (row_game_type game)
                 Completed (Some winnerId) pointsAwarded) gameId (games w) /\
  users (complete_game w gameId winnerId pointsAwarded)
    = match users w !! winnerId with
      | Some points => <[winnerId := points + pointsAwarded]> (users w)
      | None => users w
      end /\
  backgammonRooms (complete_game w gameId winnerId pointsAwarded) = backgammonRooms w /\
  diceRooms (complete_game w gameId winnerId pointsAwarded) = diceRooms w /\
  socketToGame (complete_game w gameId winnerId pointsAwarded) = socketToGame w /\
  game_moves (complete_game w gameId winnerId pointsAwarded) = game_moves w.
Proof.
  unfold complete_game. cbn [with_games users].
  destruct (users w !! winnerId); repeat split.
Qed.

(** X20: [join-game] refuses a game that does not exist, a user that is
    neither of its two players and a game that is not active; it then
    answers with one error to the asking socket and changes nothing, in
    particular it registers no socket and creates no room. *)
Theorem join_game_refused (w : World) (socket : Socket) (gameId : string) :
  (forall game, games w !! gameId = Some game ->
     (player1_id game <> userId socket /\ player2_id game <> userId socket)
     \/ status game <> Active) ->
  exists message, join_game w socket gameId = (w, [ErrorTo (socketId socket) message]).
Proof.
  intros Hno. unfold join_game.
  destruct (games w !! gameId) as [game|]; [|eauto].
  destruct (Hno game eq_refl) as [[H1 H2]|Hs].
  - rewrite !bool_decide_eq_false_2 by assumption. cbn. eauto.
  - destruct (negb _ && negb _); [eauto|].
    rewrite (bool_decide_eq_false_2 _ Hs). cbn. eauto.
Qed.

Lemma join_game_refused_witness :
  exists message,
    join_game lobby (mkSocket "s3" "mallory") "g"
    = (lobby, [ErrorTo (socketId (mkSocket "s3" "mallory")) message]).
Proof.
  apply join_game_refused. intros game Hgame. left.
  vm_compute in Hgame. injection Hgame as <-. split; discriminate.
Defined.

(** X21: [join-game] by a player of an active game registers the socket
    for the game and leaves the database alone; a room that exists is kept
    as it is, with its board, dice and turn, and only a missing room is
    created, in its starting state and with the two player ids of the
    row; the rooms of the other kind and of other games do not change. *)
Theorem join_game_accepted (w : World) (socket : Socket) (gameId : string) (game : GameRow) :
  games w !! gameId = Some game ->
  player1_id game = userId socket \/ player2_id game = userId socket ->
  status game = Active ->
  games (join_game w socket gameId).1 = games w /\
  users (join_game w socket gameId).1 = users w /\
  game_moves (join_game w socket gameId).1 = game_moves w /\
  socketToGame (join_game w socket gameId).1
    = <[socketId socket := gameId]> (socketToGame w) /\
  match default Backgammon (row_game_type game) with
  | Backgammon =>
      diceRooms (join_game w socket gameId).1 = diceRooms w /\
      backgammonRooms (join_game w socket gameId).1
        = match backgammonRooms w !! gameId with
          | Some _ => backgammonRooms w
          | None =>
              <[gameId := new_room gameId (player1_id game) (player2_id game)]>
                (backgammonRooms w)
          end
  | Dice =>
      backgammonRooms (join_game w socket gameId).1 = backgammonRooms w /\
      diceRooms (join_game w socket gameId).1
        = match diceRooms w !! gameId with
          | Some _ => diceRooms w
          | None =>
              <[gameId := mkDiceRoom gameId (DiceDuel.initializeDiceGame gameId)
                            (player1_id game) (player2_id game)]> (diceRooms w)
          end
  end.
Proof.
  intros Hgame Hplayer Hactive. unfold join_game. rewrite Hgame.
  assert (Hauth : negb (bool_decide (player1_id game = userId socket))
                  && negb (bool_decide (player2_id game = userId socket)) = false).
  { destruct Hplayer as [H|H]; rewrite (bool_decide_eq_true_2 _ H); cbn;
      [reflexivity | by rewrite andb_false_r]. }
  rewrite Hauth, (bool_decide_eq_true_2 _ Hactive). cbn [negb]. cbv zeta.
  destruct (default Backgammon (row_game_type game));
    cbn [fst games users game_moves socketToGame diceRooms backgammonRooms
         with_socketToGame with_diceRooms with_backgammonRooms];
    repeat split.
  - destruct (backgammonRooms w !! gameId) as [room|] eqn:E; [|reflexivity].
    by apply insert_id.
  - destruct (diceRooms w !! gameId) as [room|] eqn:E; [|reflexivity].
    by apply insert_id.
Qed.

Lemma join_game_accepted_witness :
  games (join_game lobby alice "g").1 = games lobby /\
  users (join_game lobby alice "g").1 = users lobby /\
  game_moves (join_game lobby alice "g").1 = game_moves lobby /\
  socketToGame (join_game lobby alice "g").1
    = <[socketId alice := "g"%string]> (socketToGame lobby) /\
  diceRooms (join_game lobby alice "g").1 = diceRooms lobby /\
  backgammonRooms (join_game lobby alice "g").1
    = match backgammonRooms lobby !! "g"%string with
      | Some _ => backgammonRooms lobby
      | None => <[ "g"%string := new_room "g" "alice" "bob" ]> (backgammonRooms lobby)
      end.
Proof.
  apply (join_game_accepted lobby alice "g"
           (mkGameRow "alice" "bob" (Some Backgammon) Active None 0)).
  - reflexivity.
  - left. reflexivity.
  - reflexivity.
Defined.

(** X22: in a dice duel [roll-dice] refuses a roll unless it is the
    roller's turn, the game has no winner and the roller has not rolled in
    this round; a refused roll changes nothing and is answered with one
    error. *)
Theorem dice_roll_refused (w : World) (socket : Socket) (gameId : string) (roll : Z)
    (rolled : Z * Z) (game : GameRow) (room : DiceGameRoom) :
  games w !! gameId = Some game -> row_game_type game = Some Dice ->
  diceRooms w !! gameId = Some room ->
  ~ (DiceDuel.current_player (gameState room)
       = number_of (dice_player1Id room) (userId socket) /\
     DiceDuel.game_winner (gameState room) = None /\
     DiceDuel.roll_of (gameState room) (number_of (dice_player1Id room) (userId socket))
       = None) ->
  exists message,
    roll_dice w socket gameId roll rolled = (w, [ErrorTo (socketId socket) message]).
Proof.
  intros Hgame Htype Hroom Hno. unfold roll_dice. rewrite Hgame, Htype, Hroom.
  cbn [default]. cbv zeta.
  destruct (Player_eqb _ _) eqn:Eturn; cbn [negb]; [|eauto].
  apply Player_eqb_eq in Eturn.
  destruct (bool_decide (DiceDuel.game_winner (gameState room) = None)) eqn:Ewin;
    cbn [negb]; [|eauto].
  apply bool_decide_eq_true_1 in Ewin.
  destruct (bool_decide (is_Some _)) eqn:Erolled; [eauto|].
  apply bool_decide_eq_false_1 in Erolled. exfalso. apply Hno.
  repeat split; try assumption.
  destruct (DiceDuel.roll_of _ _); [exfalso; apply Erolled; eauto | reflexivity].
Qed.

Lemma dice_roll_refused_witness :
  exists message,
    roll_dice (join_game lobby alice "d").1 bob "d" 4 (1, 1)
    = ((join_game lobby alice "d").1, [ErrorTo (socketId bob) message]).
Proof.
  apply (dice_roll_refused (join_game lobby alice "d").1 bob "d" 4 (1, 1)
           (mkGameRow "alice" "bob" (Some Dice) Active None 0)
           (mkDiceRoom "d" (DiceDuel.initializeDiceGame "d") "alice" "bob")).
  - vm_compute. reflexivity.
  - reflexivity.
  - vm_compute. reflexivity.
  - intros (Hturn & _). discriminate Hturn.
Defined.

(** X23: a roll that [roll-dice] lets through in a dice duel puts the
    state that [processDiceRoll] returns into the room and appends one row
    to [game_moves]; the round number in that row is read after the roll
    is processed, so the roll that completes round n without deciding the
    game is recorded under round n + 1, and every other roll under the
    round it was made in. *)
Theorem dice_roll_recorded (w : World) (socket : Socket) (gameId : string) (roll : Z)
    (rolled : Z * Z) (game : GameRow) (room : DiceGameRoom) :
  games w !! gameId = Some game -> row_game_type game = Some Dice ->
  diceRooms w !! gameId = Some room ->
  may_roll (gameState room) (number_of (dice_player1Id room) (userId socket)) roll ->
  let player := number_of (dice_player1Id room) (userId socket) in
  let newState := processed (gameState room) player roll in
  game_moves (roll_dice w socket gameId roll rolled).1
    = game_moves w ++
      [mkMoveRow gameId (userId socket) roll player
         (DiceDuel.current_round newState) (DiceDuel.current_round newState)] /\
  DiceDuel.current_round newState
    = (if bool_decide (is_Some (DiceDuel.roll_of (gameState room) (opponent player)))
          && bool_decide (DiceDuel.game_winner newState = None)
       then DiceDuel.current_round (gameState room) + 1
       else DiceDuel.current_round (gameState room)) /\
  (DiceDuel.game_winner newState = None ->
   roll_dice w socket gameId roll rolled
   = (with_game_moves
        (with_diceRooms w
           (<[gameId := mkDiceRoom (dice_gameId room) newState
                          (dice_player1Id room) (dice_player2Id room)]> (diceRooms w)))
        (game_moves w ++
         [mkMoveRow gameId (userId socket) roll player
            (DiceDuel.current_round newState) (DiceDuel.current_round newState)]),
      [DiceRolledAll gameId roll player (DiceDuel.current_round newState);
       DiceGameStateAll gameId newState])).
Proof.
  intros Hgame Htype Hroom (Hturn & Hnone & Hroll & Hr). cbv zeta.
  set (player := number_of (dice_player1Id room) (userId socket)) in *.
  assert (Hrun : forall s', s' = processed (gameState room) player roll ->
    roll_dice w socket gameId roll rolled
    = let room' := mkDiceRoom (dice_gameId room) s' (dice_player1Id room)
                     (dice_player2Id room) in
      let w2 := with_game_moves
                  (with_diceRooms w (<[gameId := room']> (diceRooms w)))
                  (game_moves w ++
                   [mkMoveRow gameId (userId socket) roll player
                      (DiceDuel.current_round s') (DiceDuel.current_round s')]) in
      match DiceDuel.game_winner s' with
      | Some winner =>
          let winnerId := id_of winner (dice_player1Id room) (dice_player2Id room) in
          let w3 := complete_game w2 gameId winnerId 10 in
          (with_diceRooms w3 (delete gameId (diceRooms w3)),
           [DiceGameOver gameId winner winnerId s' None])
      | None =>
          (w2, [DiceRolledAll gameId roll player (DiceDuel.current_round s');
                DiceGameStateAll gameId s'])
      end).
  { intros s' ->. unfold roll_dice. rewrite Hgame, Htype, Hroom. cbn [default]. cbv zeta.
    fold player. rewrite Hturn.
    replace (Player_eqb player player) with true by (by destruct player).
    rewrite (bool_decide_eq_true_2 _ Hnone), Hroll. cbn [negb].
    rewrite bool_decide_eq_false_2 by (intros [? [=]]). reflexivity. }
  split; [|split].
  - rewrite (Hrun _ eq_refl). cbv zeta.
    destruct (DiceDuel.game_winner (processed (gameState room) player roll)) as [p|];
      [|reflexivity].
    cbn [fst game_moves with_diceRooms].
    by destruct (complete_game_fields
                   (with_game_moves
                      (with_diceRooms w
                         (<[gameId := mkDiceRoom (dice_gameId room)
                                        (processed (gameState room) player roll)
                                        (dice_player1Id room) (dice_player2Id room)]>
                            (diceRooms w)))
                      (game_moves w ++
                       [mkMoveRow gameId (userId socket) roll player
                          (DiceDuel.current_round (processed (gameState room) player roll))
                          (DiceDuel.current_round (processed (gameState room) player roll))]))
                   gameId (id_of p (dice_player1Id room) (dice_player2Id room)) 10)
      as (_ & _ & _ & _ & _ & ->).
  - destruct (gameState room) as [gid s1 s2 round r1 r2 cur rw gw].
    cbn [DiceDuel.roll_of DiceDuel.game_winner DiceDuel.current_player
         DiceDuel.current_round] in *.
    subst. destruct player; cbn [DiceDuel.roll_of opponent DiceDuel.player1_roll
                                   DiceDuel.player2_roll] in *; subst;
      unfold processed;
      cbn [DiceDuel.player1_roll DiceDuel.player2_roll
           DiceDuel.set_player1_roll DiceDuel.set_player2_roll].
    + destruct r2 as [r2|]; [|reflexivity].
      rewrite (bool_decide_eq_true_2 (is_Some (Some r2))) by eauto. cbn [andb].
      destruct (roll >? r2); [|destruct (r2 >? roll)]; cbn;
        (destruct (_ >=? 3); [reflexivity|]); (destruct (_ >=? 3); reflexivity).
    + destruct r1 as [r1|]; [|reflexivity].
      rewrite (bool_decide_eq_true_2 (is_Some (Some r1))) by eauto. cbn [andb].
      destruct (r1 >? roll); [|destruct (roll >? r1)]; cbn;
        (destruct (_ >=? 3); [reflexivity|]); (destruct (_ >=? 3); reflexivity).
  - intros Hopen. rewrite (Hrun _ eq_refl). cbv zeta. by rewrite Hopen.
Qed.

Lemma dice_roll_recorded_witness :
  game_moves (roll_dice (join_game lobby alice "d").1 alice "d" 5 (1, 1)).1
  = game_moves (join_game lobby alice "d").1 ++ [mkMoveRow "d" "alice" 5 P1 1 1].
Proof.
  destruct (dice_roll_recorded (join_game lobby alice "d").1 alice "d" 5 (1, 1)
              (mkGameRow "alice" "bob" (Some Dice) Active None 0)
              (mkDiceRoom "d" (DiceDuel.initializeDiceGame "d") "alice" "bob"))
    as (Hrow & _).
  - vm_compute. reflexivity.
  - reflexivity.
  - vm_compute. reflexivity.
  - repeat split; lia.
  - exact Hrow.
Defined.

Lemma alter_present {A : Type} (f : A -> A) (m : gmap string A) (i : string) (x : A) :
  m !! i = Some x -> alter f i m = <[i := f x]> m.
Proof.
  intros Hi. apply map_eq. intros j. destruct (decide (i = j)) as [<-|Hne].
  - by rewrite lookup_alter_eq, lookup_insert_eq, Hi.
  - by rewrite lookup_alter_ne, lookup_insert_ne.
Qed.

Lemma complete_game_spec (w : World) (gameId winnerId : string) (pointsAwarded : Z)
    (game : GameRow) :
  games w !! gameId = Some game ->
  complete_game w gameId winnerId pointsAwarded
  = mkWorld (<[gameId := completed game winnerId pointsAwarded]> (games w))
      (award (users w) winnerId pointsAwarded)
      (backgammonRooms w) (diceRooms w) (socketToGame w) (game_moves w).
Proof.
  intros Hgame. unfold complete_game, award, with_games, with_users. cbn.
  rewrite (alter_present _ _ _ _ Hgame).
  destruct (users w !! winnerId); reflexivity.
Qed.

(** X24: the roll that decides a dice duel marks the game completed with
    the winner's id and 10 points awarded, adds 10 to the winner's points
    when the user exists, removes the room of the duel and tells the room
    who has won; no other row and no other room changes. *)
Theorem dice_roll_decides (w : World) (socket : Socket) (gameId : string) (roll : Z)
    (rolled : Z * Z) (game : GameRow) (room : DiceGameRoom) (winner : Player) :
  games w !! gameId = Some game -> row_game_type game = Some Dice ->
  diceRooms w !! gameId = Some room ->
  may_roll (gameState room) (number_of (dice_player1Id room) (userId socket)) roll ->
  DiceDuel.game_winner
    (processed (gameState room) (number_of (dice_player1Id room) (userId socket)) roll)
    = Some winner ->
  let newState :=
    processed (gameState room) (number_of (dice_player1Id room) (userId socket)) roll in
  let winnerId := id_of winner (dice_player1Id room) (dice_player2Id room) in
  games (roll_dice w socket gameId roll rolled).1
    = <[gameId := completed game winnerId 10]> (games w) /\
  users (roll_dice w socket gameId roll rolled).1 = award (users w) winnerId 10 /\
  diceRooms (roll_dice w socket gameId roll rolled).1 = delete gameId (diceRooms w) /\
  backgammonRooms (roll_dice w socket gameId roll rolled).1 = backgammonRooms w /\
  socketToGame (roll_dice w socket gameId roll rolled).1 = socketToGame w /\
  (roll_dice w socket gameId roll rolled).2
    = [DiceGameOver gameId winner winnerId newState None].
Proof.
  intros Hgame Htype Hroom (Hturn & Hnone & Hroll & Hr) Hwin. cbv zeta.
  unfold roll_dice. rewrite Hgame, Htype, Hroom. cbn [default]. cbv zeta.
  rewrite Hturn.
  replace (Player_eqb _ _) with true
    by (by destruct (number_of (dice_player1Id room) (userId socket))).
  rewrite (bool_decide_eq_true_2 _ Hnone), Hroll. cbn [negb].
  rewrite bool_decide_eq_false_2 by (intros [? [=]]).
  rewrite Hwin. cbn [dice_player1Id dice_player2Id].
  rewrite (complete_game_spec _ _ _ _ game) by exact Hgame.
  cbn [fst snd games users diceRooms backgammonRooms socketToGame with_diceRooms
       with_game_moves].
  repeat split. apply delete_insert_eq.
Qed.

Lemma dice_roll_decides_witness :
  games (roll_dice last_round bob "d" 1 (1, 1)).1
    = <[ "d"%string :=
         completed (mkGameRow "alice" "bob" (Some Dice) Active None 0)
           (id_of P1 "alice" "bob") 10 ]> (games last_round) /\
  users (roll_dice last_round bob "d" 1 (1, 1)).1
    = award (users last_round) (id_of P1 "alice" "bob") 10 /\
  diceRooms (roll_dice last_round bob "d" 1 (1, 1)).1
    = delete "d"%string (diceRooms last_round) /\
  backgammonRooms (roll_dice last_round bob "d" 1 (1, 1)).1 = backgammonRooms last_round /\
  socketToGame (roll_dice last_round bob "d" 1 (1, 1)).1 = socketToGame last_round /\
  (roll_dice last_round bob "d" 1 (1, 1)).2
    = [DiceGameOver "d" P1 (id_of P1 "alice" "bob")
         (processed last_round_state (number_of "alice" (userId bob)) 1) None].
Proof.
  apply (dice_roll_decides last_round bob "d" 1 (1, 1)
           (mkGameRow "alice" "bob" (Some Dice) Active None 0)
           (mkDiceRoom "d" last_round_state "alice" "bob") P1).
  - vm_compute. reflexivity.
  - reflexivity.
  - vm_compute. reflexivity.
  - repeat split; lia.
  - reflexivity.
Defined.

(** X25: when a socket that has joined an active game with a room goes
    away, the other player of the room wins by forfeit: the game is marked
    completed with that player's id and 20 points awarded for the board
    game, 10 for the dice duel, the points are added to the winner's when
    the user exists, both rooms of the game are removed and the socket is
    forgotten.  A user that is not player 1 of the room counts as player 2,
    so then player 1 wins. *)
Theorem disconnect_forfeits (w : World) (socket : Socket) (gameId : string)
    (game : GameRow) (player1 player2 : string) :
  socketToGame w !! socketId socket = Some gameId -> gameId <> EmptyString ->
  games w !! gameId = Some game -> status game = Active ->
  match default Backgammon (row_game_type game) with
  | Backgammon =>
      exists room, backgammonRooms w !! gameId = Some room /\
        player1Id room = player1 /\ player2Id room = player2
  | Dice =>
      exists room, diceRooms w !! gameId = Some room /\
        dice_player1Id room = player1 /\ dice_player2Id room = player2
  end ->
  let winnerId := if bool_decide (player1 = userId socket) then player2 else player1 in
  let pointsAwarded :=
    match default Backgammon (row_game_type game) with Dice => 10 | Backgammon => 20 end in
  (disconnect w socket).1
  = mkWorld (<[gameId := completed game winnerId pointsAwarded]> (games w))
      (award (users w) winnerId pointsAwarded)
      (delete gameId (backgammonRooms w)) (delete gameId (diceRooms w))
      (delete (socketId socket) (socketToGame w)) (game_moves w)
  /\ exists event, (disconnect w socket).2 = [event].
Proof.
  intros Hsock Hid Hgame Hactive Hroom. cbv zeta.
  unfold disconnect. rewrite Hsock, (bool_decide_eq_false_2 _ Hid), Hgame.
  assert (Hwinner : id_of (opponent (number_of player1 (userId socket))) player1 player2
                    = if bool_decide (player1 = userId socket) then player2 else player1).
  { unfold number_of. by destruct (bool_decide _). }
  destruct (default Backgammon (row_game_type game));
    destruct Hroom as (room & -> & <- & <-); cbn [fmap option_fmap option_map];
    rewrite (bool_decide_eq_true_2 _ Hactive); cbn [negb];
    rewrite Hwinner, (complete_game_spec _ _ _ _ game) by exact Hgame;
    cbn [fst snd games users diceRooms backgammonRooms socketToGame game_moves
         with_diceRooms with_backgammonRooms with_socketToGame];
    split; eauto.
Qed.

Lemma disconnect_forfeits_witness :
  (disconnect (join_game lobby alice "g").1 alice).1
  = mkWorld (<[ "g"%string :=
                completed (mkGameRow "alice" "bob" (Some Backgammon) Active None 0)
                  (if bool_decide ("alice"%string = userId alice) then "bob"%string
                   else "alice"%string) 20 ]>
               (games (join_game lobby alice "g").1))
      (award (users (join_game lobby alice "g").1)
         (if bool_decide ("alice"%string = userId alice) then "bob"%string
          else "alice"%string) 20)
      (delete "g"%string (backgammonRooms (join_game lobby alice "g").1))
      (delete "g"%string (diceRooms (join_game lobby alice "g").1))
      (delete (socketId alice) (socketToGame (join_game lobby alice "g").1))
      (game_moves (join_game lobby alice "g").1)
  /\ exists event, (disconnect (join_game lobby alice "g").1 alice).2 = [event].
Proof.
  apply (disconnect_forfeits (join_game lobby alice "g").1 alice "g"
           (mkGameRow "alice" "bob" (Some Backgammon) Active None 0) "alice" "bob").
  - vm_compute. reflexivity.
  - discriminate.
  - vm_compute. reflexivity.
  - reflexivity.
  - exists (new_room "g" "alice" "bob"). split; [vm_compute; reflexivity|]. split; reflexivity.
Defined.

(** X26: in every other case [disconnect] awards nothing: when the socket
    has joined no game, or the game has no row, is not active or has no
    room of its kind, the database and the rooms stay as they are and
    nothing is sent; at most the entry of the socket is removed. *)
Theorem disconnect_without_forfeit (w : World) (socket : Socket) :
  (forall gameId game,
     socketToGame w !! socketId socket = Some gameId -> gameId <> EmptyString ->
     games w !! gameId = Some game -> status game = Active ->
     match default Backgammon (row_game_type game) with
     | Backgammon => backgammonRooms w !! gameId = None
     | Dice => diceRooms w !! gameId = None
     end) ->
  disconnect w socket = (w, [])
  \/ disconnect w socket
     = (with_socketToGame w (delete (socketId socket) (socketToGame w)), []).
Proof.
  intros Hno. unfold disconnect.
  destruct (socketToGame w !! socketId socket) as [gameId|] eqn:Hsock; [|by left].
  destruct (decide (gameId = EmptyString)) as [Hid|Hid].
  { rewrite (bool_decide_eq_true_2 _ Hid). by left. }
  rewrite (bool_decide_eq_false_2 _ Hid). right.
  destruct (games w !! gameId) as [game|] eqn:Hgame; [|reflexivity].
  specialize (Hno gameId game eq_refl Hid Hgame).
  destruct (decide (status game = Active)) as [Hactive|Hnot].
  - specialize (Hno Hactive).
    destruct (default Backgammon (row_game_type game)); rewrite Hno; reflexivity.
  - rewrite (bool_decide_eq_false_2 _ Hnot). cbn [negb].
    destruct (default Backgammon (row_game_type game));
      [destruct (backgammonRooms w !! gameId) | destruct (diceRooms w !! gameId)];
      cbn [fmap option_fmap option_map]; reflexivity.
Qed.

Lemma disconnect_without_forfeit_witness :
  disconnect lobby alice = (lobby, [])
  \/ disconnect lobby alice
     = (with_socketToGame lobby (delete (socketId alice) (socketToGame lobby)), []).
Proof.
  apply disconnect_without_forfeit. intros gameId game Hsock. discriminate Hsock.
Defined.

(** *** Runs of requests *)

Lemma handler_roll_dice_rooms (rooms : Rooms) (user gameId : string) (game : option Game)
    (rolled : Z * Z) (k : string) :
  is_Some ((Handler.roll_dice rooms user gameId game rolled).1 !! k)
  <-> is_Some (rooms !! k).
Proof.
  unfold Handler.roll_dice, roll_begin.
  destruct game as [g|]; [|reflexivity].
  destruct (default Backgammon (game_type g)); [|reflexivity].
  destruct (rooms !! gameId) as [room|] eqn:Hroom; [|reflexivity].
  destruct (negb _); [reflexivity|]. destruct (bool_decide _); [reflexivity|].
  match goal with |- context [roll_finish ?m ?r ?p] =>
    pose proof (roll_finish_rooms m r p) as Hfin; destruct (roll_finish m r p) end.
  cbn [fst] in *. subst. destruct (decide (gameId = k)) as [<-|Hne].
  - rewrite lookup_insert_eq, Hroom. split; eauto.
  - by rewrite lookup_insert_ne.
Qed.

(** What one request does to the database: nothing, or the completion of
    one active game. *)
Lemma serve_database (w : World) (r : Request) :
  rooms_active w ->
  games (serve w r).1 = games w /\ users (serve w r).1 = users w
  \/ exists gameId game winnerId pointsAwarded,
       games w !! gameId = Some game /\ status game = Active /\
       (pointsAwarded = 10 \/ pointsAwarded = 20) /\
       games (serve w r).1 = <[gameId := completed game winnerId pointsAwarded]> (games w) /\
       users (serve w r).1 = award (users w) winnerId pointsAwarded.
Proof.
  intros Hact. destruct r as [socket gameId|socket gameId roll rolled|socket];
    cbn [serve].
  - left. unfold join_game.
    destruct (games w !! gameId) as [game|]; [|auto].
    destruct (_ && _); [auto|]. destruct (negb _); [auto|]. cbv zeta.
    destruct (default Backgammon (row_game_type game)); auto.
  - unfold roll_dice.
    destruct (games w !! gameId) as [game|] eqn:Hgame; [|auto].
    destruct (default Backgammon (row_game_type game)) eqn:Htype.
    + left. by destruct (Handler.roll_dice _ _ _ _ _).
    + destruct (diceRooms w !! gameId) as [room|] eqn:Hroom; [|auto]. cbv zeta.
      destruct (negb _); [auto|]. destruct (negb _); [auto|].
      destruct (bool_decide _); [auto|].
      match goal with |- context [DiceDuel.game_winner ?s] =>
        destruct (DiceDuel.game_winner s) as [winner|] end; [|auto].
      right. destruct (proj2 (Hact gameId)) as (game' & Hgame' & Hactive & _); [eauto|].
      rewrite Hgame in Hgame'. injection Hgame' as <-.
      eexists gameId, game, _, 10. split; [exact Hgame|]. split; [exact Hactive|].
      split; [auto|].
      rewrite (complete_game_spec _ _ _ _ game) by exact Hgame. cbn. auto.
  - unfold disconnect.
    destruct (socketToGame w !! socketId socket) as [gameId|]; [|auto].
    destruct (bool_decide (gameId = EmptyString)); [auto|].
    destruct (games w !! gameId) as [game|] eqn:Hgame; [|auto].
    match goal with |- context [match ?o with Some _ => _ | None => _ end] =>
      destruct o as [[[player1 player2] notify]|] end; [|auto].
    destruct (decide (status game = Active)) as [Hactive|Hnot].
    + rewrite (bool_decide_eq_true_2 _ Hactive). cbn [negb]. right.
      eexists gameId, game, _, _. split; [exact Hgame|]. split; [exact Hactive|].
      rewrite (complete_game_spec _ _ _ _ game) by exact Hgame.
      split; [|cbn; split; reflexivity].
      destruct (default Backgammon (row_game_type game)); auto.
    + rewrite (bool_decide_eq_false_2 _ Hnot). auto.
Qed.

(** One request keeps every room with an active game of its kind. *)
Lemma serve_rooms_active (w : World) (r : Request) :
  rooms_active w -> rooms_active (serve w r).1.
Proof.
  intros Hact. destruct r as [socket gameId|socket gameId roll rolled|socket];
    cbn [serve].
  - unfold join_game.
    destruct (games w !! gameId) as [game|] eqn:Hgame; [|exact Hact].
    destruct (_ && _); [exact Hact|].
    destruct (bool_decide (status game = Active)) eqn:Hactive; cbn [negb]; [|exact Hact].
    apply bool_decide_eq_true_1 in Hactive. cbv zeta.
    destruct (default Backgammon (row_game_type game)) eqn:Htype; intros k;
      cbn [fst games backgammonRooms diceRooms with_socketToGame with_diceRooms
           with_backgammonRooms];
      (split; [|]); intros Hk;
      try (by apply (Hact k));
      (destruct (decide (gameId = k)) as [<-|Hne];
        [eauto | rewrite lookup_insert_ne in Hk by done; by apply (Hact k)]).
  - unfold roll_dice.
    destruct (games w !! gameId) as [game|] eqn:Hgame; [|exact Hact].
    destruct (default Backgammon (row_game_type game)) eqn:Htype.
    + intros k.
      pose proof (handler_roll_dice_rooms (backgammonRooms w) (userId socket) gameId
                    (Some (as_game game)) rolled k) as Hdom.
      destruct (Handler.roll_dice _ _ _ _ _) as [rooms out].
      cbn [fst games backgammonRooms diceRooms with_backgammonRooms] in *.
      split; intros Hk; apply (Hact k); tauto.
    + destruct (diceRooms w !! gameId) as [room|] eqn:Hroom; [|exact Hact]. cbv zeta.
      destruct (negb _); [exact Hact|]. destruct (negb _); [exact Hact|].
      destruct (bool_decide _); [exact Hact|].
      destruct (proj2 (Hact gameId)) as (game' & Hgame' & Hactive & _); [eauto|].
      rewrite Hgame in Hgame'. injection Hgame' as <-.
      match goal with |- context [DiceDuel.game_winner ?s] =>
        destruct (DiceDuel.game_winner s) as [winner|] end.
      * rewrite (complete_game_spec _ _ _ _ game) by exact Hgame.
        intros k. cbn [fst games backgammonRooms diceRooms with_diceRooms with_game_moves].
        destruct (decide (gameId = k)) as [<-|Hne].
        -- split; intros Hk.
           ++ destruct (proj1 (Hact gameId) Hk) as (g & Hg & _ & Hkind). congruence.
           ++ rewrite lookup_delete_eq in Hk. by destruct Hk.
        -- rewrite lookup_insert_ne, lookup_delete_ne, lookup_insert_ne by done.
           apply (Hact k).
      * intros k. cbn [fst games backgammonRooms diceRooms with_diceRooms with_game_moves].
        split; intros Hk; [by apply (Hact k)|].
        destruct (decide (gameId = k)) as [<-|Hne]; [eauto|].
        rewrite lookup_insert_ne in Hk by done. by apply (Hact k).
  - unfold disconnect.
    destruct (socketToGame w !! socketId socket) as [gameId|]; [|exact Hact].
    destruct (bool_decide (gameId = EmptyString)); [exact Hact|].
    destruct (games w !! gameId) as [game|] eqn:Hgame; [|exact Hact].
    match goal with |- context [match ?o with Some _ => _ | None => _ end] =>
      destruct o as [[[player1 player2] notify]|] end; [|exact Hact].
    destruct (negb _); [exact Hact|].
    rewrite (complete_game_spec _ _ _ _ game) by exact Hgame.
    intros k. cbn [fst games backgammonRooms diceRooms with_diceRooms with_backgammonRooms
                   with_socketToGame].
    destruct (decide (gameId = k)) as [<-|Hne].
    + rewrite !lookup_delete_eq. split; intros [? [=]].
    + rewrite lookup_insert_ne, !lookup_delete_ne by done. apply (Hact k).
Qed.

Lemma run_rooms_active (w : World) (rs : list Request) :
  rooms_active w -> rooms_active (run w rs).
Proof.
  revert w. induction rs as [|r rs IH]; intros w Hact; [exact Hact|].
  apply IH. by apply serve_rooms_active.
Qed.

(** X27: every request leaves the database alone or completes exactly
    one game that was active, with 10 or 20 points awarded and the same
    points added to the winner's; so points are only ever added together
    with the completion of a game. *)
Theorem request_completes_at_most_one_game (w : World) (r : Request) :
  rooms_active w ->
  rooms_active (serve w r).1 /\
  (games (serve w r).1 = games w /\ users (serve w r).1 = users w
   \/ exists gameId game winnerId pointsAwarded,
        games w !! gameId = Some game /\ status game = Active /\
        (pointsAwarded = 10 \/ pointsAwarded = 20) /\
        games (serve w r).1 = <[gameId := completed game winnerId pointsAwarded]> (games w) /\
        users (serve w r).1 = award (users w) winnerId pointsAwarded).
Proof.
  intros Hact. split; [by apply serve_rooms_active | by apply serve_database].
Qed.

(** X28: when requests are served one at a time, each handler running to
    its end before the next starts, a completed game is final: whatever
    requests follow, its row keeps its winner and its points awarded, and
    it never has a room again, so no later roll, join or disconnect awards
    points for it a second time.  For handlers that overlap this fails,
    as the schedule [roll_with_disconnect_between] shows. *)
Theorem completed_game_is_final (w : World) (gameId : string) (game : GameRow)
    (rs : list Request) :
  rooms_active w ->
  games w !! gameId = Some game -> status game = Completed ->
  games (run w rs) !! gameId = Some game /\
  backgammonRooms (run w rs) !! gameId = None /\
  diceRooms (run w rs) !! gameId = None.
Proof.
  revert w. induction rs as [|r rs IH]; intros w Hact Hgame Hdone.
  - split; [exact Hgame|].
    split; apply eq_None_not_Some; intros Hk;
      [destruct (proj1 (Hact gameId) Hk) as (g & Hg & Hs & _)
      |destruct (proj2 (Hact gameId) Hk) as (g & Hg & Hs & _)];
      rewrite Hgame in Hg; injection Hg as <-; congruence.
  - apply IH; [by apply serve_rooms_active| |exact Hdone].
    destruct (serve_database w r Hact)
      as [[-> _]|(k & g & winnerId & pts & Hk & Hs & _ & -> & _)]; [exact Hgame|].
    rewrite lookup_insert_ne; [exact Hgame|]. intros ->.
    rewrite Hgame in Hk. injection Hk as <-. congruence.
Qed.

Lemma last_round_active : rooms_active last_round.
Proof.
  intros k. split; intros [room Hroom].
  - discriminate Hroom.
  - cbn [last_round diceRooms] in Hroom. apply lookup_singleton_Some in Hroom as [<- _].
    eexists. split; [vm_compute; reflexivity|]. split; reflexivity.
Qed.

Lemma request_completes_at_most_one_game_witness :
  rooms_active (serve last_round (RollDice bob "d" 1 (1, 1))).1 /\
  (games (serve last_round (RollDice bob "d" 1 (1, 1))).1 = games last_round /\
   users (serve last_round (RollDice bob "d" 1 (1, 1))).1 = users last_round
   \/ exists gameId game winnerId pointsAwarded,
        games last_round !! gameId = Some game /\ status game = Active /\
        (pointsAwarded = 10 \/ pointsAwarded = 20) /\
        games (serve last_round (RollDice bob "d" 1 (1, 1))).1
          = <[gameId := completed game winnerId pointsAwarded]> (games last_round) /\
        users (serve last_round (RollDice bob "d" 1 (1, 1))).1
          = award (users last_round) winnerId pointsAwarded).
Proof.
  apply request_completes_at_most_one_game. exact last_round_active.
Defined.

Lemma completed_game_is_final_witness :
  games (run (serve last_round (RollDice bob "d" 1 (1, 1))).1
           [Disconnect bob; JoinGame alice "d"; RollDice alice "d" 3 (1, 1)]) !! "d"%string
    = Some (completed (mkGameRow "alice" "bob" (Some Dice) Active None 0) "alice" 10) /\
  backgammonRooms (run (serve last_round (RollDice bob "d" 1 (1, 1))).1
                     [Disconnect bob; JoinGame alice "d"; RollDice alice "d" 3 (1, 1)])
    !! "d"%string = None /\
  diceRooms (run (serve last_round (RollDice bob "d" 1 (1, 1))).1
               [Disconnect bob; JoinGame alice "d"; RollDice alice "d" 3 (1, 1)])
    !! "d"%string = None.
Proof.
  apply completed_game_is_final.
  - apply serve_rooms_active. exact last_round_active.
  - vm_compute. reflexivity.
  - reflexivity.
Defined.

End SessionFacts.

(** ** What the client highlights *)

Section ClientFacts.
Import Shared Client.

Lemma isValidMove_regular_eval (b : BackgammonBoard) (p : Player) (from to dv : Z) :
  length (points b) = 24%nat ->
  isValidMove b (FromPoint from) (ToPoint to) p (Some dv) = Ret true <->
  0 <= from <= 23 /\ 0 <= to <= 23 /\ checkers b from p <> 0 /\ to < from /\
  checkers b to (opponent p) <= 1 /\ from - to = dv.
Proof.
  intros Hlen. unfold isValidMove. cbv zeta.
  destruct (Z.ltb_spec from 0); cbn [orb]; [split; [discriminate|lia]|].
  rewrite (Z.gtb_ltb from). destruct (Z.ltb_spec 23 from); cbn [orb];
    [split; [discriminate|lia]|].
  destruct (Z.ltb_spec to 0); cbn [orb]; [split; [discriminate|lia]|].
  rewrite (Z.gtb_ltb to). destruct (Z.ltb_spec 23 to); cbn [orb];
    [split; [discriminate|lia]|].
  destruct (point_at_wf b from Hlen) as (ptf & -> & Hcf); [lia|]. cbn [bindO].
  rewrite Hcf. destruct (Z.eqb_spec (checkers b from p) 0); [split; [discriminate|tauto]|].
  rewrite Z.geb_leb. destruct (Z.leb_spec from to); [split; [discriminate|lia]|].
  destruct (point_at_wf b to Hlen) as (ptt & -> & Hct); [lia|]. cbn [bindO].
  rewrite Hct, Z.gtb_ltb.
  destruct (Z.ltb_spec 1 (checkers b to (opponent p))); [split; [discriminate|lia]|].
  destruct (Z.eqb_spec (from - to) dv); cbn [negb]; [|split; [discriminate|lia]].
  split; [|reflexivity]. intros _. repeat split; try lia; assumption.
Qed.

Lemma isValidMove_bar_eval (b : BackgammonBoard) (p : Player) (to dv : Z) :
  length (points b) = 24%nat ->
  isValidMove b FromBar (ToPoint to) p (Some dv) = Ret true <->
  18 <= to <= 23 /\ checkers b to (opponent p) <= 1 /\ per (bar b) p <> 0 /\
  to = 24 - dv - 1.
Proof.
  intros Hlen. unfold isValidMove. cbv zeta.
  destruct (Z.ltb_spec to 18); cbn [orb]; [split; [discriminate|lia]|].
  rewrite Z.gtb_ltb. destruct (Z.ltb_spec 23 to); cbn [orb]; [split; [discriminate|lia]|].
  destruct (point_at_wf b to Hlen) as (pt & -> & Hc); [lia|]. cbn [bindO].
  rewrite Hc, Z.gtb_ltb.
  destruct (Z.ltb_spec 1 (checkers b to (opponent p))); [split; [discriminate|lia]|].
  destruct (Z.eqb_spec (per (bar b) p) 0); [split; [discriminate|tauto]|].
  destruct (Z.eqb_spec to (24 - dv - 1)); cbn [negb]; [|split; [discriminate|lia]].
  split; [|reflexivity]. intros _. repeat split; try lia; assumption.
Qed.

Lemma collect_pure {I : Type} (body : I -> Outcome (list Dest)) (g : I -> list Dest)
    (idxs : list I) :
  (forall i, i ∈ idxs -> body i = Ret (g i)) ->
  collect body idxs = Ret (idxs ≫= g).
Proof.
  induction idxs as [|i rest IH]; intros Hbody; [reflexivity|].
  cbn [collect]. rewrite (Hbody i) by left. cbn [bindO].
  rewrite IH by (intros j Hj; apply Hbody; by right). reflexivity.
Qed.

(** The test of the client for "all checkers home" agrees with
    [allInHomeBoard] of the rule engine. *)
Lemma client_allInHome (b : BackgammonBoard) (p : Player) :
  WellFormed b ->
  allInHomeBoard b p
  = Ret (negb (existsb (fun i => ((i <? 0) || (i >? 5)) && (checkers b i p >? 0)) (seqZ 0 24))
         && negb (per (bar b) p >? 0)).
Proof.
  intros [Hlen _ Hbar _]. unfold allInHomeBoard. cbv zeta.
  rewrite (outside_home_scan b Hlen p). cbn [bindO].
  destruct (existsb _ _); [reflexivity|]. cbn [negb andb]. f_equal.
  pose proof (Hbar p). rewrite Z.gtb_ltb.
  destruct (Z.eqb_spec (per (bar b) p) 0), (Z.ltb_spec 0 (per (bar b) p));
    try reflexivity; lia.
Qed.

Lemma legal_with_cases (b : BackgammonBoard) (p : Player) (d : Z * Z) (usedDice : list bool)
    (from : Origin) (to : Dest) :
  legal_with isValidMove b p d usedDice from to <->
  (unused usedDice 0 = true /\ isValidMove b from to p (Some (fst d)) = Ret true)
  \/ (unused usedDice 1 = true /\ isValidMove b from to p (Some (snd d)) = Ret true).
Proof.
  unfold legal_with. split.
  - intros (k & Hk & Hun & Hv). destruct k as [|[|k]]; [left | right | lia]; auto.
  - intros [[Hun Hv]|[Hun Hv]]; [exists 0%nat | exists 1%nat]; auto.
Qed.

(** X29: for the selected bar or point, the destinations that the board
    component highlights are exactly those for which [isValidMove] of the
    rule engine accepts the move with a die that is not used yet. *)
Theorem client_highlights_legal_moves (b : BackgammonBoard) (p : Player) (d : Z * Z)
    (usedDice : list bool) (from : Origin) :
  WellFormed b -> 1 <= fst d -> 1 <= snd d -> selectable b p from ->
  exists valid,
    calculateValidDestinations (Some b) (Some d) usedDice p from = Ret valid /\
    forall to, to ∈ valid <-> legal_with isValidMove b p d usedDice from to.
Proof.
  intros Hwf Hd0 Hd1 Hsel. pose proof Hwf as [Hlen Hpts Hbar _].
  unfold calculateValidDestinations. cbv zeta. destruct from as [|from].
  - (* from the bar *)
    cbn [selectable] in Hsel.
    set (g := fun i : Z =>
      if checkers b i (opponent p) <=? 1 then
        (if unused usedDice 0 && (i =? 24 - fst d - 1) then [ToPoint i] else [])
        ++ (if unused usedDice 1 && (i =? 24 - snd d - 1) then [ToPoint i] else [])
      else []).
    rewrite (collect_pure _ g).
    2:{ intros i Hi%elem_of_seqZ.
        destruct (point_at_wf b i Hlen) as (pt & -> & Hc); [lia|].
        cbn [bindO]. unfold g. rewrite Hc. by destruct (_ <=? 1). }
    eexists. split; [reflexivity|]. intros to.
    rewrite legal_with_cases, list_elem_of_bind. split.
    + intros (i & Hin & Hi%elem_of_seqZ). unfold g in Hin.
      destruct (Z.leb_spec (checkers b i (opponent p)) 1); [|by apply elem_of_nil in Hin].
      apply elem_of_app in Hin as [Hin|Hin];
        (match type of Hin with context [unused usedDice ?k] =>
           destruct (unused usedDice k) eqn:Hun end; cbn [andb] in Hin;
          [|by apply elem_of_nil in Hin]);
        (match type of Hin with context [i =? ?e] =>
           destruct (Z.eqb_spec i e) as [Heq|] end; [|by apply elem_of_nil in Hin]);
        apply list_elem_of_singleton in Hin as ->; [left | right];
        (split; [first [exact Hun | reflexivity]|]);
        apply (isValidMove_bar_eval _ _ _ _ Hlen); repeat split; try lia.
    + intros Hlegal.
      assert (Hto : exists t k, to = ToPoint t /\ unused usedDice k = true /\
                (k = 0%nat \/ k = 1%nat) /\
                18 <= t <= 23 /\ checkers b t (opponent p) <= 1 /\ t = 24 - pick d k - 1).
      { destruct to as [|t]; [destruct Hlegal as [[_ [=]]|[_ [=]]]|].
        destruct Hlegal as [[Hun Hv]|[Hun Hv]];
          apply (isValidMove_bar_eval _ _ _ _ Hlen) in Hv as (Ht & Hopen & _ & Heq);
          [exists t, 0%nat | exists t, 1%nat]; repeat split; auto; lia. }
      destruct Hto as (t & k & -> & Hun & Hk & Ht & Hopen & Heq).
      exists t. split; [|apply elem_of_seqZ; lia]. unfold g.
      destruct (Z.leb_spec (checkers b t (opponent p)) 1); [|lia].
      apply elem_of_app. destruct Hk as [-> | ->]; [left | right];
        cbn [pick] in Heq; rewrite Hun, (proj2 (Z.eqb_eq _ _) Heq);
        cbn [andb]; by apply list_elem_of_singleton.
  - (* from a point *)
    cbn [selectable] in Hsel. destruct Hsel as [Hfrom Hocc].
    rewrite (outside_home_scan b Hlen p). cbn [bindO].
    pose proof (client_allInHome b p Hwf) as Hhome.
    set (allInHome := negb (existsb _ _) && negb (per (bar b) p >? 0)) in *.
    set (reg := fun k : nat =>
      if negb (unused usedDice k) then [] else
      if (0 <=? from + pick d k * -1) && (from + pick d k * -1 <? 24) then
        if checkers b (from + pick d k * -1) (opponent p) <=? 1
        then [ToPoint (from + pick d k * -1)] else []
      else []).
    rewrite (collect_pure _ reg).
    2:{ intros k _. unfold reg. destruct (unused usedDice k); cbn [negb]; [|reflexivity].
        destruct (Z.leb_spec 0 (from + pick d k * -1)); cbn [andb]; [|reflexivity].
        destruct (Z.ltb_spec (from + pick d k * -1) 24); [|reflexivity].
        destruct (point_at_wf b (from + pick d k * -1) Hlen) as (pt & -> & Hc); [lia|].
        cbn [bindO]. rewrite Hc. by destruct (_ <=? 1). }
    cbn [bindO].
    set (off := fun k : nat =>
      if negb (unused usedDice k) then [] else
      if from + 1 =? pick d k then [ToOff]
      else if from + 1 <? pick d k then
        if existsb (fun i => checkers b i p >? 0) (seqZ (from + 1) (5 - from))
        then [] else [ToOff]
      else []).
    assert (Hbearing :
      (if allInHome && (0 <=? from) && (from <=? 5) then
         collect (fun dieIndex =>
           if negb (unused usedDice dieIndex) then Ret [] else
           if from + 1 =? pick d dieIndex then Ret [ToOff]
           else if from + 1 <? pick d dieIndex then
             let! higher :=
               any_at (fun i =>
                 let! pt := point_at (points b) i in
                 Ret (count pt p >? 0)) (seqZ (from + 1) (5 - from)) in
             if higher then Ret [] else Ret [ToOff]
           else Ret []) [0%nat; 1%nat]
       else Ret [])
      = Ret (if allInHome && (0 <=? from) && (from <=? 5)
             then [0%nat; 1%nat] ≫= off else [])).
    { destruct (allInHome && (0 <=? from) && (from <=? 5)); [|reflexivity].
      apply collect_pure. intros k _. unfold off.
      destruct (unused usedDice k); cbn [negb]; [|reflexivity].
      destruct (from + 1 =? pick d k); [reflexivity|].
      destruct (from + 1 <? pick d k); [|reflexivity].
      rewrite (higher_scan b Hlen p from) by lia. cbn [bindO].
      match goal with |- context [if existsb ?g ?l then _ else _] =>
        destruct (existsb g l) end; reflexivity. }
    rewrite Hbearing. cbn [bindO].
    eexists. split; [reflexivity|]. intros to.
    rewrite legal_with_cases, elem_of_app.
    assert (Hreg : forall k, to ∈ reg k <->
              unused usedDice k = true /\
              isValidMove b (FromPoint from) to p (Some (pick d k)) = Ret true /\
              to <> ToOff).
    { intros k. unfold reg. destruct (unused usedDice k); cbn [negb];
        [|split; [by intros ?%elem_of_nil | by intros [[=] _]]].
      destruct to as [|t].
      - split; [|by intros (_ & _ & ?)].
        repeat match goal with |- context [if ?c then _ else _] => destruct c end;
          by intros [=]%list_elem_of_singleton || by intros ?%elem_of_nil.
      - rewrite (isValidMove_regular_eval _ _ _ _ _ Hlen).
        assert (Hpick : 1 <= pick d k) by (destruct k; assumption).
        destruct (Z.leb_spec 0 (from + pick d k * -1)); cbn [andb];
          [|split; [by intros ?%elem_of_nil | intros (_ & ? & _); lia]].
        destruct (Z.ltb_spec (from + pick d k * -1) 24);
          [|split; [by intros ?%elem_of_nil | intros (_ & ? & _); lia]].
        destruct (Z.leb_spec (checkers b (from + pick d k * -1) (opponent p)) 1).
        + rewrite list_elem_of_singleton. split.
          * intros [= ->]. repeat split; try lia. discriminate.
          * intros (_ & (_ & _ & _ & _ & _ & Hd) & _). f_equal. lia.
        + split; [by intros ?%elem_of_nil|].
          intros (_ & (_ & _ & _ & _ & Hopen & Heq) & _).
          replace (from + pick d k * -1) with t in * by lia. lia. }
    assert (Hoff : forall k, allInHome && (0 <=? from) && (from <=? 5) = true ->
              (to ∈ off k <->
               unused usedDice k = true /\
               isValidMove b (FromPoint from) to p (Some (pick d k)) = Ret true /\
               to = ToOff)).
    { intros k Hcond. apply andb_true_iff in Hcond as [[Hall _]%andb_true_iff Hle].
      rewrite Hall in Hhome. apply Z.leb_le in Hle.
      unfold off. destruct (unused usedDice k); cbn [negb];
        [|split; [by intros ?%elem_of_nil | by intros [[=] _]]].
      destruct to as [|t].
      - rewrite (isValidMove_off_eval _ _ _ _ Hlen).
        destruct (Z.eqb_spec (from + 1) (pick d k)).
        { rewrite list_elem_of_singleton. split; [|reflexivity]. intros _.
          repeat split; try lia; auto. }
        destruct (Z.ltb_spec (from + 1) (pick d k)).
        + destruct (existsb (fun i => checkers b i p >? 0) (seqZ (from + 1) (5 - from)))
            eqn:E.
          * split; [by intros ?%elem_of_nil|].
            intros (_ & (_ & _ & _ & [?|[_ ?]]) & _); [lia|discriminate].
          * rewrite list_elem_of_singleton. split; [|reflexivity]. intros _.
            repeat split; try lia; auto.
        + split; [by intros ?%elem_of_nil|].
          intros (_ & (_ & _ & _ & [?|[? _]]) & _); lia.
      - split; [|by intros (_ & _ & [=])].
        repeat match goal with |- context [if ?c then _ else _] => destruct c end;
          by intros [=]%list_elem_of_singleton || by intros ?%elem_of_nil. }
    assert (Hreg01 : to ∈ [0%nat; 1%nat] ≫= reg <-> to ∈ reg 0%nat \/ to ∈ reg 1%nat).
    { cbn. rewrite app_nil_r. apply elem_of_app. }
    assert (Hoff01 : to ∈ [0%nat; 1%nat] ≫= off <-> to ∈ off 0%nat \/ to ∈ off 1%nat).
    { cbn. rewrite app_nil_r. apply elem_of_app. }
    rewrite Hreg01, !Hreg. cbn [pick].
    destruct (allInHome && (0 <=? from) && (from <=? 5)) eqn:Hcond.
    + rewrite Hoff01, !Hoff by reflexivity. cbn [pick].
      assert (Hdec : to = ToOff \/ to <> ToOff)
        by (destruct to; [left; reflexivity | right; discriminate]).
      clear -Hdec. tauto.
    + assert (Hnooff : forall dv, isValidMove b (FromPoint from) ToOff p (Some dv) <> Ret true).
      { intros dv (Hall & Hr & _)%(isValidMove_off_eval _ _ _ _ Hlen).
        rewrite Hhome in Hall. injection Hall as Hall. rewrite Hall in Hcond.
        destruct (Z.leb_spec 0 from), (Z.leb_spec from 5); try discriminate; lia. }
      split.
      * intros [[H|H]|H]; [tauto | tauto | by apply elem_of_nil in H].
      * intros [[Hun Hv]|[Hun Hv]]; left; [left | right];
          (split; [exact Hun|]); (split; [exact Hv|]); intros ->; by apply Hnooff in Hv.
Qed.

Lemma client_highlights_legal_moves_witness :
  exists valid,
    calculateValidDestinations (Some home_board) (Some (6, 2)) [false; false] P1 (FromPoint 3)
    = Ret valid /\
    forall to, to ∈ valid
      <-> legal_with isValidMove home_board P1 (6, 2) [false; false] (FromPoint 3) to.
Proof.
  apply (client_highlights_legal_moves home_board P1 (6, 2) [false; false] (FromPoint 3)).
  - apply well_formed_b_ok. reflexivity.
  - cbn. lia.
  - cbn. lia.
  - split; [lia | reflexivity].
Defined.

End ClientFacts.

(** ** A roll that overlaps with a disconnect *)

Section Overlap.
Import Handler Session.

(** Run without anything in between, the two segments are [roll_dice]. *)
Lemma roll_dice_segments (w : World) (socket : Socket) (gameId : string) (roll : Z)
    (rolled : Z * Z) :
  roll_dice w socket gameId roll rolled
  = (let '(w1, out1, pend) := roll_dice_begin w socket gameId roll rolled in
     match pend with
     | None => (w1, out1)
     | Some pend =>
         let '(w2, out2) := roll_dice_finish w1 pend in (w2, out1 ++ out2)
     end).
Proof.
  unfold roll_dice, roll_dice_begin.
  destruct (games w !! gameId) as [game|]; [|reflexivity].
  destruct (default Backgammon (row_game_type game)).
  - by destruct (Handler.roll_dice _ _ _ _ _).
  - destruct (diceRooms w !! gameId) as [room|]; [|reflexivity]. cbv zeta.
    destruct (negb _); [reflexivity|]. destruct (negb _); [reflexivity|].
    destruct (bool_decide _); [reflexivity|].
    unfold roll_dice_finish.
    cbn [pending_dice_room pending_gameId pending_roll pending_player gameState
         dice_player1Id dice_player2Id].
    by destruct (DiceDuel.game_winner _).
Qed.

(** X30: handlers are not served one at a time by anything in the code.
    When the roll that decides a dice duel waits for its insert and a
    socket of the game disconnects in the meantime, the disconnect
    completes the game for the player that stays and awards 10 points,
    and the roll, going on with the room object it holds, completes the
    game again: it overwrites the winner with the winner of the duel and
    awards 10 points a second time.  Served one after the other, in
    either order, the two requests award 10 points once. *)
Theorem overlapping_roll_awards_again (w : World) (roller leaver : Socket)
    (gameId : string) (roll : Z) (rolled : Z * Z) (game : GameRow) (room : DiceGameRoom)
    (winner : Player) :
  games w !! gameId = Some game -> row_game_type game = Some Dice ->
  status game = Active ->
  diceRooms w !! gameId = Some room ->
  may_roll (gameState room) (number_of (dice_player1Id room) (userId roller)) roll ->
  DiceDuel.game_winner
    (processed (gameState room) (number_of (dice_player1Id room) (userId roller)) roll)
    = Some winner ->
  socketToGame w !! socketId leaver = Some gameId -> gameId <> EmptyString ->
  let duelWinner := id_of winner (dice_player1Id room) (dice_player2Id room) in
  let stays :=
    if bool_decide (dice_player1Id room = userId leaver)
    then dice_player2Id room else dice_player1Id room in
  (games (roll_with_disconnect_between w roller gameId roll rolled leaver).1
     = <[gameId := completed game duelWinner 10]> (games w) /\
   users (roll_with_disconnect_between w roller gameId roll rolled leaver).1
     = award (award (users w) stays 10) duelWinner 10) /\
  (games (run w [RollDice roller gameId roll rolled; Disconnect leaver])
     = <[gameId := completed game duelWinner 10]> (games w) /\
   users (run w [RollDice roller gameId roll rolled; Disconnect leaver])
     = award (users w) duelWinner 10) /\
  (games (run w [Disconnect leaver; RollDice roller gameId roll rolled])
     = <[gameId := completed game stays 10]> (games w) /\
   users (run w [Disconnect leaver; RollDice roller gameId roll rolled])
     = award (users w) stays 10).
Proof.
  intros Hgame Htype Hactive Hroom (Hturn & Hnone & Hroll & Hr) Hwin Hsock Hid. cbv zeta.
  set (player := number_of (dice_player1Id room) (userId roller)) in *.
  set (newState := processed (gameState room) player roll) in *.
  set (room' := mkDiceRoom (dice_gameId room) newState (dice_player1Id room)
                  (dice_player2Id room)).
  set (row := mkMoveRow gameId (userId roller) roll player
                (DiceDuel.current_round newState) (DiceDuel.current_round newState)).
  assert (Hwinner : forall user,
    id_of (opponent (number_of (dice_player1Id room) user))
      (dice_player1Id room) (dice_player2Id room)
    = if bool_decide (dice_player1Id room = user)
      then dice_player2Id room else dice_player1Id room).
  { intros user. unfold number_of. by destruct (bool_decide _). }
  assert (Hbegin : roll_dice_begin w roller gameId roll rolled
    = (with_game_moves (with_diceRooms w (<[gameId := room']> (diceRooms w)))
         (game_moves w ++ [row]), [], Some (mkPendingRoll gameId room' roll player))).
  { unfold roll_dice_begin. rewrite Hgame, Htype, Hroom. cbn [default]. cbv zeta.
    fold player. rewrite Hturn.
    replace (Player_eqb player player) with true by (by destruct player).
    rewrite (bool_decide_eq_true_2 _ Hnone), Hroll. cbn [negb].
    rewrite bool_decide_eq_false_2 by (intros [? [=]]). reflexivity. }
  assert (Hdefault : default Backgammon (row_game_type game) = Dice) by (by rewrite Htype).
  split; [|split].
  - (* the disconnect in between *)
    unfold roll_with_disconnect_between. rewrite Hbegin.
    unfold disconnect.
    cbn [socketToGame games diceRooms backgammonRooms with_game_moves with_diceRooms].
    rewrite Hsock, (bool_decide_eq_false_2 _ Hid), Hgame, Hdefault, lookup_insert_eq.
    cbn [fmap option_fmap option_map dice_player1Id dice_player2Id room'].
    rewrite (bool_decide_eq_true_2 _ Hactive). cbn [negb].
    rewrite Hwinner, (complete_game_spec _ _ _ _ game) by exact Hgame.
    unfold roll_dice_finish.
    cbn [pending_dice_room pending_gameId gameState room' dice_player1Id dice_player2Id].
    fold newState. rewrite Hwin.
    erewrite complete_game_spec by (cbn; apply lookup_insert_eq).
    cbn [fst games users with_diceRooms with_backgammonRooms with_socketToGame
         with_game_moves].
    split; [|reflexivity]. by rewrite insert_insert_eq.
  - (* the roll, then the disconnect *)
    unfold run. cbn [foldl serve].
    assert (Hroll1 : (roll_dice w roller gameId roll rolled).1
      = mkWorld (<[gameId := completed game (id_of winner (dice_player1Id room)
                                               (dice_player2Id room)) 10]> (games w))
          (award (users w) (id_of winner (dice_player1Id room) (dice_player2Id room)) 10)
          (backgammonRooms w) (delete gameId (diceRooms w)) (socketToGame w)
          (game_moves w ++ [row])).
    { rewrite roll_dice_segments, Hbegin. unfold roll_dice_finish.
      cbn [pending_dice_room pending_gameId gameState room' dice_player1Id dice_player2Id].
      fold newState. rewrite Hwin.
      rewrite (complete_game_spec _ _ _ _ game) by exact Hgame.
      cbn [fst games users diceRooms backgammonRooms socketToGame game_moves
           with_diceRooms with_game_moves].
      by rewrite delete_insert_eq. }
    rewrite Hroll1. unfold disconnect.
    cbn [socketToGame games diceRooms backgammonRooms].
    rewrite Hsock, (bool_decide_eq_false_2 _ Hid), lookup_insert_eq.
    cbn [completed row_game_type]. rewrite Hdefault, lookup_delete_eq.
    cbn [fmap option_fmap option_map fst games users with_socketToGame]. auto.
  - (* the disconnect, then the roll *)
    unfold run. cbn [foldl serve].
    assert (Hleave : (disconnect w leaver).1
      = mkWorld (<[gameId := completed game
                     (if bool_decide (dice_player1Id room = userId leaver)
                      then dice_player2Id room else dice_player1Id room) 10]> (games w))
          (award (users w)
             (if bool_decide (dice_player1Id room = userId leaver)
              then dice_player2Id room else dice_player1Id room) 10)
          (delete gameId (backgammonRooms w)) (delete gameId (diceRooms w))
          (delete (socketId leaver) (socketToGame w)) (game_moves w)).
    { unfold disconnect.
      rewrite Hsock, (bool_decide_eq_false_2 _ Hid), Hgame, Hdefault, Hroom.
      cbn [fmap option_fmap option_map].
      rewrite (bool_decide_eq_true_2 _ Hactive). cbn [negb].
      rewrite Hwinner, (complete_game_spec _ _ _ _ game) by exact Hgame. reflexivity. }
    rewrite Hleave. unfold roll_dice. cbn [games diceRooms].
    rewrite lookup_insert_eq. cbn [completed row_game_type]. rewrite Hdefault.
    rewrite lookup_delete_eq. cbn [fst games users]. auto.
Qed.

Lemma overlapping_roll_awards_again_witness :
  (games (roll_with_disconnect_between last_round bob "d" 1 (1, 1) alice).1
     = <[ "d"%string :=
          completed (mkGameRow "alice" "bob" (Some Dice) Active None 0)
            (id_of P1 "alice" "bob") 10 ]> (games last_round) /\
   users (roll_with_disconnect_between last_round bob "d" 1 (1, 1) alice).1
     = award (award (users last_round)
                (if bool_decide ("alice"%string = userId alice) then "bob"%string
                 else "alice"%string) 10)
         (id_of P1 "alice" "bob") 10) /\
  (games (run last_round [RollDice bob "d" 1 (1, 1); Disconnect alice])
     = <[ "d"%string :=
          completed (mkGameRow "alice" "bob" (Some Dice) Active None 0)
            (id_of P1 "alice" "bob") 10 ]> (games last_round) /\
   users (run last_round [RollDice bob "d" 1 (1, 1); Disconnect alice])
     = award (users last_round) (id_of P1 "alice" "bob") 10) /\
  (games (run last_round [Disconnect alice; RollDice bob "d" 1 (1, 1)])
     = <[ "d"%string :=
          completed (mkGameRow "alice" "bob" (Some Dice) Active None 0)
            (if bool_decide ("alice"%string = userId alice) then "bob"%string
             else "alice"%string) 10 ]> (games last_round) /\
   users (run last_round [Disconnect alice; RollDice bob "d" 1 (1, 1)])
     = award (users last_round)
         (if bool_decide ("alice"%string = userId alice) then "bob"%string
          else "alice"%string) 10).
Proof.
  apply (overlapping_roll_awards_again last_round bob alice "d" 1 (1, 1)
           (mkGameRow "alice" "bob" (Some Dice) Active None 0)
           (mkDiceRoom "d" last_round_state "alice" "bob") P1).
  - vm_compute. reflexivity.
  - reflexivity.
  - reflexivity.
  - vm_compute. reflexivity.
  - repeat split; lia.
  - reflexivity.
  - vm_compute. reflexivity.
  - discriminate.
Defined.

End Overlap.
